(** * agentic-ops-hub: the web client and the graph bootstrap scripts

    A shallow embedding of the TypeScript client (web/src) and of the Cypher
    bootstrap scripts, followed by the properties of the specification that
    were checked against them.

    Part I holds the definitions, one module per source file.  Part II holds
    the lemmas and the theorems. *)

From Stdlib Require Import List String Ascii Bool Arith NArith ZArith Lia.
From Stdlib Require Import Floats DecimalString.
Import ListNotations.

Set Warnings "-register-all".

Local Open Scope list_scope.
Local Open Scope string_scope.

(* ===================================================================== *)
(** * Part I. Definitions *)
(* ===================================================================== *)

(** ** JavaScript values, exceptions and the operators the client uses *)

Module JS.

(** A JavaScript value as [JSON.parse] builds it, plus [undefined], which
    property access produces.  A number is an IEEE binary64, as in the
    language.  An object keeps its fields in insertion order; a parsed
    object holds each key once and [assoc] reads the first binding. *)
Inductive value : Type :=
| VUndefined
| VNull
| VBool (b : bool)
| VNum (x : float)
| VStr (s : string)
| VArr (xs : list value)
| VObj (fields : list (string * value)).

(** A thrown [Error] object: its [name] and its [message]. *)
Inductive exn : Type := Exn (name message : string).

Definition Error (msg : string) : exn := Exn "Error" msg.
Definition TypeError (msg : string) : exn := Exn "TypeError" msg.
Definition SyntaxError (msg : string) : exn := Exn "SyntaxError" msg.

Definition message (e : exn) : string := let 'Exn _ m := e in m.

(** [String(err)], that is [Error.prototype.toString]. *)
Definition String_of_exn (e : exn) : string :=
  let 'Exn n m := e in
  if String.eqb n "" then m
  else if String.eqb m "" then n
  else n ++ ": " ++ m.

Inductive result (A : Type) : Type :=
| Ok (a : A)
| Throw (e : exn).
Arguments Ok {A} a.
Arguments Throw {A} e.

Fixpoint assoc (k : string) (fs : list (string * value)) : option value :=
  match fs with
  | [] => None
  | (k', v) :: fs' => if String.eqb k k' then Some v else assoc k fs'
  end.

(** [v.k] for a [v] that is neither [null] nor [undefined], and a key [k]
    that no prototype defines (every key the client reads is such a key:
    results, props, id, name, title, labels, items, topic, ts, ...). *)
Definition prop (v : value) (k : string) : value :=
  match v with
  | VObj fs => match assoc k fs with Some x => x | None => VUndefined end
  | _ => VUndefined
  end.

Definition nullish (v : value) : bool :=
  match v with VUndefined | VNull => true | _ => false end.

(** [v?.k] *)
Definition opt_prop (v : value) (k : string) : value :=
  if nullish v then VUndefined else prop v k.

(** [v.k], which throws on [null] and [undefined]. *)
Definition member (v : value) (k : string) : result value :=
  if nullish v
  then Throw (TypeError ("Cannot read properties of null or undefined (reading '" ++ k ++ "')"))
  else Ok (prop v k).

(** ToBoolean *)
Definition truthy (v : value) : bool :=
  match v with
  | VUndefined | VNull => false
  | VBool b => b
  | VNum x => negb (PrimFloat.eqb x 0%float || PrimFloat.is_nan x)
  | VStr s => negb (String.eqb s "")
  | VArr _ | VObj _ => true
  end.

(** [a || b] and [a ?? b] *)
Definition or_else (a b : value) : value := if truthy a then a else b.
Definition coalesce (a b : value) : value := if nullish a then b else a.

(** [a === b].  Arrays and objects compare by reference; the two sides
    compared by the client always come from different allocations, so they
    are never the same object. *)
Definition strict_eq (a b : value) : bool :=
  match a, b with
  | VUndefined, VUndefined => true
  | VNull, VNull => true
  | VBool x, VBool y => Bool.eqb x y
  | VNum x, VNum y => PrimFloat.eqb x y
  | VStr x, VStr y => String.eqb x y
  | _, _ => false
  end.

Definition isArray (v : value) : bool :=
  match v with VArr _ => true | _ => false end.

(** [s.includes(t)] on strings *)
Fixpoint str_includes (t s : string) : bool :=
  String.prefix t s ||
  match s with
  | EmptyString => false
  | String _ s' => str_includes t s'
  end.

(** [x.includes(t)] for a string [t]: the array method (SameValueZero, which
    is [===] on strings), the string method, or no method at all. *)
Definition includes (x : value) (t : string) : result bool :=
  match x with
  | VArr xs => Ok (existsb (strict_eq (VStr t)) xs)
  | VStr s => Ok (str_includes t s)
  | _ => Throw (TypeError "labels.includes is not a function")
  end.

(** [x[0]] for an array or a string (the first code unit; strings are byte
    strings here, so this is exact on ASCII) *)
Definition index0 (x : value) : value :=
  match x with
  | VArr (v :: _) => v
  | VStr (String c _) => VStr (String c EmptyString)
  | VObj fs => prop x "0"
  | _ => VUndefined
  end.

Definition string_of_N (n : N) : string :=
  NilZero.string_of_uint (N.to_uint n).

Section ToString.

(** [Number.prototype.toString], the shortest decimal that reads back as
    the same binary64; it is left to the host. *)
Variable Number_toString : float -> string.

Fixpoint join (sep : string) (xs : list string) : string :=
  match xs with
  | [] => ""
  | [x] => x
  | x :: xs' => x ++ sep ++ join sep xs'
  end.

(** ToString, as a template literal and [encodeURIComponent] apply it.  An
    array is joined with commas, [null] and [undefined] elements giving the
    empty string.  An object is "[object Object]" through
    [Object.prototype.toString], unless it has a [toString] of its own: in
    a parsed value that is never callable, and the conversion throws. *)
Fixpoint to_string (v : value) : result string :=
  match v with
  | VUndefined => Ok "undefined"
  | VNull => Ok "null"
  | VBool true => Ok "true"
  | VBool false => Ok "false"
  | VNum x => Ok (Number_toString x)
  | VStr s => Ok s
  | VArr xs =>
      let fix parts (xs : list value) : result (list string) :=
        match xs with
        | [] => Ok []
        | x :: xs' =>
            match (if nullish x then Ok "" else to_string x) with
            | Throw e => Throw e
            | Ok s =>
                match parts xs' with
                | Throw e => Throw e
                | Ok ss => Ok (s :: ss)
                end
            end
        end in
      match parts xs with
      | Throw e => Throw e
      | Ok ss => Ok (join "," ss)
      end
  | VObj fs =>
      match assoc "toString" fs with
      | Some _ => Throw (TypeError "Cannot convert object to primitive value")
      | None => Ok "[object Object]"
      end
  end.

End ToString.

(** *** Percent encoding *)

Definition hex_digit (n : N) : ascii :=
  if (n <? 10)%N then ascii_of_N (48 + n) else ascii_of_N (55 + n).

Definition percent (c : ascii) : string :=
  let n := N_of_ascii c in
  String "%" (String (hex_digit (n / 16)) (String (hex_digit (n mod 16)) EmptyString)).

Definition is_alnum (c : ascii) : bool :=
  let n := N_of_ascii c in
  ((48 <=? n) && (n <=? 57) || (65 <=? n) && (n <=? 90) || (97 <=? n) && (n <=? 122))%N.

Definition mem_ascii (c : ascii) (s : string) : bool :=
  existsb (Ascii.eqb c) (list_ascii_of_string s).

(** [encodeURIComponent] on a UTF-8 byte string: letters, digits and
    [-_.!~*'()] are kept, every other byte becomes [%XX]. *)
Fixpoint encodeURIComponent (s : string) : string :=
  match s with
  | EmptyString => EmptyString
  | String c s' =>
      (if is_alnum c || mem_ascii c "-_.!~*'()"
       then String c EmptyString else percent c) ++ encodeURIComponent s'
  end.

(** The serializer of [URLSearchParams] (application/x-www-form-urlencoded):
    letters, digits and [*-._] are kept, a space becomes [+]. *)
Fixpoint form_encode (s : string) : string :=
  match s with
  | EmptyString => EmptyString
  | String c s' =>
      (if is_alnum c || mem_ascii c "*-._" then String c EmptyString
       else if Ascii.eqb c " " then "+"
       else percent c) ++ form_encode s'
  end.

Definition URLSearchParams_toString (params : list (string * string)) : string :=
  join "&" (map (fun kv => form_encode (fst kv) ++ "=" ++ form_encode (snd kv)) params).

(** The white space and the line terminators of the language that take one
    byte in UTF-8: tab, LF, VT, FF, CR, space. *)
Definition is_space (c : ascii) : bool :=
  let n := N_of_ascii c in
  ((9 <=? n) && (n <=? 13) || (n =? 32))%N.

Definition byte_is (c : ascii) (n : N) : bool := (N_of_ascii c =? n)%N.

(** U+00A0 (no-break space), in UTF-8 *)
Definition is_space2 (c d : ascii) : bool :=
  byte_is c 0xC2 && byte_is d 0xA0.

(** The white space and the line terminators that take three bytes:
    U+1680, U+2000 to U+200A, U+2028, U+2029, U+202F, U+205F, U+3000 and
    U+FEFF. *)
Definition is_space3 (c d e : ascii) : bool :=
  let n := N_of_ascii e in
  (byte_is c 0xE1 && byte_is d 0x9A && byte_is e 0x80)
  || (byte_is c 0xE2 && byte_is d 0x80
      && (((0x80 <=? n) && (n <=? 0x8A)) || (n =? 0xA8) || (n =? 0xA9)
          || (n =? 0xAF))%N)
  || (byte_is c 0xE2 && byte_is d 0x81 && byte_is e 0x9F)
  || (byte_is c 0xE3 && byte_is d 0x80 && byte_is e 0x80)
  || (byte_is c 0xEF && byte_is d 0xBB && byte_is e 0xBF).

(** [s.trim()] leaves nothing: [s] is made of white space and line
    terminators only ([String.prototype.trim] strips both, at any code
    point that is one: the six bytes above, U+00A0, every space separator
    of Unicode, U+2028, U+2029 and U+FEFF). *)
Fixpoint trim_is_empty (s : string) : bool :=
  match s with
  | EmptyString => true
  | String c s1 =>
      if is_space c then trim_is_empty s1
      else
        match s1 with
        | EmptyString => false
        | String d s2 =>
            if is_space2 c d then trim_is_empty s2
            else
              match s2 with
              | EmptyString => false
              | String e s3 =>
                  if is_space3 c d e then trim_is_empty s3 else false
              end
        end
  end.

End JS.

(** ** The host: fetch, JSON.parse and the component state *)

Module Host.
Import JS.

(** What [fetch] is given.  [body] is the value handed to [JSON.stringify]
    (or [None] when the call passes no body). *)
Record Request : Type := {
  req_method : string;
  req_url : string;
  req_headers : list (string * string);
  req_body : option value
}.

(** What [fetch] resolves to.  [res_json] and [res_text] are the outcomes of
    [res.json()] and [res.text()]. *)
Record Response : Type := {
  res_status : N;
  res_statusText : string;
  res_json : result value;
  res_text : result string
}.

(** [res.ok] *)
Definition ok (r : Response) : bool :=
  ((200 <=? res_status r) && (res_status r <=? 299))%N.

(** The runtime the client runs in.  [backend sent rq] is what [fetch rq]
    settles to after the requests [sent] have been issued: a response, or a
    rejection (the network is unreachable).  [window_defined] is
    [typeof window !== "undefined"]; [window_API_BASE] is
    [window.__API_BASE__]; [import_meta_env] is [import.meta.env] when it is
    defined, holding [VITE_API_BASE] when that is set. *)
Record Runtime : Type := {
  backend : list Request -> Request -> result Response;
  JSON_parse : string -> result value;
  Number_toString : float -> string;
  window_defined : bool;
  window_API_BASE : option string;
  import_meta_env : option (option string)
}.

(** What a computation of the client runs in: the state [S] of the
    component it belongs to, and the requests issued so far, oldest first. *)
Record World (S : Type) : Type := {
  ui : S;
  sent : list Request
}.
Arguments ui {S} w.
Arguments sent {S} w.

(** A computation of the client: it reads and writes the state of its
    component, issues requests, and returns or throws. *)
Definition M (S A : Type) : Type := World S -> result A * World S.

Section Monad.
Context {S : Type}.

Definition ret {A} (a : A) : M S A := fun w => (Ok a, w).

Definition throw {A} (e : exn) : M S A := fun w => (Throw e, w).

Definition bind {A B} (m : M S A) (k : A -> M S B) : M S B :=
  fun w =>
    match m w with
    | (Ok a, w') => k a w'
    | (Throw e, w') => (Throw e, w')
    end.

(** [try { m } catch (e) { h e }] *)
Definition try_catch {A} (m : M S A) (h : exn -> M S A) : M S A :=
  fun w =>
    match m w with
    | (Ok a, w') => (Ok a, w')
    | (Throw e, w') => h e w'
    end.

(** [try { m } finally { f }] for an [f] that does not throw *)
Definition finally {A} (m : M S A) (f : S -> S) : M S A :=
  fun w =>
    let '(r, w') := m w in
    (r, {| ui := f (ui w'); sent := sent w' |}).

(** a state setter of the component *)
Definition set (f : S -> S) : M S unit :=
  fun w => (Ok tt, {| ui := f (ui w); sent := sent w |}).

(** [await p] for an already settled [p] *)
Definition settle {A} (r : result A) : M S A := fun w => (r, w).

Variable rt : Runtime.

Definition fetch (rq : Request) : M S Response :=
  fun w => (backend rt (sent w) rq, {| ui := ui w; sent := sent w ++ [rq] |}).

End Monad.

Declare Scope js_scope.
Delimit Scope js_scope with js.
Notation "x <- m ;; k" := (bind m (fun x => k))
  (at level 61, m at next level, right associativity) : js_scope.
Notation "m ;; k" := (bind m (fun _ => k))
  (at level 61, right associativity) : js_scope.

Definition GET (u : string) : Request :=
  {| req_method := "GET"; req_url := u; req_headers := []; req_body := None |}.

Definition POST (u : string) (content_type : string) (b : option value) : Request :=
  {| req_method := "POST"; req_url := u;
     req_headers := [(content_type, "application/json")]; req_body := b |}.

(** What a call settles to that awaits [fetch], throws
    [`${status} ${statusText}`] unless [res.ok], and then awaits
    [res.json()]: the pattern of [getJSON], [postJSON] and [fetchJSON]. *)
Definition checked_json (r : result Response) : result value :=
  match r with
  | Throw e => Throw e
  | Ok res =>
      if negb (ok res)
      then Throw (Error (string_of_N (res_status res) ++ " " ++ res_statusText res))
      else res_json res
  end.

(** The three ways such a call fails: [fetch] rejects, the status is outside
    2xx, or the body does not decode. *)
Inductive fails_with : result Response -> exn -> Prop :=
| Rejected (e : exn) : fails_with (Throw e) e
| BadStatus (res : Response) :
    ok res = false ->
    fails_with (Ok res)
      (Error (string_of_N (res_status res) ++ " " ++ res_statusText res))
| BadBody (res : Response) (e : exn) :
    ok res = true -> res_json res = Throw e -> fails_with (Ok res) e.

(** Runs a handler from a component state, with no request issued yet. *)
Definition run {S A} (m : M S A) (s : S) : result A * World S :=
  m {| ui := s; sent := [] |}.

End Host.

(** ** web/src/lib/api.ts: the generic client *)

Module LibApi.
Import JS Host.

Definition API_BASE : string := "http://localhost:8000".

Section Client.
Context {S : Type}.
Variable rt : Runtime.

Definition getJSON (path : string) : M S value :=
  (res <- fetch rt (GET (API_BASE ++ path)) ;;
   if negb (ok res)
   then throw (Error (string_of_N (res_status res) ++ " " ++ res_statusText res))
   else settle (res_json res))%js.

Definition postJSON (path : string) (body : value) : M S value :=
  (res <- fetch rt (POST (API_BASE ++ path) "Content-Type" (Some body)) ;;
   if negb (ok res)
   then throw (Error (string_of_N (res_status res) ++ " " ++ res_statusText res))
   else settle (res_json res))%js.

End Client.
End LibApi.

(** ** web/src/api/index.ts: the typed client *)

Module ApiIndex.
Import JS Host.

(** [s.replace(/\/$/, "")]: one trailing slash is removed *)
Fixpoint strip_trailing_slash (s : string) : string :=
  match s with
  | EmptyString => EmptyString
  | String c EmptyString => if Ascii.eqb c "/" then EmptyString else s
  | String c s' => String c (strip_trailing_slash s')
  end.

(** [import.meta.env.VITE_API_BASE?.replace(/\/$/, "") || "http://localhost:8000"].
    The module reads [import.meta.env] without a guard: where it is
    undefined, evaluating the module throws. *)
Definition API_BASE (rt : Runtime) : result string :=
  match import_meta_env rt with
  | None => Throw (TypeError "Cannot read properties of undefined (reading 'VITE_API_BASE')")
  | Some None => Ok "http://localhost:8000"
  | Some (Some s) =>
      let s' := strip_trailing_slash s in
      Ok (if String.eqb s' "" then "http://localhost:8000" else s')
  end.

Section Client.
Context {S : Type}.
Variable rt : Runtime.

Definition get (path : string) (params : option (list (string * string))) : M S value :=
  (base <- settle (API_BASE rt) ;;
   let qs := match params with
             | Some p => "?" ++ URLSearchParams_toString p
             | None => ""
             end in
   res <- fetch rt (GET (base ++ path ++ qs)) ;;
   if negb (ok res)
   then throw (Error (string_of_N (res_status res) ++ " " ++ res_statusText res))
   else settle (res_json res))%js.

Definition post (path : string) (body : option value) : M S value :=
  (base <- settle (API_BASE rt) ;;
   let b := match body with
            | Some v => if truthy v then Some v else None
            | None => None
            end in
   res <- fetch rt (POST (base ++ path) "content-type" b) ;;
   if negb (ok res)
   then (text <- settle (res_text res) ;;
         throw (Error (string_of_N (res_status res) ++ " " ++ res_statusText res
                       ++ ": " ++ text)))
   else settle (res_json res))%js.

End Client.
End ApiIndex.

(** ** web/src/components/ProposedActions.tsx *)

Module ProposedActions.
Import JS Host.

(** [s || ...] on a value that is a string or undefined *)
Definition nonempty (o : option string) : option string :=
  match o with
  | Some s => if String.eqb s "" then None else Some s
  | None => None
  end.

Definition API (rt : Runtime) : string :=
  match nonempty (if window_defined rt then window_API_BASE rt else None) with
  | Some s => s
  | None =>
      match nonempty (match import_meta_env rt with Some e => e | None => None end) with
      | Some s => s
      | None => "http://localhost:8000"
      end
  end.

Record State : Type := {
  rows : value;
  busyId : value;
  err : string
}.

Definition initial : State :=
  {| rows := VArr []; busyId := VNull; err := "" |}.

Definition setRows (v : value) (s : State) : State :=
  {| rows := v; busyId := busyId s; err := err s |}.
Definition setBusyId (v : value) (s : State) : State :=
  {| rows := rows s; busyId := v; err := err s |}.
Definition setErr (e : string) (s : State) : State :=
  {| rows := rows s; busyId := busyId s; err := e |}.

(** [m || d] on strings *)
Definition or_text (m d : string) : string :=
  if String.eqb m "" then d else m.

Definition priority : list string :=
  ["Service"; "Database"; "API"; "Server"; "Topic";
   "Machine"; "Line"; "Plant"; "Sensor"; "Team"].

(** the predicate handed to [results.find] *)
Definition matches (eid r : value) : bool :=
  let p := or_else (opt_prop r "props") (VObj []) in
  strict_eq (opt_prop p "id") eid
  || strict_eq (opt_prop p "name") eid
  || strict_eq (opt_prop p "title") eid.

(** A search result that matches [eid] exactly: an object whose [props] is an
    object holding [eid] as its [id], its [name] or its [title]. *)
Definition exact_match (eid : string) (r : value) : Prop :=
  exists fs ps,
    r = VObj fs /\ assoc "props" fs = Some (VObj ps)
    /\ (assoc "id" ps = Some (VStr eid)
        \/ assoc "name" ps = Some (VStr eid)
        \/ assoc "title" ps = Some (VStr eid)).

(** [for (const t of ts) if (labels.includes(t)) return t;] *)
Fixpoint first_included (labels : value) (ts : list string) : result (option string) :=
  match ts with
  | [] => Ok None
  | t :: ts' =>
      match includes labels t with
      | Throw e => Throw e
      | Ok true => Ok (Some t)
      | Ok false => first_included labels ts'
      end
  end.

(** The body of [resolveEntityTypeBySearch] once the search response [res]
    is decoded: the results, the hit, its labels, the label returned. *)
Definition pick_label (eid res : value) : result value :=
  let results := match opt_prop res "results" with VArr xs => xs | _ => [] end in
  match results with
  | [] => Ok VNull
  | first :: _ =>
      let hit :=
        or_else (match find (matches eid) results with
                 | Some r => r
                 | None => VUndefined
                 end) first in
      let labels := or_else (opt_prop hit "labels") (VArr []) in
      match first_included labels priority with
      | Throw e => Throw e
      | Ok (Some t) => Ok (VStr t)
      | Ok None => Ok (coalesce (index0 labels) VNull)
      end
  end.

(** [(data?.items as AgentAction[]) ?? (Array.isArray(data) ? data : [])] *)
Definition rows_of (data : value) : value :=
  coalesce (opt_prop data "items") (if isArray data then data else VArr []).

Section Component.
Variable rt : Runtime.

Definition fetchJSON {S} (url : string) : M S value :=
  (r <- fetch rt (GET url) ;;
   if negb (ok r)
   then throw (Error (string_of_N (res_status r) ++ " " ++ res_statusText r))
   else settle (res_json r))%js.

(** [`${API}/graph/search?q=${encodeURIComponent(eid)}`] *)
Definition search_url (eid : value) : result string :=
  match to_string (Number_toString rt) eid with
  | Throw e => Throw e
  | Ok q => Ok (API rt ++ "/graph/search?q=" ++ encodeURIComponent q)
  end.

Definition resolveEntityTypeBySearch {S} (eid : value) : M S value :=
  try_catch
    (url <- settle (search_url eid) ;;
     res <- fetchJSON url ;;
     settle (pick_label eid res))%js
    (fun _ => ret VNull).

(** The value [resolveEntityTypeBySearch eid] settles to (it never throws)
    when it is called after the requests [log]. *)
Definition resolved (eid : value) (log : list Request) : value :=
  match fst (resolveEntityTypeBySearch eid {| ui := tt; sent := log |}) with
  | Ok v => v
  | Throw _ => VNull
  end.

Definition load_url : string :=
  API rt ++ "/runbooks/agent-actions?status=pending_approval".

Definition load : M State unit :=
  try_catch
    (set (setErr "") ;;
     data <- fetchJSON load_url ;;
     set (setRows (rows_of data)))%js
    (fun e =>
       (set (setErr (or_text (message e) "Failed to load proposed actions")) ;;
        set (setRows (VArr [])))%js).

(** the request [approve] sends to the execute endpoint: the URL is built
    first, then the body *)
Definition execute_request (row entityType : value) : result Request :=
  match to_string (Number_toString rt) (prop row "runbook_id") with
  | Throw e => Throw e
  | Ok rid =>
      match to_string (Number_toString rt) (prop row "action_id") with
      | Throw e => Throw e
      | Ok aid =>
          Ok (POST (API rt ++ "/runbooks/" ++ encodeURIComponent rid
                    ++ "/execute?mode=execute")
                   "content-type"
                   (Some (VObj
                      [("targets",
                        VArr [VObj [("entity_type", entityType);
                                    ("entity_id", prop row "entity_id")]]);
                       ("reason", VStr ("Approved action " ++ aid ++ " from UI"))])))
      end
  end.

Definition approve (row : value) : M State unit :=
  finally
    (try_catch
       (aid <- settle (member row "action_id") ;;
        set (setBusyId aid) ;;
        set (setErr "") ;;
        found <- resolveEntityTypeBySearch (prop row "entity_id") ;;
        let entityType := or_else found (VStr "Service") in
        rq <- settle (execute_request row entityType) ;;
        r <- fetch rt rq ;;
        if negb (ok r)
        then (txt <- settle (res_text r) ;;
              throw (Error ("Execute failed: " ++ string_of_N (res_status r)
                            ++ " " ++ txt)))
        else load)%js
       (fun e => set (setErr (or_text (message e) "Approval failed"))))
    (setBusyId VNull).

(** The requests [approve row] has sent when it reaches the execute
    endpoint, and the request it sends there. *)
Definition approve_log (row : value) (w : World State) : list Request :=
  (sent w ++ match search_url (prop row "entity_id") with
             | Ok url => [GET url]
             | Throw _ => []
             end)%list.

Definition approve_request (row : value) (w : World State) : result Request :=
  execute_request row
    (or_else (resolved (prop row "entity_id") (sent w)) (VStr "Service")).

End Component.

(** *** What the component renders *)

(** A table row: the five cells, and whether the button is disabled. *)
Record RowView : Type := {
  cells : list value;
  disabled : bool
}.

(** The section: the error banner when [err] is not empty, then either the
    "No proposed actions" paragraph ([None]) or the table. *)
Record View : Type := {
  banner : option string;
  table : option (list RowView)
}.

(** React renders a string or a number as text, nothing for a boolean,
    [null] or [undefined], the items of an array, and throws on an object. *)
Fixpoint child (v : value) : bool :=
  match v with
  | VObj _ => false
  | VArr xs => forallb child xs
  | _ => true
  end.

Definition children (vs : list value) : result (list value) :=
  if forallb child vs then Ok vs
  else Throw (Error "Objects are not valid as a React child").

Definition render_row (busy : value) (r : value) : result RowView :=
  match member r "action_id" with
  | Throw e => Throw e
  | Ok aid =>
      match children [aid; prop r "runbook_id"; prop r "entity_id";
                      or_else (prop r "reasoning") (VStr "-");
                      or_else (prop r "created_at") (VStr "-")] with
      | Throw e => Throw e
      | Ok cs => Ok {| cells := cs; disabled := strict_eq busy aid |}
      end
  end.

Fixpoint map_result {A B} (f : A -> result B) (xs : list A) : result (list B) :=
  match xs with
  | [] => Ok []
  | x :: xs' =>
      match f x with
      | Throw e => Throw e
      | Ok y =>
          match map_result f xs' with
          | Throw e => Throw e
          | Ok ys => Ok (y :: ys)
          end
      end
  end.

(** [rows.length === 0 ? <p>...</p> : rows.map(...)] *)
Definition render_rows {R} (f : value -> result R) (rows : value)
  : result (option (list R)) :=
  match rows with
  | VArr [] => Ok None
  | VArr xs =>
      match map_result f xs with
      | Throw e => Throw e
      | Ok rs => Ok (Some rs)
      end
  | VStr EmptyString => Ok None
  | VObj fs =>
      if strict_eq (prop rows "length") (VNum 0%float) then Ok None
      else Throw (TypeError "rows.map is not a function")
  | _ => Throw (TypeError "rows.map is not a function")
  end.

Definition render (s : State) : result View :=
  match render_rows (render_row (busyId s)) (rows s) with
  | Throw e => Throw e
  | Ok t => Ok {| banner := nonempty (Some (err s)); table := t |}
  end.

End ProposedActions.

(** ** web/src/components/AgentActionsAudit.tsx *)

Module AgentActionsAudit.
Import JS Host.

Definition API (rt : Runtime) : string :=
  match ProposedActions.nonempty
          (if window_defined rt then window_API_BASE rt else None) with
  | Some s => s
  | None =>
      match ProposedActions.nonempty
              (match import_meta_env rt with Some e => e | None => None end) with
      | Some s => s
      | None => "http://localhost:8000"
      end
  end.

Record State : Type := {
  status : string;
  rows : value;
  busy : bool;
  err : string
}.

Definition initial : State :=
  {| status := "all"; rows := VArr []; busy := false; err := "" |}.

Definition setRows (v : value) (s : State) : State :=
  {| status := status s; rows := v; busy := busy s; err := err s |}.
Definition setBusy (b : bool) (s : State) : State :=
  {| status := status s; rows := rows s; busy := b; err := err s |}.
Definition setErr (e : string) (s : State) : State :=
  {| status := status s; rows := rows s; busy := busy s; err := e |}.
Definition setStatus (f : string) (s : State) : State :=
  {| status := f; rows := rows s; busy := busy s; err := err s |}.

(** [(data?.items as AuditRow[]) ?? (Array.isArray(data) ? data : [])] *)
Definition rows_of (data : value) : value :=
  coalesce (opt_prop data "items") (if isArray data then data else VArr []).

Section Component.
Variable rt : Runtime.

Definition fetchJSON {S} (url : string) : M S value :=
  (r <- fetch rt (GET url) ;;
   if negb (ok r)
   then throw (Error (string_of_N (res_status r) ++ " " ++ res_statusText r))
   else settle (res_json r))%js.

Definition url (status : string) : string :=
  let base := API rt ++ "/runbooks/agent-actions" in
  if String.eqb status "all" then base
  else base ++ "?status=" ++ encodeURIComponent status.

(** [load] closes over the [url] of the render it was created in:
    [filter] is the status of that render. *)
Definition load (filter : string) : M State unit :=
  (set (setBusy true) ;;
   set (setErr "") ;;
   finally
     (try_catch
        (data <- fetchJSON (url filter) ;;
         set (setRows (rows_of data)))
        (fun e =>
           set (setErr (ProposedActions.or_text (message e)
                          "Failed to load agent actions")) ;;
           set (setRows (VArr []))))
     (setBusy false))%js.

End Component.

Record View : Type := {
  banner : option string;
  table : option (list (list value))
}.

Definition dash (v : value) : value := or_else v (VStr "-").

Definition render_row (r : value) : result (list value) :=
  match member r "action_id" with
  | Throw e => Throw e
  | Ok aid =>
      ProposedActions.children
        [dash (prop r "created_at"); aid; dash (prop r "runbook_id");
         dash (prop r "entity_id"); dash (prop r "status");
         dash (prop r "triggered_by"); dash (prop r "approved_by");
         dash (prop r "reasoning")]
  end.

Definition render (s : State) : result View :=
  match ProposedActions.render_rows render_row (rows s) with
  | Throw e => Throw e
  | Ok t => Ok {| banner := ProposedActions.nonempty (Some (err s)); table := t |}
  end.

End AgentActionsAudit.

(** ** The live-stream components

    web/src/components/StreamTicker.tsx, web/src/components/EventTicker.tsx
    and NotificationCenter.tsx.  Each keeps a list in component state and
    replaces it, on every message, through a functional update
    [set(prev => [x, ...prev].slice(0, n))].

    React runs the function handed to a state setter when it processes the
    update (while rendering), not inside the call of the setter: what such a
    function throws is not caught by a [try] around the call, it fails the
    render and the component is unmounted.  The state of a component is
    therefore a [result]: the list, or the error its render failed with. *)

Module Stream.
Import JS Host.

(** [[x, ...prev].slice(0, n)] *)
Definition push {A} (n : nat) (x : A) (prev : list A) : list A :=
  firstn n (x :: prev).

(** Applies a functional update to the state of a mounted component. *)
Definition update {A} (f : list A -> result (list A)) (st : result (list A))
  : result (list A) :=
  match st with
  | Ok prev => f prev
  | Throw e => Throw e
  end.

Section Components.
Variable rt : Runtime.

(** StreamTicker: the parsed event, or [{ raw: e.data }] *)
Definition StreamTicker_entry (data : string) : value :=
  match JSON_parse rt data with
  | Ok d => d
  | Throw _ => VObj [("raw", VStr data)]
  end.

Definition StreamTicker_onmessage (st : result (list value)) (data : string)
  : result (list value) :=
  update (fun prev => Ok (push 50 (StreamTicker_entry data) prev)) st.

(** EventTicker: [`${asObj.topic} @ ${asObj.ts}`], evaluated inside the
    update function *)
Definition EventTicker_line (asObj : value) : result string :=
  match member asObj "topic" with
  | Throw e => Throw e
  | Ok topic =>
      match member asObj "ts" with
      | Throw e => Throw e
      | Ok ts =>
          match to_string (Number_toString rt) topic with
          | Throw e => Throw e
          | Ok a =>
              match to_string (Number_toString rt) ts with
              | Throw e => Throw e
              | Ok b => Ok (a ++ " @ " ++ b)
              end
          end
      end
  end.

Definition EventTicker_onmessage (st : result (list string)) (data : string)
  : result (list string) :=
  match JSON_parse rt data with
  | Ok asObj =>
      update (fun m =>
                match EventTicker_line asObj with
                | Ok line => Ok (push 12 line m)
                | Throw e => Throw e
                end) st
  | Throw _ => update (fun m => Ok (push 12 data m)) st
  end.

(** NotificationCenter: the raw payload *)
Definition NotificationCenter_onmessage (st : result (list string)) (data : string)
  : result (list string) :=
  update (fun prev => Ok (push 5 data prev)) st.

(** The state after the messages [msgs] arrived in this order on a freshly
    mounted component. *)
Definition StreamTicker_feed (msgs : list string) : result (list value) :=
  fold_left StreamTicker_onmessage msgs (Ok []).
Definition EventTicker_feed (msgs : list string) : result (list string) :=
  fold_left EventTicker_onmessage msgs (Ok []).
Definition NotificationCenter_feed (msgs : list string) : result (list string) :=
  fold_left NotificationCenter_onmessage msgs (Ok []).

(** what the compact ticker shows for a payload *)
Definition EventTicker_entry (data : string) : result string :=
  match JSON_parse rt data with
  | Ok asObj => EventTicker_line asObj
  | Throw _ => Ok data
  end.

End Components.
End Stream.

(** ** web/src/components/AgentDock.tsx *)

Module AgentDock.
Import JS Host.

Record State : Type := {
  open : bool;
  msg : string;
  busy : bool;
  resp : value;
  showReason : bool
}.

Definition initial : State :=
  {| open := true; msg := ""; busy := false; resp := VNull; showReason := false |}.

Definition setBusy (b : bool) (s : State) : State :=
  {| open := open s; msg := msg s; busy := b; resp := resp s;
     showReason := showReason s |}.
Definition setResp (v : value) (s : State) : State :=
  {| open := open s; msg := msg s; busy := busy s; resp := v;
     showReason := showReason s |}.
Definition setShowReason (b : bool) (s : State) : State :=
  {| open := open s; msg := msg s; busy := busy s; resp := resp s;
     showReason := b |}.
Definition setMsg (m : string) (s : State) : State :=
  {| open := open s; msg := m; busy := busy s; resp := resp s;
     showReason := showReason s |}.

(** [(import.meta as any).env?.VITE_API_BASE ?? "http://localhost:8000"] *)
Definition apiBase (rt : Runtime) : string :=
  match import_meta_env rt with
  | Some (Some s) => s
  | _ => "http://localhost:8000"
  end.

Definition client_error (e : exn) : value :=
  VObj [("reply", VStr (String_of_exn e));
        ("confidence", VNum 0%float);
        ("reasoning_summary", VStr "Client error")].

Section Component.
Variable rt : Runtime.

Definition query_request (m : string) : Request :=
  POST (apiBase rt ++ "/agent/query") "Content-Type"
       (Some (VObj [("message", VStr m)])).

(** [ask] reads [msg] from the render it was created in. *)
Definition ask (m : string) : M State unit :=
  if trim_is_empty m then ret tt
  else
    (set (setBusy true) ;;
     set (setShowReason false) ;;
     finally
       (try_catch
          (r <- fetch rt (query_request m) ;;
           j <- settle (res_json r) ;;
           set (setResp j))
          (fun e => set (setResp (client_error e))))
       (setBusy false))%js.

End Component.

(** what the answer pane shows: [resp.reply] and [resp.reasoning_summary]
    ([resp] is not null there) *)
Definition reply_shown (s : State) : value := prop (resp s) "reply".
Definition summary_shown (s : State) : value := prop (resp s) "reasoning_summary".
Definition confidence_read (s : State) : value :=
  or_else (prop (resp s) "confidence") (VNum 0%float).

End AgentDock.

(** ** The graph bootstrap scripts (Cypher) *)

Module Cypher.

(** *** Schema: constraints and the full-text index *)

(** [CREATE CONSTRAINT name [IF NOT EXISTS] FOR (n:Label) REQUIRE n.prop IS UNIQUE] *)
Record Constraint : Type := {
  c_name : string;
  c_if_not_exists : bool;
  c_label : string;
  c_property : string
}.

(** [CREATE FULLTEXT INDEX name [IF NOT EXISTS] FOR (n:L1|L2|...) ON EACH [n.p1, ...]] *)
Record FulltextIndex : Type := {
  i_name : string;
  i_if_not_exists : bool;
  i_labels : list string;
  i_properties : list string
}.

Inductive ddl : Type :=
| CreateConstraint (c : Constraint)
| CreateFulltextIndex (i : FulltextIndex).

Definition unique_id (name label : string) : ddl :=
  CreateConstraint
    {| c_name := name; c_if_not_exists := true; c_label := label; c_property := "id" |}.

(** The constraint and index statements, in the order of the script. *)
Definition schema : list ddl :=
  [ unique_id "site_id" "Site";
    unique_id "plant_id" "Plant";
    unique_id "line_id" "Line";
    unique_id "machine_id" "Machine";
    unique_id "sensor_id" "Sensor";
    unique_id "service_id" "Service";
    unique_id "database_id" "Database";
    unique_id "team_id" "Team";
    unique_id "incident_id" "Incident";
    unique_id "alert_id" "Alert";
    unique_id "ticket_id" "Ticket";
    unique_id "runbook_id" "Runbook";
    unique_id "action_id" "AgentAction";
    unique_id "api_id" "API";
    unique_id "topic_id" "Topic";
    unique_id "server_id" "Server";
    unique_id "netdev_id" "NetworkDevice";
    unique_id "user_id" "User";
    unique_id "alerttype_id" "AlertType";
    CreateFulltextIndex
      {| i_name := "entity_text"; i_if_not_exists := true;
         i_labels := ["Service"; "Machine"; "Line"; "Plant"; "Database"; "Sensor";
                      "API"; "Server"; "Topic"; "Incident"; "Alert"; "Team"];
         i_properties := ["id"; "name"; "title"] |} ].

Definition constraints_of (ds : list ddl) : list Constraint :=
  flat_map (fun d => match d with CreateConstraint c => [c] | _ => [] end) ds.

Definition indexes_of (ds : list ddl) : list FulltextIndex :=
  flat_map (fun d => match d with CreateFulltextIndex i => [i] | _ => [] end) ds.

Definition guarded (d : ddl) : bool :=
  match d with
  | CreateConstraint c => c_if_not_exists c
  | CreateFulltextIndex i => i_if_not_exists i
  end.

(** The schema objects a database holds. *)
Record Catalog : Type := {
  cat_constraints : list (string * string * string);
  cat_indexes : list (string * list string * list string)
}.

Definition list_eqb (xs ys : list string) : bool :=
  (List.length xs =? List.length ys)%nat
  && forallb (fun p => String.eqb (fst p) (snd p)) (combine xs ys).

Definition has_constraint (c : Constraint) (cat : Catalog) : bool :=
  existsb (fun e => let '(n, l, p) := e in
                    String.eqb n (c_name c)
                    || String.eqb l (c_label c) && String.eqb p (c_property c))
          (cat_constraints cat).

Definition has_index (i : FulltextIndex) (cat : Catalog) : bool :=
  existsb (fun e => let '(n, ls, ps) := e in
                    String.eqb n (i_name i)
                    || list_eqb ls (i_labels i) && list_eqb ps (i_properties i))
          (cat_indexes cat).

(** the object a statement creates is in the catalog *)
Definition present (d : ddl) (cat : Catalog) : bool :=
  match d with
  | CreateConstraint c => has_constraint c cat
  | CreateFulltextIndex i => has_index i cat
  end.

(** The node labels of the data model, as the specification lists them
    (section 3.1). *)
Definition data_model_labels : list string :=
  ["Site"; "Plant"; "Line"; "Machine"; "Sensor";
   "Service"; "Database"; "API"; "Server"; "Topic";
   "Team"; "User";
   "Incident"; "Alert"; "Ticket";
   "Runbook"; "AgentAction";
   "AlertType"; "NetworkDevice"].

(** Modelled from the spec: the external graph engine's handling of a
    guarded statement, "each guarded so re-application is a no-op if already
    present".  A statement whose object is present (by name, or by what it
    constrains or indexes) changes nothing when it carries [IF NOT EXISTS]
    and fails when it does not; otherwise the object is added. *)
Definition apply_ddl (d : ddl) (cat : Catalog) : option Catalog :=
  match d with
  | CreateConstraint c =>
      if has_constraint c cat
      then if c_if_not_exists c then Some cat else None
      else Some {| cat_constraints :=
                     cat_constraints cat ++ [(c_name c, c_label c, c_property c)];
                   cat_indexes := cat_indexes cat |}
  | CreateFulltextIndex i =>
      if has_index i cat
      then if i_if_not_exists i then Some cat else None
      else Some {| cat_constraints := cat_constraints cat;
                   cat_indexes :=
                     cat_indexes cat ++ [(i_name i, i_labels i, i_properties i)] |}
  end.

Fixpoint apply_schema (ds : list ddl) (cat : Catalog) : option Catalog :=
  match ds with
  | [] => Some cat
  | d :: ds' =>
      match apply_ddl d cat with
      | Some cat' => apply_schema ds' cat'
      | None => None
      end
  end.

(** *** Seed data: nodes, relationships and MERGE *)

(** A property value: a string, an integer, or an instant ([datetime()]). *)
Inductive pval : Type :=
| PStr (s : string)
| PInt (z : Z)
| PTime (t : N).

Definition pval_eqb (a b : pval) : bool :=
  match a, b with
  | PStr x, PStr y => String.eqb x y
  | PInt x, PInt y => Z.eqb x y
  | PTime x, PTime y => N.eqb x y
  | _, _ => false
  end.

Definition props := list (string * pval).

Record node : Type := {
  labels : list string;
  nprops : props
}.

(** A relationship between two nodes, named by their position in the store. *)
Record rel : Type := {
  rsrc : nat;
  rtype : string;
  rprops : props;
  rdst : nat
}.

Record graph : Type := {
  nodes : list node;
  rels : list rel
}.

Definition empty : graph := {| nodes := []; rels := [] |}.

Fixpoint lookup (k : string) (ps : props) : option pval :=
  match ps with
  | [] => None
  | (k', v) :: ps' => if String.eqb k k' then Some v else lookup k ps'
  end.

(** [SET n.k = v] *)
Fixpoint set_prop (k : string) (v : pval) (ps : props) : props :=
  match ps with
  | [] => [(k, v)]
  | (k', v') :: ps' =>
      if String.eqb k k' then (k, v) :: ps' else (k', v') :: set_prop k v ps'
  end.

(** The right-hand side of a [SET] item. *)
Inductive expr : Type :=
| Lit (v : pval)
| Datetime.

(** The two forms of [MERGE] the seed script uses:
    [MERGE (var:Label {key}) [ON CREATE SET var.k = e, ...] [ON MATCH SET var.k = e, ...]]
    and [MERGE (a)-[:TYPE {props}]->(b)] between two variables. *)
Inductive clause : Type :=
| MergeNode (var label : string) (key : props)
            (on_create on_match : list (string * expr))
| MergeRel (a rtype : string) (rp : props) (b : string).

Definition has_label (l : string) (n : node) : bool :=
  existsb (String.eqb l) (labels n).

(** every property of the pattern is on the node, with the same value *)
Definition has_props (key : props) (ps : props) : bool :=
  forallb (fun kv => match lookup (fst kv) ps with
                     | Some v => pval_eqb (snd kv) v
                     | None => false
                     end) key.

Definition matches_node (label : string) (key : props) (n : node) : bool :=
  has_label label n && has_props key (nprops n).

Fixpoint find_index {A} (p : A -> bool) (xs : list A) : option nat :=
  match xs with
  | [] => None
  | x :: xs' =>
      if p x then Some 0%nat
      else match find_index p xs' with
           | Some i => Some (S i)
           | None => None
           end
  end.

Fixpoint update_nth {A} (i : nat) (f : A -> A) (xs : list A) : list A :=
  match xs, i with
  | [], _ => []
  | x :: xs', O => f x :: xs'
  | x :: xs', S i' => x :: update_nth i' f xs'
  end.

Definition eval (now : N) (e : expr) : pval :=
  match e with
  | Lit v => v
  | Datetime => PTime now
  end.

Definition apply_sets (now : N) (sets : list (string * expr)) (ps : props) : props :=
  fold_left (fun acc ke => set_prop (fst ke) (eval now (snd ke)) acc) sets ps.

Definition matches_rel (i : nat) (t : string) (rp : props) (j : nat) (r : rel) : bool :=
  (rsrc r =? i)%nat && String.eqb (rtype r) t && has_props rp (rprops r)
  && (rdst r =? j)%nat.

(** The variables a statement has declared so far, the latest first, each
    with the position of its node. *)
Definition bindings := list (string * nat).

Fixpoint bound (v : string) (env : bindings) : option nat :=
  match env with
  | [] => None
  | (v', i) :: env' => if String.eqb v v' then Some i else bound v env'
  end.

(** A statement of a script: the clauses up to a [;]. *)
Definition statement := list clause.

(** Why the engine does not run a statement, or why the model cannot say
    what it does. *)
Inductive stop : Type :=
| AlreadyDeclared (v : string)
| NotModelled (v : string).

Inductive outcome (A : Type) : Type :=
| Done (a : A)
| Stopped (why : stop).
Arguments Done {A} a.
Arguments Stopped {A} why.

(** Modelled from the spec: the external graph engine's find-or-create.
    "Every node creation uses upsert-by-id (find-or-create) with an
    on-create branch that stamps created_at and sets descriptive fields, and
    an on-match branch that only stamps updated_at".

    A node MERGE looks for a node that carries the label and the properties
    of the pattern: when there is one, its ON MATCH items are applied to it;
    when there is none, a node with the label and these properties is
    created and the ON CREATE items are applied.  The result is the graph
    and the position of that node.  [now] is the value of [datetime()]
    while the clause runs. *)
Definition merge_node (now : N) (label : string) (key : props)
    (on_create on_match : list (string * expr)) (g : graph) : graph * nat :=
  match find_index (matches_node label key) (nodes g) with
  | Some i =>
      ({| nodes := update_nth i
                     (fun n => {| labels := labels n;
                                  nprops := apply_sets now on_match (nprops n) |})
                     (nodes g);
          rels := rels g |},
       i)
  | None =>
      ({| nodes := nodes g ++
                     [{| labels := [label];
                         nprops := apply_sets now on_create key |}];
          rels := rels g |},
       List.length (nodes g))
  end.

(** Modelled from the spec: "relationships are created via the same
    find-or-create pattern on their endpoints, then an unconditional upsert
    of the edge".  A relationship MERGE between two nodes creates the
    relationship unless one of that type, with these properties, already
    joins them. *)
Definition merge_rel (i : nat) (t : string) (rp : props) (j : nat) (g : graph) : graph :=
  if existsb (matches_rel i t rp j) (rels g) then g
  else {| nodes := nodes g;
          rels := rels g ++ [{| rsrc := i; rtype := t; rprops := rp; rdst := j |}] |}.

(** One clause of a statement, with the variables the statement has
    declared so far.  The spec does not say how variables are scoped; the
    rules are those of the query language the script is written in.  A
    node pattern with a label or properties declares its variable, and the
    engine refuses a statement that declares a variable twice.  A
    relationship MERGE between two declared variables joins their nodes.
    With an endpoint that the statement has not declared, the engine would
    match or create a whole path, possibly over several rows: the model
    does not cover it. *)
Definition exec (now : N) (c : clause) (st : graph * bindings)
  : outcome (graph * bindings) :=
  let '(g, env) := st in
  match c with
  | MergeNode var label key on_create on_match =>
      match bound var env with
      | Some _ => Stopped (AlreadyDeclared var)
      | None =>
          let r := merge_node now label key on_create on_match g in
          Done (fst r, (var, snd r) :: env)
      end
  | MergeRel a t rp b =>
      match bound a env, bound b env with
      | Some i, Some j => Done (merge_rel i t rp j g, env)
      | None, _ => Stopped (NotModelled a)
      | _, None => Stopped (NotModelled b)
      end
  end.

(** Runs the clauses of a statement in order; [clock k] is the time at which
    clause number [k] of the script runs. *)
Fixpoint exec_all (clock : nat -> N) (k : nat) (cs : list clause)
                  (st : graph * bindings) : outcome (graph * bindings) :=
  match cs with
  | [] => Done st
  | c :: cs' =>
      match exec (clock k) c st with
      | Done st' => exec_all clock (S k) cs' st'
      | Stopped why => Stopped why
      end
  end.

(** One statement, in its own scope: no variable of an earlier statement
    is declared in it. *)
Definition run_statement (clock : nat -> N) (k : nat) (s : statement) (g : graph)
  : outcome graph :=
  match exec_all clock k s (g, []) with
  | Done (g', _) => Done g'
  | Stopped why => Stopped why
  end.

(** What a run of a script reports: the graph it leaves, the number of
    statements that ran, and why it stopped when it did not reach the end. *)
Record report : Type := {
  final : graph;
  ran : nat;
  stopped : option stop
}.

(** The loader is not in the repository.  It is modelled as handing the
    statements to the engine one by one, in the order of the script, each
    in its own transaction, up to the first statement that does not run:
    that statement changes nothing, and what ran before it stays.  [k] is
    the number of clauses and [n] the number of statements that came
    before. *)
Fixpoint run_from (clock : nat -> N) (k n : nat) (ss : list statement) (g : graph)
  : report :=
  match ss with
  | [] => {| final := g; ran := n; stopped := None |}
  | s :: ss' =>
      match run_statement clock k s g with
      | Done g' => run_from clock (k + List.length s) (S n) ss' g'
      | Stopped why => {| final := g; ran := n; stopped := Some why |}
      end
  end.

(** One run of a script against the graph [g]. *)
Definition run_script (ss : list statement) (clock : nat -> N) (g : graph) : report :=
  run_from clock 0 0 ss g.

(** *** Comparing two states of a graph *)

(** two states of a node that differ at most in [updated_at] *)
Definition same_but_updated_at (n1 n2 : node) : Prop :=
  labels n1 = labels n2 /\
  forall k, k <> "updated_at" -> lookup k (nprops n1) = lookup k (nprops n2).

(** [g'] has the nodes of [g], each changed at most in [updated_at], and the
    relationships of [g] *)
Definition same_graph (g g' : graph) : Prop :=
  Forall2 same_but_updated_at (nodes g) (nodes g') /\ rels g = rels g'.

(** [g'] has the nodes of [g], each changed at most in [updated_at], then
    possibly more nodes; and the relationships of [g], then possibly more *)
Definition grows (g g' : graph) : Prop :=
  (exists ns1 ns2,
      nodes g' = (ns1 ++ ns2)%list /\ Forall2 same_but_updated_at (nodes g) ns1)
  /\ (exists rs, rels g' = (rels g ++ rs)%list).

(** *** Statements in the shape of the node statements of the seed script *)

Fixpoint nodupb (xs : list string) : bool :=
  match xs with
  | [] => true
  | x :: xs' => negb (existsb (String.eqb x) xs') && nodupb xs'
  end.

(** The pattern of a node MERGE names each property once and does not name
    [updated_at]; ON CREATE sets none of the pattern's properties; ON MATCH
    sets [updated_at] only.  The pattern of a relationship MERGE names each
    property once. *)
Definition regular (c : clause) : bool :=
  match c with
  | MergeNode _ _ key on_create on_match =>
      nodupb (map fst key)
      && negb (existsb (String.eqb "updated_at") (map fst key))
      && forallb (fun k => negb (existsb (String.eqb k) (map fst key)))
                 (map fst on_create)
      && forallb (fun k => String.eqb k "updated_at") (map fst on_match)
  | MergeRel _ _ rp _ => nodupb (map fst rp)
  end.

(** A statement made of one regular node MERGE. *)
Definition node_statement (s : statement) : bool :=
  match s with
  | [MergeNode v l key oc om] => regular (MergeNode v l key oc om)
  | _ => false
  end.

End Cypher.

(** ** The seed script, statement by statement *)

Module Seed.
Import Cypher.

Definition id_ (i : string) : props := [("id", PStr i)].
Definition id_name (i n : string) : props := [("id", PStr i); ("name", PStr n)].
Definition str (k s : string) : string * expr := (k, Lit (PStr s)).
Definition int (k : string) (z : Z) : string * expr := (k, Lit (PInt z)).
Definition created : string * expr := ("created_at", Datetime).
Definition updated : list (string * expr) := [("updated_at", Datetime)].

(** [MERGE (v:L {id: i})] with no ON CREATE and no ON MATCH *)
Definition merge (v l i : string) : clause := MergeNode v l (id_ i) [] [].
Definition relate (a t b : string) : clause := MergeRel a t [] b.

(** Lines 44 to 97: physical / logical topology, app / infra, orgs / users.
    Thirteen statements of one node MERGE each, each closed by its [;]. *)
Definition seed_nodes : list statement :=
  [ [MergeNode "site" "Site" (id_ "Site-1")
       [str "name" "Factory Campus"; created] updated];
    [MergeNode "plant" "Plant" (id_ "Plant-A")
       [str "name" "Plant A"; created] updated];
    [MergeNode "line" "Line" (id_ "Line-3")
       [str "name" "Assembly Line 3"; created] updated];
    [MergeNode "m1" "Machine" (id_ "M-42")
       [str "name" "Cutter M-42"; str "criticality" "high"; created] updated];
    [MergeNode "m2" "Machine" (id_ "P-7")
       [str "name" "Pump P-7"; str "criticality" "high"; created] updated];
    [MergeNode "s22" "Sensor" (id_ "S-22")
       [str "name" "Vibration S-22"; created] updated];
    [MergeNode "svc" "Service" (id_ "order-service")
       [str "name" "Order Service"; int "tier" 2; created] updated];
    [MergeNode "db" "Database" (id_ "orders-db")
       [str "name" "Orders DB"; str "engine" "postgres"; created] updated];
    [MergeNode "api" "API" (id_ "payments-api")
       [str "name" "Payments API"; str "version" "v1"; created] updated];
    [MergeNode "srv" "Server" (id_ "srv-10")
       [str "name" "App Server 10"; str "az" "us-east-1a"; created] updated];
    [MergeNode "topic1" "Topic" (id_ "orders-events")
       [str "name" "orders-events"; int "partitions" 6; created] updated];
    [MergeNode "team" "Team" (id_ "Team-A")
       [str "name" "Core Platform"; created] updated];
    [MergeNode "user" "User" (id_ "sre-1")
       [str "name" "On-Call SRE 1"; str "role" "SRE"; created] updated] ].

(** Lines 98 to 142: containment and dependencies.  No [;] separates the
    blocks: they are one statement, closed by the [;] of line 142. *)
Definition seed_topology : statement :=
  [ merge "site" "Site" "Site-1";
    merge "plant" "Plant" "Plant-A";
    relate "site" "HAS_PLANT" "plant";
    merge "plant" "Plant" "Plant-A";
    merge "line" "Line" "Line-3";
    relate "plant" "HAS_LINE" "line";
    merge "line" "Line" "Line-3";
    merge "m1" "Machine" "M-42";
    relate "line" "HAS_MACHINE" "m1";
    merge "line" "Line" "Line-3";
    merge "m2" "Machine" "P-7";
    relate "line" "HAS_MACHINE" "m2";
    merge "m1" "Machine" "M-42";
    merge "s22" "Sensor" "S-22";
    relate "m1" "HAS_SENSOR" "s22";
    merge "svc" "Service" "order-service";
    merge "srv" "Server" "srv-10";
    MergeRel "svc" "RUNS_ON" [("strength", PStr "critical")] "srv";
    merge "db" "Database" "orders-db";
    MergeRel "svc" "USES_DB"
      [("dependency_type", PStr "READS_FROM"); ("strength", PStr "critical")] "db";
    merge "api" "API" "payments-api";
    MergeRel "svc" "CALLS_API"
      [("dependency_type", PStr "USES"); ("strength", PStr "normal")] "api";
    merge "topic1" "Topic" "orders-events";
    relate "svc" "PUBLISHES_TO" "topic1";
    MergeNode "svc2" "Service" (id_ "billing-service")
      [str "name" "Billing Service"; int "tier" 2; created] updated ].

(** Lines 144 to 235: the statements that follow, each up to its [;]; the
    last one (from line 215) has none. *)
Definition seed_rest : list statement :=
  [ (* lines 144 to 153 *)
    [ relate "svc2" "CONSUMES_FROM" "topic1";
      merge "team" "Team" "Team-A";
      relate "svc" "OWNED_BY" "team";
      relate "svc2" "OWNED_BY" "team";
      MergeNode "inc" "Incident" (id_ "INC-1001")
        [str "title" "Line-3 throughput drop"; str "severity" "high";
         str "status" "open"; created] updated ];
    (* lines 155 to 163 *)
    [ merge "m2" "Machine" "P-7";
      merge "svc" "Service" "order-service";
      relate "inc" "AFFECTS" "m2";
      relate "inc" "AFFECTS" "svc";
      MergeNode "al" "Alert" (id_ "ALERT-5001")
        [str "name" "Vibration high S-22"; str "severity" "warning";
         str "source" "monitoring"; created] updated ];
    (* lines 165 to 171 *)
    [ merge "s22" "Sensor" "S-22";
      relate "al" "ABOUT" "s22";
      MergeNode "al2" "Alert" (id_ "ALERT-5002")
        [str "name" "Pump P-7 temp spike"; str "severity" "warning";
         str "source" "monitoring"; created] updated ];
    (* lines 172 to 177 *)
    [ relate "al" "CORRELATED_WITH" "al2";
      MergeNode "t" "Ticket" (id_ "TIC-9001")
        [str "title" "Investigate Line-3"; str "status" "open"; created] updated ];
    (* lines 178 to 182 *)
    [ relate "t" "TRACKS" "inc";
      MergeNode "rb" "Runbook" (id_ "RB-restore-pump")
        [str "name" "Restore Pump P-7"; str "risk" "low"; created] updated ];
    (* lines 184 to 189 *)
    [ merge "svc" "Service" "order-service";
      relate "rb" "APPLIES_TO" "svc";
      MergeNode "atype" "AlertType" (id_ "vibration-high")
        [str "name" "Vibration High"; created] updated ];
    (* lines 190 to 195 *)
    [ relate "rb" "APPLIES_TO" "atype";
      MergeNode "aa" "AgentAction" (id_ "ACT-7001")
        [str "action" "run_playbook"; str "status" "completed"; created] updated ];
    (* lines 197 to 214 *)
    [ merge "u" "User" "sre-1";
      relate "aa" "EXECUTED_BY" "u";
      merge "inc" "Incident" "INC-1001";
      relate "aa" "RELATES_TO" "inc";
      merge "m2" "Machine" "P-7";
      relate "aa" "TARGETS" "m2";
      merge "al" "Alert" "ALERT-5001";
      relate "aa" "BASED_ON" "al";
      relate "aa" "BASED_ON" "rb";
      MergeNode "approver" "User" (id_ "lead-1")
        [str "name" "SRE Lead"; str "role" "Lead"; created] updated ];
    (* lines 215 to 235 *)
    [ relate "aa" "APPROVED_BY" "approver";
      merge "s22" "Sensor" "S-22";
      merge "m1" "Machine" "M-42";
      relate "s22" "ATTACHED_TO" "m1";
      MergeNode "s" "Service" (id_name "order-service" "Order Service") [] [];
      MergeNode "db" "Database" (id_name "orders-db" "Orders DB") [] [];
      MergeNode "api" "API" (id_name "payments-api" "Payments API") [] [];
      MergeNode "srv" "Server" (id_name "srv-1" "K8s Node 1") [] [];
      MergeNode "t" "Team" (id_name "team-checkout" "Checkout Team") [] [];
      relate "s" "OWNED_BY" "t";
      MergeRel "s" "USES_DB"
        [("dependency_type", PStr "READS_FROM"); ("strength", PStr "critical")] "db";
      MergeRel "s" "CALLS_API"
        [("dependency_type", PStr "USES"); ("strength", PStr "normal")] "api";
      MergeRel "s" "RUNS_ON" [("strength", PStr "critical")] "srv";
      MergeNode "topic" "Topic" (id_name "orders.events" "orders.events") [] [];
      relate "s" "PUBLISHES_TO" "topic" ] ].

(** The script: 23 statements, 85 clauses. *)
Definition seed : list statement :=
  seed_nodes ++ seed_topology :: seed_rest.

(** The seed loader: one run of the script. *)
Definition run_seed (clock : nat -> N) (g : graph) : report :=
  run_script seed clock g.

(** *** Observations on a graph and on a script *)

Definition id_is (i : string) (n : node) : bool :=
  match lookup "id" (nprops n) with
  | Some v => pval_eqb v (PStr i)
  | None => false
  end.

(** the number of nodes with label [l] and id [i] *)
Definition count_nodes (l i : string) (g : graph) : nat :=
  List.length (filter (fun n => has_label l n && id_is i n) (nodes g)).

(** the (label, id) pairs a statement declares *)
Definition declared_by (s : statement) : list (string * string) :=
  flat_map (fun c => match c with
                     | MergeNode _ l key _ _ =>
                         match lookup "id" key with
                         | Some (PStr i) => [(l, i)]
                         | _ => []
                         end
                     | MergeRel _ _ _ _ => []
                     end) s.

(** the (label, id) pairs a script declares *)
Definition declared (ss : list statement) : list (string * string) :=
  flat_map declared_by ss.

(** the statement declares a node of label [l] and id [i] *)
Definition declares (l i : string) (s : statement) : bool :=
  existsb (fun li => String.eqb (fst li) l && String.eqb (snd li) i) (declared_by s).

(** the statement has a relationship MERGE of type [t] *)
Definition names_rel (t : string) (s : statement) : bool :=
  existsb (fun c => match c with
                    | MergeRel _ t' _ _ => String.eqb t t'
                    | MergeNode _ _ _ _ _ => false
                    end) s.

(** the properties an ON MATCH branch sets *)
Definition on_match_keys (c : clause) : list string :=
  match c with
  | MergeNode _ _ _ _ on_match => map fst on_match
  | MergeRel _ _ _ _ => []
  end.

(** a relationship of type [t] from node [i] to node [j] *)
Definition edge (g : graph) (i : nat) (t : string) (j : nat) : Prop :=
  exists r, In r (rels g) /\ rsrc r = i /\ rtype r = t /\ rdst r = j.

(** a directed path from [i] to [j] along relationships of the given types *)
Fixpoint path (g : graph) (types : list string) (i j : nat) : Prop :=
  match types with
  | [] => i = j
  | t :: ts => exists k, edge g i t k /\ path g ts k j
  end.

End Seed.

(** ** The three-tier resolution of the API base, as the specification words it *)

Module ApiBase.
Import JS Host.

(** a global runtime override is in place *)
Definition has_override (rt : Runtime) (s : string) : Prop :=
  window_defined rt = true /\ window_API_BASE rt = Some s /\ s <> "".

(** the build supplied a value through the environment *)
Definition has_env_value (rt : Runtime) (s : string) : Prop :=
  import_meta_env rt = Some (Some s) /\ s <> "".

(** [base] is "resolved, in priority order, from a global runtime override,
    an environment-supplied build-time value, falling back to a fixed local
    default host/port". *)
Definition three_tier (base : Runtime -> string) : Prop :=
  forall rt,
    (forall s, has_override rt s -> base rt = s)
    /\ ((forall s, ~ has_override rt s) ->
        forall s, has_env_value rt s -> base rt = s)
    /\ ((forall s, ~ has_override rt s) -> (forall s, ~ has_env_value rt s) ->
        base rt = "http://localhost:8000").

(** the base of the generic client, and the base the typed client ends with
    where its module loads *)
Definition lib_base (rt : Runtime) : string := LibApi.API_BASE.

Definition index_base (rt : Runtime) : string :=
  match ApiIndex.API_BASE rt with
  | Ok s => s
  | Throw _ => ""
  end.

End ApiBase.

(** ** Sample hosts and inputs, for the examples of Part II *)

Module Samples.
Import JS Host.

Definition response (status : N) (text : string) (body : result value) : Response :=
  {| res_status := status; res_statusText := text;
     res_json := body; res_text := Ok text |}.

(** [JSON.parse] on the few payloads the examples use; every other payload
    of the examples is not JSON. *)
Definition parse (s : string) : result value :=
  if String.eqb s "null" then Ok VNull
  else if String.eqb s "true" then Ok (VBool true)
  else if String.eqb s "{}" then Ok (VObj [])
  else if String.eqb s "[]" then Ok (VArr [])
  else Throw (SyntaxError "Unexpected token").

(** A host in which no configuration is set and [fetch] is answered by [net]. *)
Definition host (net : list Request -> Request -> result Response) : Runtime :=
  {| backend := net;
     JSON_parse := parse;
     Number_toString := fun _ => "0";
     window_defined := true;
     window_API_BASE := None;
     import_meta_env := Some None |}.

(** every request gets the same answer *)
Definition always (r : result Response) : Runtime := host (fun _ _ => r).

(** a host with both a global override and a build-time value *)
Definition configured : Runtime :=
  {| backend := fun _ _ => Throw (TypeError "Failed to fetch");
     JSON_parse := parse;
     Number_toString := fun _ => "0";
     window_defined := true;
     window_API_BASE := Some "http://gateway:9000";
     import_meta_env := Some (Some "http://build:8000/") |}.

Definition unreachable : Runtime :=
  always (Throw (TypeError "Failed to fetch")).

Definition not_found : Runtime :=
  always (Ok (response 404 "Not Found" (Throw (SyntaxError "Unexpected token")))).

Definition fresh {S} (s : S) : World S := {| ui := s; sent := [] |}.

(** sixty stream payloads, none of them JSON: evt-0 ... evt-59 *)
Definition events : list string :=
  map (fun k => "evt-" ++ string_of_N (N.of_nat k)) (seq 0 60).

(** sixty stream payloads, the first of which is the JSON text null *)
Definition events_after_null : list string :=
  "null" :: map (fun k => "evt-" ++ string_of_N (N.of_nat k)) (seq 1 59).

(** the agent endpoint answers 500 with a JSON error body *)
Definition error_body : value :=
  VObj [("detail", VStr "Internal Server Error")].

Definition server_error : Runtime :=
  always (Ok (response 500 "Internal Server Error" (Ok error_body))).

(** a proposed action on the machine M-42 *)
Definition action : value :=
  VObj [("action_id", VStr "ACT-7002");
        ("runbook_id", VStr "RB-restore-pump");
        ("action_type", VStr "run_playbook");
        ("entity_id", VStr "M-42");
        ("status", VStr "pending_approval")].

(** the proposal list, showing that action *)
Definition listing : ProposedActions.State :=
  {| ProposedActions.rows := VArr [action];
     ProposedActions.busyId := VNull;
     ProposedActions.err := "" |}.

(** the audit log, showing that action *)
Definition audit : AgentActionsAudit.State :=
  {| AgentActionsAudit.status := "all";
     AgentActionsAudit.rows := VArr [action];
     AgentActionsAudit.busy := false;
     AgentActionsAudit.err := "" |}.

Definition answers (body : value) : Runtime :=
  always (Ok (response 200 "OK" (Ok body))).

(** two search results for "M-42": a sensor that mentions it, and the
    machine itself *)
Definition sensor_hit : value :=
  VObj [("labels", VArr [VStr "Sensor"]);
        ("props", VObj [("id", VStr "S-22"); ("name", VStr "Vibration S-22")])].

Definition machine_hit : value :=
  VObj [("labels", VArr [VStr "Machine"]);
        ("props", VObj [("id", VStr "M-42"); ("name", VStr "Cutter M-42")])].

Definition search_hits : value :=
  VObj [("results", VArr [sensor_hit; machine_hit])].

Definition search_nothing : value := VObj [("results", VArr [])].

End Samples.

(** ** Promises that are not awaited at once *)

Module Async.
Import JS Host.

(** A call of an async function whose promise is kept for later: the call
    issues its requests now, and what it settles to is kept as a value.  It
    is used on calls that touch no component state. *)
Definition promise {S A} (m : M S A) : M S (result A) :=
  fun w => let '(r, w') := m w in (Ok r, w').

(** [await Promise.all([p, q])]: the pair of the two values, or the
    rejection that came first.  When both reject, which came first is a
    matter of timing: [p_first] says it was that of [p]. *)
Definition Promise_all2 {A B} (p_first : bool) (p : result A) (q : result B)
  : result (A * B) :=
  match p, q with
  | Ok a, Ok b => Ok (a, b)
  | Throw e, Ok _ => Throw e
  | Ok _, Throw e => Throw e
  | Throw e1, Throw e2 => Throw (if p_first then e1 else e2)
  end.

(** What [fetch(url).then(r => r.json())] settles to: the status of the
    response is not looked at. *)
Definition unchecked_json (r : result Response) : result value :=
  match r with
  | Ok res => res_json res
  | Throw e => Throw e
  end.

End Async.

(** ** web/src/components/AgentAskRunbook.tsx *)

Module AgentAskRunbook.
Import JS Host.

Definition API (rt : Runtime) : string :=
  match ProposedActions.nonempty
          (if window_defined rt then window_API_BASE rt else None) with
  | Some s => s
  | None =>
      match ProposedActions.nonempty
              (match import_meta_env rt with Some e => e | None => None end) with
      | Some s => s
      | None => "http://localhost:8000"
      end
  end.

Record State : Type := {
  entity : string;
  busy : bool;
  err : string;
  reply : value
}.

Definition initial : State :=
  {| entity := "order-service"; busy := false; err := ""; reply := VNull |}.

Definition setBusy (b : bool) (s : State) : State :=
  {| entity := entity s; busy := b; err := err s; reply := reply s |}.
Definition setErr (e : string) (s : State) : State :=
  {| entity := entity s; busy := busy s; err := e; reply := reply s |}.
Definition setReply (v : value) (s : State) : State :=
  {| entity := entity s; busy := busy s; err := err s; reply := v |}.
Definition setEntity (x : string) (s : State) : State :=
  {| entity := x; busy := busy s; err := err s; reply := reply s |}.

Definition query_request (rt : Runtime) (x : string) : Request :=
  POST (API rt ++ "/agent/query") "content-type"
       (Some (VObj [("message", VStr ("what should we do for " ++ x ++ "?"))])).

(** [ask] reads [entity] from the render it was created in. *)
Definition ask (rt : Runtime) (x : string) : M State unit :=
  (set (setBusy true) ;;
   set (setErr "") ;;
   set (setReply VNull) ;;
   finally
     (try_catch
        (r <- fetch rt (query_request rt x) ;;
         if negb (ok r)
         then throw (Error (string_of_N (res_status r) ++ " " ++ res_statusText r))
         else (data <- settle (res_json r) ;; set (setReply data)))
        (fun e => set (setErr (ProposedActions.or_text (message e) "Agent error"))))
     (setBusy false))%js.

(** the error banner and the answer pane are shown when [err] and [reply]
    are truthy *)
Definition banner_shown (s : State) : bool := negb (String.eqb (err s) "").
Definition pane_shown (s : State) : bool := truthy (reply s).

End AgentAskRunbook.

(** ** web/src/pages/Home.tsx *)

Module Home.
Import JS Host.

Record State : Type := {
  summary : value;
  alerts : value;
  query : string;
  agent : value;
  loading : bool
}.

Definition initial : State :=
  {| summary := VNull; alerts := VNull; query := ""; agent := VNull;
     loading := false |}.

Definition setSummary (v : value) (s : State) : State :=
  {| summary := v; alerts := alerts s; query := query s; agent := agent s;
     loading := loading s |}.
Definition setAlerts (v : value) (s : State) : State :=
  {| summary := summary s; alerts := v; query := query s; agent := agent s;
     loading := loading s |}.
Definition setAgent (v : value) (s : State) : State :=
  {| summary := summary s; alerts := alerts s; query := query s; agent := v;
     loading := loading s |}.
Definition setLoading (b : bool) (s : State) : State :=
  {| summary := summary s; alerts := alerts s; query := query s; agent := agent s;
     loading := b |}.

(** The effect run on mount:
    [Promise.all([getJSON(..), getJSON(..)]).then(([s, a]) => ...).catch(console.error)].
    What [console.error] prints is not part of the state. *)
Definition on_mount (rt : Runtime) (p_first : bool) : M State unit :=
  (p <- Async.promise (LibApi.getJSON rt "/graph/topology-summary") ;;
   q <- Async.promise (LibApi.getJSON rt "/events/alerts/active") ;;
   match Async.Promise_all2 p_first p q with
   | Ok (s, a) => set (setSummary s) ;; set (setAlerts a)
   | Throw _ => ret tt
   end)%js.

(** [askAgent] reads [query] from the render it was created in. *)
Definition askAgent (rt : Runtime) (q : string) : M State unit :=
  (set (setLoading true) ;;
   finally
     (try_catch
        (res <- LibApi.postJSON rt "/agent/query"
                  (VObj [("message", VStr q); ("scope", VNull)]) ;;
         set (setAgent res))
        (fun e => set (setAgent (VObj [("reply", VStr (String_of_exn e))]))))
     (setLoading false))%js.

End Home.

(** ** The graph explorer, the reports page and the incident page *)

Module GraphExplorer.
Import JS Host.

Record State : Type := {
  etype : string;
  eid : string;
  data : value
}.

Definition initial : State :=
  {| etype := "Service"; eid := "order-service"; data := VNull |}.

Definition setData (v : value) (s : State) : State :=
  {| etype := etype s; eid := eid s; data := v |}.

(** [load] has no [try]: what [getJSON] throws rejects the handler. *)
Definition load (rt : Runtime) (t i : string) : M State unit :=
  (res <- LibApi.getJSON rt ("/graph/entity/" ++ t ++ "/" ++ i) ;;
   set (setData res))%js.

End GraphExplorer.

Module Reports.
Import JS Host.

Definition on_mount (rt : Runtime) (p_first : bool) : M value unit :=
  (p <- Async.promise (LibApi.getJSON rt "/incidents/search?window=24h") ;;
   q <- Async.promise (LibApi.getJSON rt "/events/timeline?window=2h") ;;
   match Async.Promise_all2 p_first p q with
   | Ok (incs, tl) => set (fun _ => VObj [("incs", incs); ("tl", tl)])
   | Throw _ => ret tt
   end)%js.

End Reports.

Module IncidentDetail.
Import JS Host.

Record State : Type := {
  incident : value;
  timeline : value
}.

Definition initial : State := {| incident := VNull; timeline := VArr [] |}.

Definition setIncident (v : value) (s : State) : State :=
  {| incident := v; timeline := timeline s |}.
Definition setTimeline (v : value) (s : State) : State :=
  {| incident := incident s; timeline := v |}.

Definition search_request (id : string) : Request :=
  GET ("http://localhost:8000/incidents/search?incident_id=" ++ id).
Definition timeline_request (id : string) : Request :=
  GET ("http://localhost:8000/events/timeline?incident_id=" ++ id).

(** [load] of the effect, for the route parameter [id]; it has no [try]. *)
Definition load (rt : Runtime) (p_first : bool) (id : string) : M State unit :=
  (p <- Async.promise (fetch rt (search_request id)) ;;
   q <- Async.promise (fetch rt (timeline_request id)) ;;
   both <- settle (Async.Promise_all2 p_first p q) ;;
   iData <- settle (res_json (fst both)) ;;
   tData <- settle (res_json (snd both)) ;;
   incs <- settle (member iData "incidents") ;;
   set (setIncident (or_else (index0 (or_else incs (VArr []))) VNull)) ;;
   tl <- settle (member tData "timeline") ;;
   set (setTimeline (or_else tl (VArr []))))%js.

End IncidentDetail.

(** ** web/src/pages/Incidents.tsx *)

Module Incidents.
Import JS Host.

(** [(import.meta as any).env?.VITE_API_BASE || "http://localhost:8000"] *)
Definition API (rt : Runtime) : string :=
  match ProposedActions.nonempty
          (match import_meta_env rt with Some e => e | None => None end) with
  | Some s => s
  | None => "http://localhost:8000"
  end.

Record State : Type := {
  incidents : value;
  alerts : value;
  err : string
}.

Definition initial : State :=
  {| incidents := VArr []; alerts := VArr []; err := "" |}.

Definition setIncidents (v : value) (s : State) : State :=
  {| incidents := v; alerts := alerts s; err := err s |}.
Definition setAlerts (v : value) (s : State) : State :=
  {| incidents := incidents s; alerts := v; err := err s |}.
Definition setErr (e : string) (s : State) : State :=
  {| incidents := incidents s; alerts := alerts s; err := e |}.

Definition incidents_request (rt : Runtime) : Request :=
  GET (API rt ++ "/incidents/search?status=investigating").
Definition alerts_request (rt : Runtime) : Request :=
  GET (API rt ++ "/events/alerts/active").

(** the effect run on mount *)
Definition on_mount (rt : Runtime) (p_first : bool) : M State unit :=
  try_catch
    (set (setErr "") ;;
     p <- Async.promise (r <- fetch rt (incidents_request rt) ;; settle (res_json r)) ;;
     q <- Async.promise (r <- fetch rt (alerts_request rt) ;; settle (res_json r)) ;;
     both <- settle (Async.Promise_all2 p_first p q) ;;
     set (setIncidents (or_else (opt_prop (fst both) "incidents") (VArr []))) ;;
     set (setAlerts (or_else (opt_prop (snd both) "alerts") (VArr []))))%js
    (fun e =>
       set (setErr (ProposedActions.or_text (message e)
                      "Failed to load incidents/alerts"))).

End Incidents.

(** ** web/src/pages/Runbooks.tsx *)

Module Runbooks.
Import JS Host.

Definition API (rt : Runtime) : string :=
  match ProposedActions.nonempty
          (if window_defined rt then window_API_BASE rt else None) with
  | Some s => s
  | None =>
      match ProposedActions.nonempty
              (match import_meta_env rt with Some e => e | None => None end) with
      | Some s => s
      | None => "http://localhost:8000"
      end
  end.

Record State : Type := {
  list : value;
  loading : bool;
  err : string
}.

Definition initial : State := {| list := VArr []; loading := false; err := "" |}.

Definition setList (v : value) (s : State) : State :=
  {| list := v; loading := loading s; err := err s |}.
Definition setLoading (b : bool) (s : State) : State :=
  {| list := list s; loading := b; err := err s |}.
Definition setErr (e : string) (s : State) : State :=
  {| list := list s; loading := loading s; err := e |}.

(** [(Array.isArray(data) ? data : data?.items) || []] *)
Definition items_of (data : value) : value :=
  or_else (if isArray data then data else opt_prop data "items") (VArr []).

Definition load (rt : Runtime) : M State unit :=
  (set (setLoading true) ;;
   set (setErr "") ;;
   finally
     (try_catch
        (r <- fetch rt (GET (API rt ++ "/runbooks")) ;;
         if negb (ok r)
         then throw (Error (string_of_N (res_status r) ++ " " ++ res_statusText r))
         else (data <- settle (res_json r) ;; set (setList (items_of data))))
        (fun e =>
           set (setErr (ProposedActions.or_text (message e) "Failed to load runbooks")) ;;
           set (setList (VArr []))))
     (setLoading false))%js.

(** A row of the table: id, name, risk, enabled, description.
    [String(r.enabled ?? true)] is the text of the flag. *)
Definition render_row (rt : Runtime) (r : value) : result (Datatypes.list value) :=
  match member r "runbook_id" with
  | Throw e => Throw e
  | Ok rid =>
      match to_string (Number_toString rt) (coalesce (prop r "enabled") (VBool true)) with
      | Throw e => Throw e
      | Ok enabled =>
          ProposedActions.children
            [rid; prop r "name"; or_else (prop r "risk_level") (VStr "-");
             VStr enabled; or_else (prop r "description") (VStr "-")]
      end
  end.

Definition render (rt : Runtime) (s : State) : result (option (Datatypes.list (Datatypes.list value))) :=
  ProposedActions.render_rows (render_row rt) (list s).

End Runbooks.

(** ** More sample inputs *)

Module Cases.
Import JS Host.

(** a host in which the build set an empty [VITE_API_BASE] *)
Definition empty_env : Runtime :=
  {| backend := fun _ _ => Throw (TypeError "Failed to fetch");
     JSON_parse := Samples.parse;
     Number_toString := fun _ => "0";
     window_defined := true;
     window_API_BASE := None;
     import_meta_env := Some (Some "") |}.

(** the search answers, the execute endpoint refuses with 409 *)
Definition refuses : Runtime :=
  Samples.host (fun _ rq =>
    if String.eqb (req_method rq) "POST"
    then Ok (Samples.response 409 "already executed" (Throw (SyntaxError "Unexpected token")))
    else Ok (Samples.response 200 "OK" (Ok Samples.search_hits))).

(** every GET answers with the list of the sample action, every POST
    succeeds *)
Definition accepts : Runtime :=
  Samples.host (fun _ rq =>
    if String.eqb (req_method rq) "POST"
    then Ok (Samples.response 200 "OK" (Ok (VObj [("status", VStr "executed")])))
    else Ok (Samples.response 200 "OK" (Ok (VArr [Samples.action])))).

(** a search whose results do not match "M-42" exactly *)
Definition near_hits : value :=
  VObj [("results",
         VArr [VObj [("labels", VArr [VStr "Line"; VStr "Asset"]);
                     ("props", VObj [("id", VStr "Line-3");
                                     ("name", VStr "Assembly Line 3")])];
               Samples.sensor_hit])].

(** a message made of one no-break space (U+00A0, the bytes C2 A0) and a
    message made of an ideographic space (U+3000), a line separator (U+2028)
    and a tab *)
Definition nbsp : string :=
  String (ascii_of_N 0xC2) (String (ascii_of_N 0xA0) EmptyString).

Definition wide_blank : string :=
  String (ascii_of_N 0xE3) (String (ascii_of_N 0x80) (String (ascii_of_N 0x80)
    (String (ascii_of_N 0xE2) (String (ascii_of_N 0x80) (String (ascii_of_N 0xA8)
      (String (ascii_of_N 9) EmptyString)))))).

(** the machine M-42 as a search result that carries three labels, and a
    search that returns a sensor and then that machine *)
Definition tagged_machine_hit : value :=
  VObj [("labels", VArr [VStr "Asset"; VStr "Sensor"; VStr "Machine"]);
        ("props", VObj [("id", VStr "M-42"); ("name", VStr "Cutter M-42")])].

Definition tagged_hits : value :=
  VObj [("results", VArr [Samples.sensor_hit; tagged_machine_hit])].

(** the dock showing an earlier answer *)
Definition answered : AgentDock.State :=
  {| AgentDock.open := true; AgentDock.msg := "   ";
     AgentDock.busy := false;
     AgentDock.resp := VObj [("reply", VStr "all clear")];
     AgentDock.showReason := true |}.

Definition incident (id : string) : value :=
  VObj [("incident_id", VStr id); ("status", VStr "investigating")].

(** the incidents page after a first successful load *)
Definition incidents_loaded : Incidents.State :=
  {| Incidents.incidents := VArr [incident "INC-1001"];
     Incidents.alerts := VArr [VObj [("id", VStr "ALERT-5001")]];
     Incidents.err := "" |}.

(** the graph explorer showing an entity *)
Definition explorer_loaded : GraphExplorer.State :=
  {| GraphExplorer.etype := "Service"; GraphExplorer.eid := "order-service";
     GraphExplorer.data := VObj [("id", VStr "order-service")] |}.

Definition runbook : value :=
  VObj [("runbook_id", VStr "RB-restore-pump"); ("name", VStr "Restore Pump P-7")].

(** the search answers 404 with a JSON body that lists two incidents, the
    timeline answers with the JSON text null *)
Definition two_incidents : value :=
  VObj [("incidents", VArr [incident "INC-1001"; incident "INC-1002"])].

Definition timeline_null : Runtime :=
  Samples.host (fun _ rq =>
    if str_includes "/events/timeline" (req_url rq)
    then Ok (Samples.response 200 "OK" (Ok VNull))
    else Ok (Samples.response 404 "Not Found" (Ok two_incidents))).

(** the incident page showing an incident and its timeline *)
Definition incident_shown : IncidentDetail.State :=
  {| IncidentDetail.incident := incident "INC-0007";
     IncidentDetail.timeline := VArr [VObj [("type", VStr "alert")]] |}.

(** the runbooks page showing one runbook *)
Definition runbooks_loaded : Runbooks.State :=
  {| Runbooks.list := VArr [runbook]; Runbooks.loading := false;
     Runbooks.err := "" |}.

(** the execute endpoint refuses with 409 and a body *)
Definition conflict : Response :=
  {| res_status := 409; res_statusText := "Conflict";
     res_json := Ok (VObj [("detail", VStr "already executed")]);
     res_text := Ok "{'detail': 'already executed'}" |}.

(** a host in which the build set [VITE_API_BASE] and every request is
    answered with that conflict *)
Definition conflicts : Runtime :=
  {| backend := fun _ _ => Ok conflict;
     JSON_parse := Samples.parse;
     Number_toString := fun _ => "0";
     window_defined := true;
     window_API_BASE := None;
     import_meta_env := Some (Some "http://build:8000/") |}.

End Cases.

(* ===================================================================== *)
(** * Part II. Properties *)
(* ===================================================================== *)

Import JS Host.

(** ** Strings *)

Lemma prefix_app (a b : string) : String.prefix a (a ++ b) = true.
Proof.
  induction a as [|c a IH]; simpl.
  - destruct b; reflexivity.
  - destruct (ascii_dec c c) as [_|n]; [exact IH | now elim n].
Qed.

Lemma str_includes_app_l (a b : string) : str_includes a (a ++ b) = true.
Proof.
  destruct a as [|c a]; simpl.
  - destruct b; reflexivity.
  - destruct (ascii_dec c c) as [_|n]; [|now elim n].
    now rewrite prefix_app.
Qed.

Lemma str_includes_app_r (t a b : string) :
  str_includes t b = true -> str_includes t (a ++ b) = true.
Proof.
  intros H. induction a as [|c a IH]; simpl; [exact H|].
  rewrite IH. apply orb_true_r.
Qed.

Lemma str_includes_refl (t : string) : str_includes t t = true.
Proof.
  destruct t as [|c t]; [reflexivity|].
  simpl. destruct (ascii_dec c c) as [_|n]; [|now elim n].
  replace t with (t ++ "") at 2.
  - now rewrite prefix_app.
  - induction t as [|d t IH]; simpl; [reflexivity | now rewrite IH].
Qed.

(** The message [`${status} ${statusText}`] shows both of its parts. *)
Lemma status_line_includes (n : N) (text : string) :
  str_includes (string_of_N n) (string_of_N n ++ " " ++ text) = true
  /\ str_includes text (string_of_N n ++ " " ++ text) = true.
Proof.
  split.
  - apply str_includes_app_l.
  - apply str_includes_app_r. apply (str_includes_app_r text " " text).
    apply str_includes_refl.
Qed.

(** ** The generic client (web/src/lib/api.ts) *)

Section GenericClient.
Context {S : Type}.
Variable rt : Runtime.
Variable w : World S.

Lemma getJSON_fetches (path : string) :
  sent (snd (LibApi.getJSON rt path w))
  = (sent w ++ [GET (LibApi.API_BASE ++ path)%string])%list.
Proof.
  unfold LibApi.getJSON, bind, fetch; cbv beta.
  destruct (backend rt (sent w) _) as [res|e]; [|reflexivity].
  destruct (ok res); reflexivity.
Qed.

Lemma getJSON_not_ok (path : string) (res : Response) :
  backend rt (sent w) (GET (LibApi.API_BASE ++ path)) = Ok res ->
  ok res = false ->
  fst (LibApi.getJSON rt path w)
  = Throw (Error (string_of_N (res_status res) ++ " " ++ res_statusText res)).
Proof.
  intros Hres Hok. unfold LibApi.getJSON, bind, fetch; cbv beta.
  rewrite Hres, Hok. reflexivity.
Qed.

Lemma getJSON_ok (path : string) (res : Response) :
  backend rt (sent w) (GET (LibApi.API_BASE ++ path)) = Ok res ->
  ok res = true ->
  fst (LibApi.getJSON rt path w) = res_json res.
Proof.
  intros Hres Hok. unfold LibApi.getJSON, bind, fetch; cbv beta.
  rewrite Hres, Hok. reflexivity.
Qed.

Lemma postJSON_not_ok (path : string) (body : value) (res : Response) :
  backend rt (sent w) (POST (LibApi.API_BASE ++ path) "Content-Type" (Some body))
  = Ok res ->
  ok res = false ->
  fst (LibApi.postJSON rt path body w)
  = Throw (Error (string_of_N (res_status res) ++ " " ++ res_statusText res)).
Proof.
  intros Hres Hok. unfold LibApi.postJSON, bind, fetch; cbv beta.
  rewrite Hres, Hok. reflexivity.
Qed.

Lemma postJSON_ok (path : string) (body : value) (res : Response) :
  backend rt (sent w) (POST (LibApi.API_BASE ++ path) "Content-Type" (Some body))
  = Ok res ->
  ok res = true ->
  fst (LibApi.postJSON rt path body w) = res_json res.
Proof.
  intros Hres Hok. unfold LibApi.postJSON, bind, fetch; cbv beta.
  rewrite Hres, Hok. reflexivity.
Qed.

End GenericClient.

(** [res.ok] is false exactly outside 200..299. *)
Lemma ok_iff (r : Response) :
  ok r = true <-> (200 <= res_status r <= 299)%N.
Proof.
  unfold ok. rewrite andb_true_iff, !N.leb_le. tauto.
Qed.

(** C2. Through [getJSON] and [postJSON], a response outside 2xx makes the
    call throw an [Error] whose message shows the status code and the status
    text (a 404 gives a message that contains "404"), and a 2xx response
    makes the call return the decoded body as [res.json()] produced it. *)
Theorem C2_generic_client_status (S : Type) (rt : Runtime) (w : World S)
    (path : string) (body : value) (res : Response) :
  (backend rt (sent w) (GET (LibApi.API_BASE ++ path)) = Ok res ->
     (ok res = false ->
        exists msg,
          fst (LibApi.getJSON rt path w) = Throw (Error msg)
          /\ str_includes (string_of_N (res_status res)) msg = true
          /\ str_includes (res_statusText res) msg = true
          /\ (res_status res = 404%N -> str_includes "404" msg = true))
     /\ (ok res = true ->
           forall j, res_json res = Ok j -> fst (LibApi.getJSON rt path w) = Ok j))
  /\
  (backend rt (sent w) (POST (LibApi.API_BASE ++ path) "Content-Type" (Some body))
     = Ok res ->
     (ok res = false ->
        exists msg,
          fst (LibApi.postJSON rt path body w) = Throw (Error msg)
          /\ str_includes (string_of_N (res_status res)) msg = true
          /\ str_includes (res_statusText res) msg = true)
     /\ (ok res = true ->
           forall j, res_json res = Ok j ->
                     fst (LibApi.postJSON rt path body w) = Ok j)).
Proof.
  split; intros Hres; split.
  - intros Hok. eexists. split; [apply getJSON_not_ok; eassumption|].
    destruct (status_line_includes (res_status res) (res_statusText res)) as [H1 H2].
    repeat split; try assumption.
    intros H404. rewrite H404 in H1 |- *. exact H1.
  - intros Hok j Hj. rewrite <- Hj. apply getJSON_ok; assumption.
  - intros Hok. eexists. split; [apply postJSON_not_ok; eassumption|].
    apply status_line_includes.
  - intros Hok j Hj. rewrite <- Hj. apply postJSON_ok; assumption.
Qed.

(** C2, on a path that is not found and on a path that answers. *)
Lemma C2_generic_client_status_witness :
  (exists msg,
     fst (LibApi.getJSON Samples.not_found "/graph/entity/Service/none"
            (Samples.fresh tt)) = Throw (Error msg)
     /\ str_includes "404" msg = true)
  /\ fst (LibApi.postJSON
            (Samples.always (Ok (Samples.response 200 "OK" (Ok (VObj [("reply", VStr "hi")])))))
            "/agent/query" (VObj [("message", VStr "hello")]) (Samples.fresh tt))
     = Ok (VObj [("reply", VStr "hi")]).
Proof.
  split.
  - destruct (C2_generic_client_status unit Samples.not_found (Samples.fresh tt)
                "/graph/entity/Service/none" VNull
                (Samples.response 404 "Not Found"
                   (Throw (SyntaxError "Unexpected token")))) as [Hget _].
    destruct (Hget eq_refl) as [Hbad _].
    destruct (Hbad eq_refl) as (msg & Hthrow & _ & _ & H404).
    exists msg. split; [exact Hthrow | exact (H404 eq_refl)].
  - destruct (C2_generic_client_status unit
                (Samples.always (Ok (Samples.response 200 "OK"
                                       (Ok (VObj [("reply", VStr "hi")])))))
                (Samples.fresh tt) "/agent/query" (VObj [("message", VStr "hello")])
                (Samples.response 200 "OK" (Ok (VObj [("reply", VStr "hi")]))))
      as [_ Hpost].
    destruct (Hpost eq_refl) as [_ Hgood].
    exact (Hgood eq_refl _ eq_refl).
Defined.

(** ** The typed client (web/src/api/index.ts) *)

Section TypedClient.
Context {S : Type}.
Variable rt : Runtime.
Variable w : World S.
Variable base : string.
Hypothesis Hbase : ApiIndex.API_BASE rt = Ok base.

(** [get] throws [`${status} ${statusText}`] outside 2xx and returns the
    decoded body otherwise. *)
Lemma get_eq (path : string) (params : option (list (string * string))) :
  fst (ApiIndex.get rt path params w)
  = checked_json
      (backend rt (sent w)
         (GET (base ++ path
               ++ match params with
                  | Some p => "?" ++ URLSearchParams_toString p
                  | None => ""
                  end))).
Proof.
  unfold ApiIndex.get, bind, settle, fetch, throw, checked_json. rewrite Hbase.
  destruct (backend rt (sent w) _) as [res|e]; [|reflexivity].
  destruct (negb (ok res)); reflexivity.
Qed.

(** [post] adds the text of the body to the message. *)
Lemma post_not_ok (path : string) (body : value) (res : Response) (text : string) :
  truthy body = true ->
  backend rt (sent w) (POST (base ++ path) "content-type" (Some body)) = Ok res ->
  ok res = false ->
  res_text res = Ok text ->
  fst (ApiIndex.post rt path (Some body) w)
  = Throw (Error (string_of_N (res_status res) ++ " " ++ res_statusText res
                  ++ ": " ++ text)).
Proof.
  intros Hb Hres Hok Htext.
  unfold ApiIndex.post, bind, settle, fetch, throw. rewrite Hbase, Hb, Hres, Hok.
  cbn [negb]. now rewrite Htext.
Qed.

End TypedClient.

(** ** The proposal list and the audit log: loading *)

Lemma checked_json_fails (r : result Response) (e : exn) :
  checked_json r = Throw e <-> fails_with r e.
Proof.
  split.
  - destruct r as [res|e']; simpl.
    + destruct (ok res) eqn:Hok; simpl; intros H.
      * now apply BadBody.
      * injection H as <-. now apply BadStatus.
    + intros H. injection H as <-. apply Rejected.
  - intros H. destruct H as [e|res Hok|res e Hok Hbody]; simpl.
    + reflexivity.
    + now rewrite Hok.
    + now rewrite Hok.
Qed.

Lemma checked_json_ok (r : Response) (j : value) :
  ok r = true -> res_json r = Ok j -> checked_json (Ok r) = Ok j.
Proof. intros Hok Hj. simpl. now rewrite Hok. Qed.

Section Loading.
Variable rt : Runtime.

Lemma PA_fetchJSON_eq {S} (url : string) (w : World S) :
  ProposedActions.fetchJSON rt url w
  = (checked_json (backend rt (sent w) (GET url)),
     {| ui := ui w; sent := (sent w ++ [GET url])%list |}).
Proof.
  unfold ProposedActions.fetchJSON, bind, fetch, checked_json, throw, settle.
  destruct (backend rt (sent w) (GET url)) as [res|e]; [|reflexivity].
  destruct (negb (ok res)); reflexivity.
Qed.

Lemma AA_fetchJSON_eq {S} (url : string) (w : World S) :
  AgentActionsAudit.fetchJSON rt url w
  = (checked_json (backend rt (sent w) (GET url)),
     {| ui := ui w; sent := (sent w ++ [GET url])%list |}).
Proof.
  unfold AgentActionsAudit.fetchJSON, bind, fetch, checked_json, throw, settle.
  destruct (backend rt (sent w) (GET url)) as [res|e]; [|reflexivity].
  destruct (negb (ok res)); reflexivity.
Qed.

(** [load] never throws and issues one request; the state it leaves is
    decided by how that request settles. *)
Lemma PA_load_eq (w : World ProposedActions.State) :
  ProposedActions.load rt w
  = (Ok tt,
     {| ui :=
          match checked_json (backend rt (sent w) (GET (ProposedActions.load_url rt))) with
          | Ok data =>
              ProposedActions.setRows (ProposedActions.rows_of data)
                (ProposedActions.setErr "" (ui w))
          | Throw e =>
              ProposedActions.setRows (VArr [])
                (ProposedActions.setErr
                   (ProposedActions.or_text (message e)
                      "Failed to load proposed actions")
                   (ProposedActions.setErr "" (ui w)))
          end;
        sent := (sent w ++ [GET (ProposedActions.load_url rt)])%list |}).
Proof.
  unfold ProposedActions.load, try_catch, bind, set.
  rewrite PA_fetchJSON_eq. cbn [ui sent].
  destruct (checked_json _); reflexivity.
Qed.

Lemma AA_load_eq (filter : string) (w : World AgentActionsAudit.State) :
  AgentActionsAudit.load rt filter w
  = (Ok tt,
     {| ui :=
          AgentActionsAudit.setBusy false
            match checked_json
                    (backend rt (sent w) (GET (AgentActionsAudit.url rt filter))) with
            | Ok data =>
                AgentActionsAudit.setRows (AgentActionsAudit.rows_of data)
                  (AgentActionsAudit.setErr ""
                     (AgentActionsAudit.setBusy true (ui w)))
            | Throw e =>
                AgentActionsAudit.setRows (VArr [])
                  (AgentActionsAudit.setErr
                     (ProposedActions.or_text (message e)
                        "Failed to load agent actions")
                     (AgentActionsAudit.setErr ""
                        (AgentActionsAudit.setBusy true (ui w))))
            end;
        sent := (sent w ++ [GET (AgentActionsAudit.url rt filter)])%list |}).
Proof.
  unfold AgentActionsAudit.load, finally, try_catch, bind, set.
  rewrite AA_fetchJSON_eq. cbn [ui sent].
  destruct (checked_json _); reflexivity.
Qed.

End Loading.

(** A wrapped list and a bare list give the same rows. *)
Lemma PA_rows_of_wrapped (fields : list (string * value)) (xs : list value) :
  assoc "items" fields = Some (VArr xs) ->
  ProposedActions.rows_of (VObj fields) = VArr xs.
Proof.
  intros H. unfold ProposedActions.rows_of, opt_prop, prop. simpl. now rewrite H.
Qed.

Lemma PA_rows_of_bare (xs : list value) :
  ProposedActions.rows_of (VArr xs) = VArr xs.
Proof. reflexivity. Qed.

Lemma AA_rows_of_wrapped (fields : list (string * value)) (xs : list value) :
  assoc "items" fields = Some (VArr xs) ->
  AgentActionsAudit.rows_of (VObj fields) = VArr xs.
Proof.
  intros H. unfold AgentActionsAudit.rows_of, opt_prop, prop. simpl. now rewrite H.
Qed.

Lemma AA_rows_of_bare (xs : list value) :
  AgentActionsAudit.rows_of (VArr xs) = VArr xs.
Proof. reflexivity. Qed.

(** C7. For the same list [xs] of agent actions, sent once wrapped as
    [{items: xs}] (with whatever other fields) and once as the bare array,
    the proposal list and the audit log end in the same state after [load]:
    their rows are [xs] and they render the same rows. *)
Theorem C7_dual_shape_same_rows
    (rt1 rt2 : Runtime) (xs : list value) (fields : list (string * value))
    (r1 r2 : Response) :
  assoc "items" fields = Some (VArr xs) ->
  ok r1 = true -> res_json r1 = Ok (VObj fields) ->
  ok r2 = true -> res_json r2 = Ok (VArr xs) ->
  (forall (w1 w2 : World ProposedActions.State),
     ui w1 = ui w2 ->
     backend rt1 (sent w1) (GET (ProposedActions.load_url rt1)) = Ok r1 ->
     backend rt2 (sent w2) (GET (ProposedActions.load_url rt2)) = Ok r2 ->
     let s1 := ui (snd (ProposedActions.load rt1 w1)) in
     let s2 := ui (snd (ProposedActions.load rt2 w2)) in
     s1 = s2
     /\ ProposedActions.rows s1 = VArr xs
     /\ ProposedActions.render s1 = ProposedActions.render s2)
  /\
  (forall (filter : string) (w1 w2 : World AgentActionsAudit.State),
     ui w1 = ui w2 ->
     backend rt1 (sent w1) (GET (AgentActionsAudit.url rt1 filter)) = Ok r1 ->
     backend rt2 (sent w2) (GET (AgentActionsAudit.url rt2 filter)) = Ok r2 ->
     let s1 := ui (snd (AgentActionsAudit.load rt1 filter w1)) in
     let s2 := ui (snd (AgentActionsAudit.load rt2 filter w2)) in
     s1 = s2
     /\ AgentActionsAudit.rows s1 = VArr xs
     /\ AgentActionsAudit.render s1 = AgentActionsAudit.render s2).
Proof.
  intros Hitems Hok1 Hj1 Hok2 Hj2. split.
  - intros w1 w2 Hui H1 H2 s1 s2. subst s1 s2.
    rewrite !PA_load_eq. cbn [snd ui].
    rewrite H1, H2, (checked_json_ok _ _ Hok1 Hj1), (checked_json_ok _ _ Hok2 Hj2).
    rewrite (PA_rows_of_wrapped _ _ Hitems), PA_rows_of_bare, Hui.
    repeat split.
  - intros filter w1 w2 Hui H1 H2 s1 s2. subst s1 s2.
    rewrite !AA_load_eq. cbn [snd ui].
    rewrite H1, H2, (checked_json_ok _ _ Hok1 Hj1), (checked_json_ok _ _ Hok2 Hj2).
    rewrite (AA_rows_of_wrapped _ _ Hitems), AA_rows_of_bare, Hui.
    repeat split.
Qed.

(** C7, on the sample action: wrapped or bare, both components show the one
    row. *)
Lemma C7_dual_shape_same_rows_witness :
  ProposedActions.render
    (ui (snd (ProposedActions.load
                (Samples.answers (VObj [("items", VArr [Samples.action])]))
                (Samples.fresh ProposedActions.initial))))
  = ProposedActions.render
      (ui (snd (ProposedActions.load
                  (Samples.answers (VArr [Samples.action]))
                  (Samples.fresh ProposedActions.initial))))
  /\ AgentActionsAudit.render
       (ui (snd (AgentActionsAudit.load
                   (Samples.answers (VObj [("items", VArr [Samples.action])])) "all"
                   (Samples.fresh AgentActionsAudit.initial))))
     = AgentActionsAudit.render
         (ui (snd (AgentActionsAudit.load
                     (Samples.answers (VArr [Samples.action])) "all"
                     (Samples.fresh AgentActionsAudit.initial)))).
Proof.
  destruct (C7_dual_shape_same_rows
              (Samples.answers (VObj [("items", VArr [Samples.action])]))
              (Samples.answers (VArr [Samples.action]))
              [Samples.action] [("items", VArr [Samples.action])]
              (Samples.response 200 "OK" (Ok (VObj [("items", VArr [Samples.action])])))
              (Samples.response 200 "OK" (Ok (VArr [Samples.action])))
              eq_refl eq_refl eq_refl eq_refl eq_refl) as [Hlist Haudit].
  split.
  - apply (Hlist (Samples.fresh ProposedActions.initial)
                 (Samples.fresh ProposedActions.initial)); reflexivity.
  - apply (Haudit "all" (Samples.fresh AgentActionsAudit.initial)
                  (Samples.fresh AgentActionsAudit.initial)); reflexivity.
Defined.

(** ** The proposal list: resolving the entity type and approving *)

Section Approving.
Variable rt : Runtime.

Lemma resolve_eq {S} (eid : value) (w : World S) :
  ProposedActions.resolveEntityTypeBySearch rt eid w
  = match ProposedActions.search_url rt eid with
    | Throw _ => (Ok VNull, w)
    | Ok url =>
        (Ok match checked_json (backend rt (sent w) (GET url)) with
            | Ok res =>
                match ProposedActions.pick_label eid res with
                | Ok v => v
                | Throw _ => VNull
                end
            | Throw _ => VNull
            end,
         {| ui := ui w; sent := (sent w ++ [GET url])%list |})
    end.
Proof.
  unfold ProposedActions.resolveEntityTypeBySearch, try_catch, bind, settle, ret.
  destruct (ProposedActions.search_url rt eid) as [url|e]; [|reflexivity].
  rewrite PA_fetchJSON_eq.
  destruct (checked_json _) as [res|e]; [|reflexivity].
  destruct (ProposedActions.pick_label eid res); reflexivity.
Qed.

Lemma resolved_eq (eid : value) (log : list Request) :
  ProposedActions.resolved rt eid log
  = match ProposedActions.search_url rt eid with
    | Throw _ => VNull
    | Ok url =>
        match checked_json (backend rt log (GET url)) with
        | Ok res =>
            match ProposedActions.pick_label eid res with
            | Ok v => v
            | Throw _ => VNull
            end
        | Throw _ => VNull
        end
    end.
Proof.
  unfold ProposedActions.resolved. rewrite resolve_eq.
  destruct (ProposedActions.search_url rt eid); reflexivity.
Qed.

(** The resolution never throws, issues the search request when the id has
    a text and nothing else, and leaves the component state alone. *)
Lemma resolve_total {S} (eid : value) (w : World S) :
  ProposedActions.resolveEntityTypeBySearch rt eid w
  = (Ok (ProposedActions.resolved rt eid (sent w)),
     {| ui := ui w;
        sent := (sent w ++ match ProposedActions.search_url rt eid with
                           | Ok url => [GET url]
                           | Throw _ => []
                           end)%list |}).
Proof.
  rewrite resolve_eq, resolved_eq.
  destruct (ProposedActions.search_url rt eid); [reflexivity|].
  rewrite app_nil_r. now destruct w.
Qed.

(** [approve], case by case on how the execute request settles. *)
Lemma approve_eq (row : value) (w : World ProposedActions.State) :
  nullish row = false ->
  let s0 := ProposedActions.setErr ""
              (ProposedActions.setBusyId (prop row "action_id") (ui w)) in
  let failed (m : string) (log : list Request)
    : result unit * World ProposedActions.State :=
    (Ok tt,
     {| ui := ProposedActions.setBusyId VNull
                (ProposedActions.setErr
                   (ProposedActions.or_text m "Approval failed") s0);
        sent := log |}) in
  ProposedActions.approve rt row w
  = match ProposedActions.approve_request rt row w with
    | Throw e => failed (message e) (ProposedActions.approve_log rt row w)
    | Ok rq =>
        let log := (ProposedActions.approve_log rt row w ++ [rq])%list in
        match backend rt (ProposedActions.approve_log rt row w) rq with
        | Throw e => failed (message e) log
        | Ok r =>
            if ok r
            then
              let '(_, w') := ProposedActions.load rt {| ui := s0; sent := log |} in
              (Ok tt,
               {| ui := ProposedActions.setBusyId VNull (ui w'); sent := sent w' |})
            else
              match res_text r with
              | Ok txt =>
                  failed ("Execute failed: " ++ string_of_N (res_status r)
                          ++ " " ++ txt) log
              | Throw e => failed (message e) log
              end
        end
    end.
Proof.
  intros Hrow s0 failed. subst failed s0.
  unfold ProposedActions.approve, finally, try_catch, bind, set, settle, member, throw.
  rewrite Hrow. cbn [ui sent].
  rewrite resolve_total. cbn [ui sent].
  unfold ProposedActions.approve_log, ProposedActions.approve_request.
  destruct (ProposedActions.execute_request rt row _) as [rq|e]; [|reflexivity].
  unfold fetch. cbn [ui sent].
  destruct (backend rt _ rq) as [r|e]; [|reflexivity].
  destruct (ok r); cbn [negb].
  - rewrite PA_load_eq. reflexivity.
  - destruct (res_text r); reflexivity.
Qed.

End Approving.

Lemma or_text_nonempty (m d : string) :
  d <> "" -> ProposedActions.or_text m d <> "".
Proof.
  intros Hd. unfold ProposedActions.or_text.
  destruct (String.eqb_spec m ""); assumption.
Qed.

(** C10. When a load fails (the fetch rejects, the status is outside 2xx,
    or the body does not decode), the proposal list and the audit log set
    their error text and replace their rows by the empty list; when the
    execute request of an approval fails, the error text is set and the rows
    stay as they were. *)
Theorem C10_failed_load_clears_rows (rt : Runtime) (e : exn) :
  (forall w : World ProposedActions.State,
     fails_with (backend rt (sent w) (GET (ProposedActions.load_url rt))) e ->
     let s := ui (snd (ProposedActions.load rt w)) in
     ProposedActions.rows s = VArr []
     /\ ProposedActions.err s
        = ProposedActions.or_text (message e) "Failed to load proposed actions")
  /\
  (forall (filter : string) (w : World AgentActionsAudit.State),
     fails_with (backend rt (sent w) (GET (AgentActionsAudit.url rt filter))) e ->
     let s := ui (snd (AgentActionsAudit.load rt filter w)) in
     AgentActionsAudit.rows s = VArr []
     /\ AgentActionsAudit.err s
        = ProposedActions.or_text (message e) "Failed to load agent actions")
  /\
  (forall (row : value) (w : World ProposedActions.State) (rq : Request),
     nullish row = false ->
     ProposedActions.approve_request rt row w = Ok rq ->
     (backend rt (ProposedActions.approve_log rt row w) rq = Throw e
      \/ exists r, backend rt (ProposedActions.approve_log rt row w) rq = Ok r
                   /\ ok r = false) ->
     let s := ui (snd (ProposedActions.approve rt row w)) in
     ProposedActions.rows s = ProposedActions.rows (ui w)
     /\ ProposedActions.err s <> "").
Proof.
  split; [|split].
  - intros w Hfail s. subst s. apply checked_json_fails in Hfail.
    rewrite PA_load_eq. cbn [snd ui]. rewrite Hfail. split; reflexivity.
  - intros filter w Hfail s. subst s. apply checked_json_fails in Hfail.
    rewrite AA_load_eq. cbn [snd ui]. rewrite Hfail. split; reflexivity.
  - intros row w rq Hrow Hrq Hfail s. subst s.
    rewrite (approve_eq rt row w Hrow), Hrq. cbv zeta.
    destruct Hfail as [Hthrow | (r & Hr & Hok)].
    + rewrite Hthrow. cbn [snd ui]. split; [reflexivity|].
      apply or_text_nonempty. discriminate.
    + rewrite Hr, Hok.
      destruct (res_text r); cbn [snd ui]; (split; [reflexivity|]);
        apply or_text_nonempty; discriminate.
Qed.

(** C10, with the backend unreachable: a poll empties the list that showed
    one action, an approval leaves it. *)
Lemma C10_failed_load_clears_rows_witness :
  ProposedActions.rows
    (ui (snd (ProposedActions.load Samples.unreachable (Samples.fresh Samples.listing))))
  = VArr []
  /\ AgentActionsAudit.rows
       (ui (snd (AgentActionsAudit.load Samples.unreachable "all"
                   (Samples.fresh Samples.audit))))
     = VArr []
  /\ ProposedActions.rows
       (ui (snd (ProposedActions.approve Samples.unreachable Samples.action
                   (Samples.fresh Samples.listing))))
     = VArr [Samples.action].
Proof.
  destruct (C10_failed_load_clears_rows Samples.unreachable (TypeError "Failed to fetch"))
    as (Hload & Haudit & Happrove).
  split; [|split].
  - apply (Hload (Samples.fresh Samples.listing)). apply Rejected.
  - apply (Haudit "all" (Samples.fresh Samples.audit)). apply Rejected.
  - eapply (Happrove Samples.action (Samples.fresh Samples.listing)).
    + reflexivity.
    + reflexivity.
    + left. reflexivity.
Defined.

(** ** The proposal list: which label the resolution returns *)

Lemma opt_prop_prop (v : value) (k : string) : opt_prop v k = prop v k.
Proof. destruct v; reflexivity. Qed.

Lemma strict_eq_str (x : value) (s : string) :
  strict_eq x (VStr s) = true <-> x = VStr s.
Proof.
  destruct x; simpl; try (split; [discriminate | discriminate]).
  rewrite String.eqb_eq. split; [now intros -> | now intros [= ->]].
Qed.

Lemma strict_eq_str_l (x : value) (s : string) :
  strict_eq (VStr s) x = true <-> x = VStr s.
Proof.
  destruct x; simpl; try (split; [discriminate | discriminate]).
  rewrite String.eqb_eq. split; [now intros -> | now intros [= ->]].
Qed.

(** The field [k] of [p] is [eid], for [p] the [props] of a result or the
    [{}] that stands in for a missing one. *)
Lemma field_is (p : value) (k eid : string) :
  strict_eq (opt_prop p k) (VStr eid) = true
  <-> exists ps, p = VObj ps /\ assoc k ps = Some (VStr eid).
Proof.
  rewrite strict_eq_str, opt_prop_prop. split.
  - destruct p; simpl; try discriminate.
    destruct (assoc k fields) as [v|] eqn:Hk; [|discriminate].
    intros ->. now exists fields.
  - intros (ps & -> & Hk). simpl. now rewrite Hk.
Qed.

Lemma matches_exact (eid : string) (r : value) :
  ProposedActions.matches (VStr eid) r = true <-> ProposedActions.exact_match eid r.
Proof.
  unfold ProposedActions.matches, ProposedActions.exact_match.
  rewrite !orb_true_iff, !field_is. split.
  - intros H.
    assert (Hp : exists ps, or_else (opt_prop r "props") (VObj []) = VObj ps
                            /\ (assoc "id" ps = Some (VStr eid)
                                \/ assoc "name" ps = Some (VStr eid)
                                \/ assoc "title" ps = Some (VStr eid))).
    { destruct H as [[(ps & E & H) | (ps & E & H)] | (ps & E & H)];
        exists ps; split; auto. }
    clear H. destruct Hp as (ps & E & H).
    rewrite opt_prop_prop in E. unfold or_else in E.
    destruct r as [| | | | |xs|fs]; simpl in E;
      try (injection E as <-; simpl in H; destruct H as [H|[H|H]]; discriminate).
    destruct (assoc "props" fs) as [v|] eqn:Hv; simpl in E.
    + destruct (truthy v) eqn:Ht.
      * subst v. now exists fs, ps.
      * injection E as <-. simpl in H. destruct H as [H|[H|H]]; discriminate.
    + injection E as <-. simpl in H. destruct H as [H|[H|H]]; discriminate.
  - intros (fs & ps & -> & Hp & H).
    assert (E : or_else (opt_prop (VObj fs) "props") (VObj []) = VObj ps).
    { unfold or_else, opt_prop, prop. simpl. now rewrite Hp. }
    rewrite E. destruct H as [H|[H|H]]; [left; left | left; right | right];
      now exists ps.
Qed.

Lemma includes_label (ls : list value) (t : string) :
  existsb (strict_eq (VStr t)) ls = true <-> In (VStr t) ls.
Proof.
  rewrite existsb_exists. split.
  - intros (x & Hin & Heq). apply strict_eq_str_l in Heq. now subst x.
  - intros Hin. exists (VStr t). split; [assumption|]. now apply strict_eq_str_l.
Qed.

(** Over an array of labels, the loop returns the first candidate that is
    among them. *)
Lemma first_included_array (ls : list value) (ts : list string) :
  ProposedActions.first_included (VArr ls) ts
  = Ok (find (fun t => existsb (strict_eq (VStr t)) ls) ts).
Proof.
  induction ts as [|t ts IH]; simpl; [reflexivity|].
  destruct (existsb (strict_eq (VStr t)) ls); [reflexivity | exact IH].
Qed.

Lemma find_first {A} (p : A -> bool) (before : list A) (x : A) (after : list A) :
  p x = true -> (forall y, In y before -> p y = false) ->
  find p (before ++ x :: after) = Some x.
Proof.
  intros Hx Hb. induction before as [|y before IH]; simpl.
  - now rewrite Hx.
  - rewrite (Hb y (or_introl eq_refl)). apply IH.
    intros z Hz. apply Hb. now right.
Qed.

Lemma find_none {A} (p : A -> bool) (xs : list A) :
  (forall y, In y xs -> p y = false) -> find p xs = None.
Proof.
  intros H. induction xs as [|y xs IH]; simpl; [reflexivity|].
  rewrite (H y (or_introl eq_refl)). apply IH. intros z Hz. apply H. now right.
Qed.

(** With an exact match among the results, the hit is the first exact match
    and the label comes from its labels. *)
Lemma pick_label_exact (eid : string) (body : value)
    (rs pre : list value) (hit : value) (post ls : list value) :
  prop body "results" = VArr rs ->
  rs = (pre ++ hit :: post)%list ->
  ProposedActions.exact_match eid hit ->
  (forall x, In x pre -> ~ ProposedActions.exact_match eid x) ->
  prop hit "labels" = VArr ls ->
  ProposedActions.pick_label (VStr eid) body
  = Ok match find (fun t => existsb (strict_eq (VStr t)) ls) ProposedActions.priority with
       | Some t => VStr t
       | None => match ls with l :: _ => coalesce l VNull | [] => VNull end
       end.
Proof.
  intros Hres Hrs Hhit Hpre Hls.
  unfold ProposedActions.pick_label. rewrite opt_prop_prop, Hres.
  assert (Hfind : find (ProposedActions.matches (VStr eid)) rs = Some hit).
  { subst rs. apply find_first.
    - now apply matches_exact.
    - intros y Hy. destruct (ProposedActions.matches (VStr eid) y) eqn:E; [|reflexivity].
      apply matches_exact in E. now elim (Hpre y Hy). }
  destruct rs as [|first rest].
  { destruct pre; discriminate. }
  rewrite Hfind.
  assert (Htruthy : or_else hit first = hit).
  { destruct Hhit as (fs & ps & -> & _). reflexivity. }
  rewrite Htruthy, opt_prop_prop, Hls.
  change (or_else (VArr ls) (VArr [])) with (VArr ls).
  rewrite first_included_array.
  destruct (find _ ProposedActions.priority); [reflexivity|].
  destruct ls; reflexivity.
Qed.

(** With no result, there is nothing to pick. *)
Lemma pick_label_empty (eid body : value) :
  prop body "results" = VArr [] ->
  ProposedActions.pick_label eid body = Ok VNull.
Proof.
  intros H. unfold ProposedActions.pick_label. now rewrite opt_prop_prop, H.
Qed.

(** No entry of the priority list is the empty string. *)
Lemma priority_truthy (t : string) :
  In t ProposedActions.priority -> truthy (VStr t) = true.
Proof.
  intros Hin. simpl in Hin.
  repeat (destruct Hin as [<-|Hin]; [reflexivity|]). contradiction.
Qed.

(** [approve] sends the search request and then the execute request. *)
Lemma approve_sends (rt : Runtime) (row : value) (w : World ProposedActions.State)
    (rq : Request) :
  nullish row = false ->
  ProposedActions.approve_request rt row w = Ok rq ->
  exists rest,
    sent (snd (ProposedActions.approve rt row w))
    = (ProposedActions.approve_log rt row w ++ rq :: rest)%list.
Proof.
  intros Hrow Hrq. rewrite (approve_eq rt row w Hrow), Hrq. cbv zeta.
  destruct (backend rt _ _) as [r|e].
  - destruct (ok r).
    + rewrite PA_load_eq. cbn [snd sent]. eexists.
      rewrite <- app_assoc. reflexivity.
    + destruct (res_text r); cbn [snd sent]; exists []; reflexivity.
  - cbn [snd sent]. exists []. reflexivity.
Qed.

(** The execute request built for a row whose runbook and action ids have
    a text. *)
Lemma execute_request_eq (rt : Runtime) (row entityType : value) (rid aid : string) :
  to_string (Number_toString rt) (prop row "runbook_id") = Ok rid ->
  to_string (Number_toString rt) (prop row "action_id") = Ok aid ->
  ProposedActions.execute_request rt row entityType
  = Ok (POST (ProposedActions.API rt ++ "/runbooks/" ++ encodeURIComponent rid
              ++ "/execute?mode=execute")
             "content-type"
             (Some (VObj
                [("targets",
                  VArr [VObj [("entity_type", entityType);
                              ("entity_id", prop row "entity_id")]]);
                 ("reason", VStr ("Approved action " ++ aid ++ " from UI"))]))).
Proof.
  intros Hrid Haid. unfold ProposedActions.execute_request.
  now rewrite Hrid, Haid.
Qed.

(** C1. The search response decoded to [body], for the entity id [eid].
    The candidate labels are Service, Database, API, Server, Topic, Machine,
    Line, Plant, Sensor, Team, in this order.  When a result matches [eid]
    exactly on the [id], [name] or [title] of its [props], the resolution
    takes the first such result [hit]; over its labels [ls] it returns the
    first candidate that is among them, and [approve] posts the execute
    request with that label as the entity type of its target; when no
    candidate is among them, it returns the first label of the hit (null
    when it has none).  When the search has no result, the resolution
    returns null and [approve] posts the execute request with the entity
    type "Service". *)
Theorem C1_entity_type_resolution
    (rt : Runtime) (log : list Request) (eid : string) (r : Response) (body : value) :
  backend rt log
    (GET (ProposedActions.API rt ++ "/graph/search?q=" ++ encodeURIComponent eid))
  = Ok r ->
  ok r = true ->
  res_json r = Ok body ->
  ProposedActions.priority
  = ["Service"; "Database"; "API"; "Server"; "Topic";
     "Machine"; "Line"; "Plant"; "Sensor"; "Team"]
  /\
  (forall rs pre hit post ls,
     prop body "results" = VArr rs ->
     rs = (pre ++ hit :: post)%list ->
     ProposedActions.exact_match eid hit ->
     (forall x, In x pre -> ~ ProposedActions.exact_match eid x) ->
     prop hit "labels" = VArr ls ->
     (forall before t after,
        ["Service"; "Database"; "API"; "Server"; "Topic";
         "Machine"; "Line"; "Plant"; "Sensor"; "Team"]
        = (before ++ t :: after)%list ->
        In (VStr t) ls ->
        (forall t', In t' before -> ~ In (VStr t') ls) ->
        ProposedActions.resolved rt (VStr eid) log = VStr t
        /\ forall row w rid aid,
             nullish row = false ->
             prop row "entity_id" = VStr eid ->
             sent w = log ->
             to_string (Number_toString rt) (prop row "runbook_id") = Ok rid ->
             to_string (Number_toString rt) (prop row "action_id") = Ok aid ->
             In (POST (ProposedActions.API rt ++ "/runbooks/"
                       ++ encodeURIComponent rid ++ "/execute?mode=execute")
                      "content-type"
                      (Some (VObj
                         [("targets",
                           VArr [VObj [("entity_type", VStr t);
                                       ("entity_id", VStr eid)]]);
                          ("reason",
                           VStr ("Approved action " ++ aid ++ " from UI"))])))
                (sent (snd (ProposedActions.approve rt row w))))
     /\ ((forall t,
            In t ["Service"; "Database"; "API"; "Server"; "Topic";
                  "Machine"; "Line"; "Plant"; "Sensor"; "Team"] ->
            ~ In (VStr t) ls) ->
         ProposedActions.resolved rt (VStr eid) log
         = match ls with l :: _ => coalesce l VNull | [] => VNull end))
  /\
  (prop body "results" = VArr [] ->
   ProposedActions.resolved rt (VStr eid) log = VNull
   /\ forall row w rid aid,
        nullish row = false ->
        prop row "entity_id" = VStr eid ->
        sent w = log ->
        to_string (Number_toString rt) (prop row "runbook_id") = Ok rid ->
        to_string (Number_toString rt) (prop row "action_id") = Ok aid ->
        In (POST (ProposedActions.API rt ++ "/runbooks/"
                  ++ encodeURIComponent rid ++ "/execute?mode=execute")
                 "content-type"
                 (Some (VObj
                    [("targets",
                      VArr [VObj [("entity_type", VStr "Service");
                                  ("entity_id", VStr eid)]]);
                     ("reason",
                      VStr ("Approved action " ++ aid ++ " from UI"))])))
           (sent (snd (ProposedActions.approve rt row w)))).
Proof.
  intros Hr Hok Hbody.
  assert (Hres : ProposedActions.resolved rt (VStr eid) log
                 = match ProposedActions.pick_label (VStr eid) body with
                   | Ok v => v
                   | Throw _ => VNull
                   end).
  { rewrite resolved_eq. unfold ProposedActions.search_url. cbn [to_string].
    rewrite Hr, (checked_json_ok _ _ Hok Hbody). reflexivity. }
  assert (Hposted : forall row w rid aid (label found : value),
             nullish row = false ->
             prop row "entity_id" = VStr eid ->
             sent w = log ->
             to_string (Number_toString rt) (prop row "runbook_id") = Ok rid ->
             to_string (Number_toString rt) (prop row "action_id") = Ok aid ->
             ProposedActions.resolved rt (VStr eid) log = found ->
             or_else found (VStr "Service") = label ->
             In (POST (ProposedActions.API rt ++ "/runbooks/"
                       ++ encodeURIComponent rid ++ "/execute?mode=execute")
                      "content-type"
                      (Some (VObj
                         [("targets",
                           VArr [VObj [("entity_type", label);
                                       ("entity_id", VStr eid)]]);
                          ("reason",
                           VStr ("Approved action " ++ aid ++ " from UI"))])))
                (sent (snd (ProposedActions.approve rt row w)))).
  { intros row w rid aid label found Hrow Heid Hlog Hrid Haid Hfound Hlabel.
    assert (Hrq : ProposedActions.approve_request rt row w
                  = Ok (POST (ProposedActions.API rt ++ "/runbooks/"
                              ++ encodeURIComponent rid ++ "/execute?mode=execute")
                             "content-type"
                             (Some (VObj
                                [("targets",
                                  VArr [VObj [("entity_type", label);
                                              ("entity_id", VStr eid)]]);
                                 ("reason",
                                  VStr ("Approved action " ++ aid ++ " from UI"))])))).
    { unfold ProposedActions.approve_request.
      rewrite Heid, Hlog, Hfound, Hlabel.
      rewrite (execute_request_eq rt row label rid aid Hrid Haid).
      now rewrite Heid. }
    destruct (approve_sends rt row w _ Hrow Hrq) as (rest & Hsent).
    rewrite Hsent. apply in_or_app. right. now left. }
  split; [reflexivity|]. split.
  - intros rs pre hit post ls Hrs Hsplit Hhit Hpre Hls.
    split.
    + intros before t after Hprio Hin Hbefore.
      assert (Ht : ProposedActions.resolved rt (VStr eid) log = VStr t).
      { rewrite Hres, (pick_label_exact eid body rs pre hit post ls
                         Hrs Hsplit Hhit Hpre Hls).
        change ProposedActions.priority
          with ["Service"; "Database"; "API"; "Server"; "Topic";
                "Machine"; "Line"; "Plant"; "Sensor"; "Team"].
        rewrite Hprio, find_first; [reflexivity | now apply includes_label |].
        intros y Hy. destruct (existsb _ ls) eqn:E; [|reflexivity].
        apply includes_label in E. now elim (Hbefore y Hy). }
      split; [exact Ht|].
      intros row w rid aid Hrow Heid Hlog Hrid Haid.
      apply (Hposted row w rid aid (VStr t) (VStr t) Hrow Heid Hlog Hrid Haid Ht).
      assert (Hne : truthy (VStr t) = true).
      { apply (priority_truthy t).
        change ProposedActions.priority
          with ["Service"; "Database"; "API"; "Server"; "Topic";
                "Machine"; "Line"; "Plant"; "Sensor"; "Team"].
        rewrite Hprio. apply in_or_app. right. now left. }
      unfold or_else. now rewrite Hne.
    + intros Hnone.
      rewrite Hres, (pick_label_exact eid body rs pre hit post ls
                       Hrs Hsplit Hhit Hpre Hls).
      rewrite find_none; [reflexivity|].
      intros y Hy. destruct (existsb _ ls) eqn:E; [|reflexivity].
      apply includes_label in E. now elim (Hnone y Hy).
  - intros Hempty.
    assert (Hnull : ProposedActions.resolved rt (VStr eid) log = VNull).
    { now rewrite Hres, (pick_label_empty _ _ Hempty). }
    split; [exact Hnull|].
    intros row w rid aid Hrow Heid Hlog Hrid Haid.
    apply (Hposted row w rid aid (VStr "Service") VNull Hrow Heid Hlog Hrid Haid Hnull).
    reflexivity.
Qed.

(** C1, on a search for "M-42" that returns a sensor and then the machine,
    whose labels are Asset, Sensor and Machine in this order: the resolution
    returns "Machine", which comes before "Sensor" among the candidates, and
    [approve] posts it; and on a search that returns nothing: [approve]
    posts "Service". *)
Lemma C1_entity_type_resolution_witness :
  ProposedActions.resolved (Samples.answers Cases.tagged_hits) (VStr "M-42") []
  = VStr "Machine"
  /\ In (POST "http://localhost:8000/runbooks/RB-restore-pump/execute?mode=execute"
           "content-type"
           (Some (VObj
              [("targets",
                VArr [VObj [("entity_type", VStr "Machine");
                            ("entity_id", VStr "M-42")]]);
               ("reason", VStr "Approved action ACT-7002 from UI")])))
        (sent (snd (ProposedActions.approve (Samples.answers Cases.tagged_hits)
                      Samples.action (Samples.fresh Samples.listing))))
  /\ In (POST "http://localhost:8000/runbooks/RB-restore-pump/execute?mode=execute"
           "content-type"
           (Some (VObj
              [("targets",
                VArr [VObj [("entity_type", VStr "Service");
                            ("entity_id", VStr "M-42")]]);
               ("reason", VStr "Approved action ACT-7002 from UI")])))
        (sent (snd (ProposedActions.approve (Samples.answers Samples.search_nothing)
                      Samples.action (Samples.fresh Samples.listing)))).
Proof.
  assert (Hmachine : ProposedActions.exact_match "M-42" Cases.tagged_machine_hit).
  { eexists. eexists. split; [reflexivity|]. split; [reflexivity|].
    left. reflexivity. }
  assert (Hsensor : forall x, In x [Samples.sensor_hit] ->
                              ~ ProposedActions.exact_match "M-42" x).
  { intros x [<-|[]] (fs & ps & Hobj & Hprops & Hfield).
    injection Hobj as <-. simpl in Hprops. injection Hprops as <-.
    simpl in Hfield. destruct Hfield as [H|[H|H]]; discriminate. }
  assert (Hbefore : forall t',
             In t' ["Service"; "Database"; "API"; "Server"; "Topic"] ->
             ~ In (VStr t') [VStr "Asset"; VStr "Sensor"; VStr "Machine"]).
  { intros t' Hin Hls. simpl in Hin, Hls.
    repeat (destruct Hin as [<-|Hin];
            [repeat (destruct Hls as [Hls|Hls]; [discriminate Hls|]); exact Hls|]).
    exact Hin. }
  destruct (C1_entity_type_resolution (Samples.answers Cases.tagged_hits) []
              "M-42" (Samples.response 200 "OK" (Ok Cases.tagged_hits))
              Cases.tagged_hits eq_refl eq_refl eq_refl) as (_ & Hexact & _).
  destruct (Hexact [Samples.sensor_hit; Cases.tagged_machine_hit]
              [Samples.sensor_hit] Cases.tagged_machine_hit []
              [VStr "Asset"; VStr "Sensor"; VStr "Machine"]
              eq_refl eq_refl Hmachine Hsensor eq_refl) as [Hfirst _].
  destruct (Hfirst ["Service"; "Database"; "API"; "Server"; "Topic"] "Machine"
              ["Line"; "Plant"; "Sensor"; "Team"] eq_refl
              (or_intror (or_intror (or_introl eq_refl))) Hbefore)
    as [Hlabel Hsent].
  destruct (C1_entity_type_resolution (Samples.answers Samples.search_nothing) []
              "M-42" (Samples.response 200 "OK" (Ok Samples.search_nothing))
              Samples.search_nothing eq_refl eq_refl eq_refl) as (_ & _ & Hempty).
  destruct (Hempty eq_refl) as [_ Happrove].
  split; [exact Hlabel|]. split.
  - apply (Hsent Samples.action (Samples.fresh Samples.listing)
             "RB-restore-pump" "ACT-7002"); reflexivity.
  - apply (Happrove Samples.action (Samples.fresh Samples.listing)
             "RB-restore-pump" "ACT-7002"); reflexivity.
Defined.

(** ** The API base *)

Lemma nonempty_some (o : option string) (s : string) :
  ProposedActions.nonempty o = Some s <-> o = Some s /\ s <> "".
Proof.
  unfold ProposedActions.nonempty. destruct o as [x|]; [|split; [discriminate | now intros [? _]]].
  destruct (String.eqb_spec x "") as [->|Hx]; split.
  - discriminate.
  - intros [[= <-] H]. now elim H.
  - intros [= <-]. now split.
  - now intros [-> _].
Qed.

Lemma nonempty_none (o : option string) :
  ProposedActions.nonempty o = None <-> forall s, ~ (o = Some s /\ s <> "").
Proof.
  split.
  - intros H s Hs. apply nonempty_some in Hs. congruence.
  - intros H. destruct (ProposedActions.nonempty o) as [s|] eqn:E; [|reflexivity].
    apply nonempty_some in E. now elim (H s).
Qed.

Lemma override_read (rt : Runtime) (s : string) :
  ProposedActions.nonempty (if window_defined rt then window_API_BASE rt else None)
  = Some s
  <-> ApiBase.has_override rt s.
Proof.
  unfold ApiBase.has_override. rewrite nonempty_some.
  destruct (window_defined rt); split.
  - now intros [H1 H2].
  - now intros (_ & H1 & H2).
  - now intros [H _].
  - now intros (H & _).
Qed.

Lemma env_read (rt : Runtime) (s : string) :
  ProposedActions.nonempty (match import_meta_env rt with Some e => e | None => None end)
  = Some s
  <-> ApiBase.has_env_value rt s.
Proof.
  unfold ApiBase.has_env_value. rewrite nonempty_some.
  destruct (import_meta_env rt) as [e|]; split.
  - now intros [-> H].
  - now intros [[= ->] H].
  - now intros [H _].
  - now intros [H _].
Qed.

Lemma PA_API_three_tier : ApiBase.three_tier ProposedActions.API.
Proof.
  intros rt. unfold ProposedActions.API.
  destruct (ProposedActions.nonempty (if window_defined rt then _ else _))
    as [o|] eqn:Eo.
  - apply override_read in Eo. repeat split.
    + intros s (_ & Hs & _). destruct Eo as (_ & Ho & _). congruence.
    + intros Hno. now elim (Hno o).
    + intros Hno. now elim (Hno o).
  - assert (Hno : forall s, ~ ApiBase.has_override rt s).
    { intros s Hs. apply override_read in Hs. congruence. }
    destruct (ProposedActions.nonempty (match import_meta_env rt with
                                        | Some e => e | None => None end))
      as [v|] eqn:Ev.
    + apply env_read in Ev. repeat split.
      * intros s Hs. now elim (Hno s).
      * intros _ s [Hs _]. destruct Ev as [Hv _]. congruence.
      * intros _ Hnone. now elim (Hnone v).
    + repeat split.
      * intros s Hs. now elim (Hno s).
      * intros _ s Hs. apply env_read in Hs. congruence.
Qed.

Lemma AA_API_eq (rt : Runtime) : AgentActionsAudit.API rt = ProposedActions.API rt.
Proof. reflexivity. Qed.

(** [replace(/\/$/, "")] removes the slash that ends the string, if any. *)
Lemma strip_trailing_slash_app (s : string) :
  ApiIndex.strip_trailing_slash (s ++ "/") = s.
Proof.
  induction s as [|c s IH]; [reflexivity|].
  simpl. destruct (s ++ "/") eqn:E.
  - destruct s; discriminate.
  - now rewrite IH.
Qed.

Lemma strip_trailing_slash_other (s : string) :
  (forall s', s <> s' ++ "/") -> ApiIndex.strip_trailing_slash s = s.
Proof.
  induction s as [|c s IH]; intros H; [reflexivity|].
  simpl. destruct s as [|d s].
  - destruct (Ascii.eqb_spec c "/") as [->|_]; [|reflexivity].
    now elim (H "").
  - rewrite IH; [reflexivity|].
    intros s' E. apply (H (String c s')). simpl. now rewrite E.
Qed.

(** C5, as stated, fails on the two client modules: with a global override
    in place, the generic client still uses the fixed default and the typed
    client uses the build-time value. *)
Lemma C5_client_modules_ignore_override :
  ApiBase.has_override Samples.configured "http://gateway:9000"
  /\ ApiBase.lib_base Samples.configured = "http://localhost:8000"
  /\ ApiBase.index_base Samples.configured = "http://build:8000"
  /\ ~ ApiBase.three_tier ApiBase.lib_base
  /\ ~ ApiBase.three_tier ApiBase.index_base.
Proof.
  assert (Hov : ApiBase.has_override Samples.configured "http://gateway:9000").
  { repeat split. discriminate. }
  repeat split; try (exact (proj1 Hov)); try (exact (proj2 Hov)).
  - discriminate.
  - intros H. destruct (H Samples.configured) as [Hfirst _].
    specialize (Hfirst _ Hov). discriminate Hfirst.
  - intros H. destruct (H Samples.configured) as [Hfirst _].
    specialize (Hfirst _ Hov). discriminate Hfirst.
Qed.

(** C5, amended. The proposal list and the audit log resolve the API base in
    three tiers: the global runtime override, then the build-time
    environment value, then http://localhost:8000.  The typed client
    (api/index.ts) resolves it from the build-time value, with one trailing
    slash removed, then the default, whatever the global override is.  The
    generic client (lib/api.ts) always uses http://localhost:8000. *)
Theorem C5_api_base_resolution :
  ApiBase.three_tier ProposedActions.API
  /\ ApiBase.three_tier AgentActionsAudit.API
  /\ (forall rt e,
        import_meta_env rt = Some e ->
        (forall s, e = Some (s ++ "/") -> s <> "" -> ApiIndex.API_BASE rt = Ok s)
        /\ (forall s, e = Some s -> (forall s', s <> s' ++ "/") -> s <> "" ->
                      ApiIndex.API_BASE rt = Ok s)
        /\ (e = None \/ e = Some "" \/ e = Some "/" ->
            ApiIndex.API_BASE rt = Ok "http://localhost:8000"))
  /\ (forall rt, ApiBase.lib_base rt = "http://localhost:8000").
Proof.
  split; [exact PA_API_three_tier|].
  split; [exact PA_API_three_tier|].
  split; [|reflexivity].
  intros rt e He. unfold ApiIndex.API_BASE. rewrite He. repeat split.
  - intros s -> Hs. rewrite strip_trailing_slash_app.
    destruct (String.eqb_spec s ""); [contradiction | reflexivity].
  - intros s -> Hslash Hs. rewrite (strip_trailing_slash_other _ Hslash).
    destruct (String.eqb_spec s ""); [contradiction | reflexivity].
  - intros [-> | [-> | ->]]; reflexivity.
Qed.

(** ** The agent dock *)

Section Asking.
Variable rt : Runtime.

(** [ask] on a message that is not blank: one request, and the answer pane
    gets the decoded body of whatever response came back, or the client
    error when the fetch or the decoding threw. *)
Lemma ask_eq (m : string) (w : World AgentDock.State) :
  trim_is_empty m = false ->
  AgentDock.ask rt m w
  = (Ok tt,
     {| ui :=
          AgentDock.setBusy false
            (AgentDock.setResp
               match backend rt (sent w) (AgentDock.query_request rt m) with
               | Throw e => AgentDock.client_error e
               | Ok r =>
                   match res_json r with
                   | Ok j => j
                   | Throw e => AgentDock.client_error e
                   end
               end
               (AgentDock.setShowReason false (AgentDock.setBusy true (ui w))));
        sent := (sent w ++ [AgentDock.query_request rt m])%list |}).
Proof.
  intros Hm. unfold AgentDock.ask. rewrite Hm.
  unfold finally, try_catch, bind, set, settle, fetch. cbn [ui sent].
  destruct (backend rt (sent w) _) as [r|e]; [|reflexivity].
  destruct (res_json r); reflexivity.
Qed.

(** The handler never throws. *)
Lemma ask_never_throws (m : string) (w : World AgentDock.State) :
  fst (AgentDock.ask rt m w) = Ok tt.
Proof.
  destruct (trim_is_empty m) eqn:Hm.
  - unfold AgentDock.ask. now rewrite Hm.
  - now rewrite ask_eq.
Qed.

(** When the fetch rejects, or the body does not decode, the pane shows
    the error's text, confidence 0 and the "Client error" summary. *)
Lemma ask_on_thrown (m : string) (w : World AgentDock.State) (e : exn) :
  trim_is_empty m = false ->
  (backend rt (sent w) (AgentDock.query_request rt m) = Throw e
   \/ exists r, backend rt (sent w) (AgentDock.query_request rt m) = Ok r
                /\ res_json r = Throw e) ->
  let s := ui (snd (AgentDock.ask rt m w)) in
  AgentDock.reply_shown s = VStr (String_of_exn e)
  /\ AgentDock.confidence_read s = VNum 0%float
  /\ AgentDock.summary_shown s = VStr "Client error".
Proof.
  intros Hm H s. subst s. rewrite (ask_eq m w Hm). cbn [snd ui].
  destruct H as [H | (r & H & Hj)]; rewrite H; [|rewrite Hj];
    repeat split.
Qed.

(** The status of the response is not looked at: a response outside 2xx
    whose body decodes is shown as if it were an answer. *)
Lemma ask_ignores_status (m : string) (w : World AgentDock.State)
    (r : Response) (j : value) :
  trim_is_empty m = false ->
  backend rt (sent w) (AgentDock.query_request rt m) = Ok r ->
  res_json r = Ok j ->
  AgentDock.resp (ui (snd (AgentDock.ask rt m w))) = j.
Proof.
  intros Hm H Hj. rewrite (ask_eq m w Hm). cbn [snd ui]. now rewrite H, Hj.
Qed.

End Asking.

(** C6, at a failing input. The agent endpoint answers 500 Internal Server
    Error with the body [{"detail": "Internal Server Error"}]: the handler
    does not throw, and the pane holds that body; it shows no reply text and
    no summary, where the specification asks for the error's text and the
    client-side error marker. *)
Theorem C6_ask_non_2xx_shows_body :
  let w := AgentDock.ask Samples.server_error "why is order-service slow"
             (Samples.fresh AgentDock.initial) in
  fst w = Ok tt
  /\ AgentDock.resp (ui (snd w)) = Samples.error_body
  /\ AgentDock.reply_shown (ui (snd w)) = VUndefined
  /\ AgentDock.summary_shown (ui (snd w)) = VUndefined
  /\ AgentDock.summary_shown (ui (snd w)) <> VStr "Client error".
Proof.
  cbv zeta. rewrite ask_eq by reflexivity. cbn [fst snd ui].
  repeat split. discriminate.
Qed.

(** ** The live-stream components *)

Lemma firstn_app_firstn {A} (n : nat) (l l' : list A) :
  firstn n (l ++ firstn n l') = firstn n (l ++ l').
Proof.
  rewrite !firstn_app, firstn_firstn. f_equal. f_equal. lia.
Qed.

(** Pushing the entries of [msgs] one by one onto a list [acc] that is
    within the window leaves the first [n] of the entries, newest first,
    followed by [acc]. *)
Lemma fold_push {A} (n : nat) (f : string -> A) (msgs : list string) (acc : list A) :
  (List.length acc <= n)%nat ->
  fold_left (fun st d => Stream.update (fun prev => Ok (Stream.push n (f d) prev)) st)
            msgs (Ok acc)
  = Ok (firstn n (rev (map f msgs) ++ acc)).
Proof.
  revert acc. induction msgs as [|d msgs IH]; intros acc Hacc; simpl.
  - now rewrite firstn_all2.
  - rewrite IH.
    + unfold Stream.push. now rewrite firstn_app_firstn, <- app_assoc.
    + unfold Stream.push. apply firstn_le_length.
Qed.

Section Streams.
Variable rt : Runtime.

(** The full ticker: the last 50 entries, newest first. *)
Lemma StreamTicker_feed_eq (msgs : list string) :
  Stream.StreamTicker_feed rt msgs
  = Ok (firstn 50 (rev (map (Stream.StreamTicker_entry rt) msgs))).
Proof.
  unfold Stream.StreamTicker_feed.
  rewrite <- (app_nil_r (rev _)).
  apply (fold_push 50 (Stream.StreamTicker_entry rt) msgs []). simpl. lia.
Qed.

(** The notification badge: the last 5 payloads, newest first. *)
Lemma NotificationCenter_feed_eq (msgs : list string) :
  Stream.NotificationCenter_feed msgs = Ok (firstn 5 (rev msgs)).
Proof.
  unfold Stream.NotificationCenter_feed.
  rewrite <- (map_id msgs) at 2. rewrite <- (app_nil_r (rev _)).
  apply (fold_push 5 (fun d => d) msgs []). simpl. lia.
Qed.

Lemma EventTicker_step (prev : list string) (d l : string) :
  Stream.EventTicker_entry rt d = Ok l ->
  Stream.EventTicker_onmessage rt (Ok prev) d = Ok (Stream.push 12 l prev).
Proof.
  unfold Stream.EventTicker_entry, Stream.EventTicker_onmessage.
  destruct (JSON_parse rt d) as [asObj|e]; simpl.
  - now intros ->.
  - now intros [= ->].
Qed.

(** A payload that is not JSON is shown as it came. *)
Lemma EventTicker_entry_raw (d : string) (e : exn) :
  JSON_parse rt d = Throw e -> Stream.EventTicker_entry rt d = Ok d.
Proof. intros H. unfold Stream.EventTicker_entry. now rewrite H. Qed.

(** A value with a text of its own: not an array, not an object. *)
Lemma to_string_scalar (v : value) :
  (forall xs, v <> VArr xs) -> (forall fs, v <> VObj fs) ->
  exists s, to_string (Number_toString rt) v = Ok s.
Proof.
  intros Ha Ho. destruct v as [| |[|]| | |xs|fs]; simpl; try (eexists; reflexivity).
  - now elim (Ha xs).
  - now elim (Ho fs).
Qed.

(** A payload that parses to a value other than null has a line when its
    [topic] and [ts] are each absent, null, a boolean, a number or a
    string. *)
Lemma EventTicker_entry_event (d : string) (v : value) :
  JSON_parse rt d = Ok v ->
  nullish v = false ->
  (forall xs, prop v "topic" <> VArr xs) -> (forall fs, prop v "topic" <> VObj fs) ->
  (forall xs, prop v "ts" <> VArr xs) -> (forall fs, prop v "ts" <> VObj fs) ->
  exists l, Stream.EventTicker_entry rt d = Ok l.
Proof.
  intros Hp Hv Ha1 Ho1 Ha2 Ho2.
  unfold Stream.EventTicker_entry, Stream.EventTicker_line, member.
  rewrite Hp, Hv.
  destruct (to_string_scalar _ Ha1 Ho1) as (a & ->).
  destruct (to_string_scalar _ Ha2 Ho2) as (b & ->).
  eexists. reflexivity.
Qed.

(** A payload has no line only when it parses to null, or to a value whose
    [topic] or [ts] has no text. *)
Lemma EventTicker_entry_throws (d : string) (e : exn) :
  Stream.EventTicker_entry rt d = Throw e ->
  exists v,
    JSON_parse rt d = Ok v
    /\ (nullish v = true
        \/ to_string (Number_toString rt) (prop v "topic") = Throw e
        \/ to_string (Number_toString rt) (prop v "ts") = Throw e).
Proof.
  unfold Stream.EventTicker_entry, Stream.EventTicker_line, member.
  destruct (JSON_parse rt d) as [v|e']; [|discriminate].
  intros H. exists v. split; [reflexivity|].
  destruct (nullish v); [now left | right].
  destruct (to_string _ (prop v "topic")) as [a|e1]; [|left; congruence].
  destruct (to_string _ (prop v "ts")) as [b|e2]; [discriminate | right; congruence].
Qed.

Lemma EventTicker_fold (msgs lines : list string) (acc : list string) :
  Forall2 (fun d l => Stream.EventTicker_entry rt d = Ok l) msgs lines ->
  (List.length acc <= 12)%nat ->
  fold_left (Stream.EventTicker_onmessage rt) msgs (Ok acc)
  = Ok (firstn 12 (rev lines ++ acc)).
Proof.
  intros H. revert acc.
  induction H as [|d l msgs lines Hd _ IH]; intros acc Hacc; cbn [fold_left rev app].
  - now rewrite firstn_all2.
  - rewrite (EventTicker_step acc d l Hd), IH.
    + unfold Stream.push. now rewrite firstn_app_firstn, <- app_assoc.
    + unfold Stream.push. apply firstn_le_length.
Qed.

(** The compact ticker, over payloads each of which has a line: the last 12
    lines, newest first. *)
Lemma EventTicker_feed_eq (msgs : list string) :
  (forall d, In d msgs -> exists l, Stream.EventTicker_entry rt d = Ok l) ->
  exists lines,
    Forall2 (fun d l => Stream.EventTicker_entry rt d = Ok l) msgs lines
    /\ Stream.EventTicker_feed rt msgs = Ok (firstn 12 (rev lines)).
Proof.
  intros H.
  assert (Hlines : exists lines,
             Forall2 (fun d l => Stream.EventTicker_entry rt d = Ok l) msgs lines).
  { induction msgs as [|d msgs IH].
    - exists []. constructor.
    - destruct IH as (lines & Hl).
      { intros d' Hin. apply H. now right. }
      destruct (H d (or_introl eq_refl)) as (l & Hd).
      exists (l :: lines). now constructor. }
  destruct Hlines as (lines & Hl). exists lines. split; [exact Hl|].
  unfold Stream.EventTicker_feed.
  rewrite (EventTicker_fold msgs lines [] Hl), app_nil_r; [reflexivity | simpl; lia].
Qed.

(** A failed render is final: later messages do not bring the list back. *)
Lemma EventTicker_stays_failed (msgs : list string) (e : exn) :
  fold_left (Stream.EventTicker_onmessage rt) msgs (Throw e) = Throw e.
Proof.
  induction msgs as [|d msgs IH]; simpl; [reflexivity|].
  unfold Stream.EventTicker_onmessage at 2.
  destruct (JSON_parse rt d); simpl; exact IH.
Qed.

(** A payload that parses to null fails the render of the compact ticker,
    wherever it comes among payloads that have a line. *)
Lemma EventTicker_null_fails (pre : list string) (d : string) (post : list string) :
  (forall d', In d' pre -> exists l, Stream.EventTicker_entry rt d' = Ok l) ->
  JSON_parse rt d = Ok VNull ->
  Stream.EventTicker_feed rt (pre ++ d :: post)
  = Throw (TypeError "Cannot read properties of null or undefined (reading 'topic')").
Proof.
  intros Hpre Hd. unfold Stream.EventTicker_feed.
  rewrite fold_left_app. cbn [fold_left].
  destruct (EventTicker_feed_eq pre Hpre) as (lines & _ & Hfeed).
  unfold Stream.EventTicker_feed in Hfeed. rewrite Hfeed.
  unfold Stream.EventTicker_onmessage at 2. rewrite Hd.
  cbn [Stream.update Stream.EventTicker_line member nullish].
  apply EventTicker_stays_failed.
Qed.

(** After 60 messages the windows are full: 50, 12 and 5 entries. *)
Lemma stream_windows_after_60 (msgs : list string) :
  List.length msgs = 60%nat ->
  (exists evs, Stream.StreamTicker_feed rt msgs = Ok evs /\ List.length evs = 50%nat)
  /\ (exists ns, Stream.NotificationCenter_feed msgs = Ok ns
                 /\ List.length ns = 5%nat)
  /\ ((forall d, In d msgs -> exists l, Stream.EventTicker_entry rt d = Ok l) ->
      exists ls, Stream.EventTicker_feed rt msgs = Ok ls /\ List.length ls = 12%nat).
Proof.
  intros Hlen. repeat split.
  - eexists. split; [apply StreamTicker_feed_eq|].
    rewrite length_firstn, length_rev, length_map, Hlen. reflexivity.
  - eexists. split; [apply NotificationCenter_feed_eq|].
    rewrite length_firstn, length_rev, Hlen. reflexivity.
  - intros H. destruct (EventTicker_feed_eq msgs H) as (lines & Hl & Hfeed).
    eexists. split; [exact Hfeed|].
    rewrite length_firstn, length_rev, <- (Forall2_length Hl), Hlen. reflexivity.
Qed.

End Streams.

(** ** The compact ticker and the payload null *)

(** C4, at a failing input. Sixty messages arrive, the first of which is the
    JSON text null.  The full ticker holds 50 entries and the badge 5.  In
    the compact ticker, reading [topic] of null throws inside the state
    update: its render fails with a TypeError, and it holds no list of 12
    entries. *)
Theorem C4_compact_ticker_null_payload :
  List.length Samples.events_after_null = 60%nat
  /\ (exists evs, Stream.StreamTicker_feed Samples.unreachable Samples.events_after_null
                  = Ok evs /\ List.length evs = 50%nat)
  /\ (exists ns, Stream.NotificationCenter_feed Samples.events_after_null = Ok ns
                 /\ List.length ns = 5%nat)
  /\ Stream.EventTicker_feed Samples.unreachable Samples.events_after_null
     = Throw (TypeError "Cannot read properties of null or undefined (reading 'topic')")
  /\ ~ (exists ls, Stream.EventTicker_feed Samples.unreachable Samples.events_after_null
                   = Ok ls /\ List.length ls = 12%nat).
Proof.
  assert (Hfail : Stream.EventTicker_feed Samples.unreachable Samples.events_after_null
                  = Throw (TypeError
                      "Cannot read properties of null or undefined (reading 'topic')")).
  { unfold Stream.EventTicker_feed, Samples.events_after_null.
    cbn [fold_left]. apply EventTicker_stays_failed. }
  split; [reflexivity|].
  destruct (stream_windows_after_60 Samples.unreachable Samples.events_after_null eq_refl)
    as (Hfull & Hbadge & _).
  split; [exact Hfull|]. split; [exact Hbadge|]. split; [exact Hfail|].
  intros (ls & Hls & _). rewrite Hfail in Hls. discriminate Hls.
Qed.

(** The same sixty messages without the null: 50, 12 and 5 entries, the
    newest first. *)
Example stream_windows_on_events :
  (exists evs, Stream.StreamTicker_feed Samples.unreachable Samples.events = Ok evs
               /\ List.length evs = 50%nat
               /\ hd_error evs = Some (VObj [("raw", VStr "evt-59")]))
  /\ (exists ls, Stream.EventTicker_feed Samples.unreachable Samples.events = Ok ls
                 /\ List.length ls = 12%nat /\ hd_error ls = Some "evt-59")
  /\ (exists ns, Stream.NotificationCenter_feed Samples.events = Ok ns
                 /\ List.length ns = 5%nat /\ hd_error ns = Some "evt-59").
Proof.
  repeat split; eexists; (split; [vm_compute; reflexivity|]); split; reflexivity.
Qed.

(** ** The schema script *)

Import Cypher.

Lemma has_constraint_added (c : Constraint) (cs : list (string * string * string)) ix :
  has_constraint c {| cat_constraints := (cs ++ [(c_name c, c_label c, c_property c)])%list;
                      cat_indexes := ix |} = true.
Proof.
  unfold has_constraint. cbn [cat_constraints].
  rewrite existsb_app. simpl. rewrite String.eqb_refl. simpl. apply orb_true_r.
Qed.

Lemma has_index_added (i : FulltextIndex) cs (ix : list (string * list string * list string)) :
  has_index i {| cat_constraints := cs;
                 cat_indexes := (ix ++ [(i_name i, i_labels i, i_properties i)])%list |}
  = true.
Proof.
  unfold has_index. cbn [cat_indexes].
  rewrite existsb_app. simpl. rewrite String.eqb_refl. simpl. apply orb_true_r.
Qed.

(** A statement never removes an object. *)
Lemma apply_ddl_keeps (d d' : ddl) (cat cat' : Catalog) :
  apply_ddl d cat = Some cat' -> present d' cat = true -> present d' cat' = true.
Proof.
  intros Happ Hp. destruct d as [c|i]; simpl in Happ.
  - destruct (has_constraint c cat).
    + destruct (c_if_not_exists c); [|discriminate]. now injection Happ as <-.
    + injection Happ as <-. destruct d' as [c'|i']; simpl in *; [|exact Hp].
      unfold has_constraint in *. cbn [cat_constraints].
      rewrite existsb_app, Hp. reflexivity.
  - destruct (has_index i cat).
    + destruct (i_if_not_exists i); [|discriminate]. now injection Happ as <-.
    + injection Happ as <-. destruct d' as [c'|i']; simpl in *; [exact Hp|].
      unfold has_index in *. cbn [cat_indexes].
      rewrite existsb_app, Hp. reflexivity.
Qed.

(** A guarded statement goes through, and its object is there afterwards. *)
Lemma apply_ddl_guarded (d : ddl) (cat : Catalog) :
  guarded d = true ->
  exists cat', apply_ddl d cat = Some cat' /\ present d cat' = true.
Proof.
  intros Hg. destruct d as [c|i]; simpl in *.
  - destruct (has_constraint c cat) eqn:E.
    + rewrite Hg. now exists cat.
    + eexists. split; [reflexivity|]. apply has_constraint_added.
  - destruct (has_index i cat) eqn:E.
    + rewrite Hg. now exists cat.
    + eexists. split; [reflexivity|]. apply has_index_added.
Qed.

(** A guarded statement whose object is there changes nothing. *)
Lemma apply_ddl_present (d : ddl) (cat : Catalog) :
  guarded d = true -> present d cat = true -> apply_ddl d cat = Some cat.
Proof.
  intros Hg Hp. destruct d as [c|i]; simpl in *; now rewrite Hp, Hg.
Qed.

Lemma apply_schema_guarded (ds : list ddl) (cat : Catalog) :
  forallb guarded ds = true ->
  exists cat',
    apply_schema ds cat = Some cat'
    /\ (forall d, present d cat = true -> present d cat' = true)
    /\ (forall d, In d ds -> present d cat' = true).
Proof.
  revert cat. induction ds as [|d ds IH]; intros cat Hg; simpl in *.
  - exists cat. repeat split; [auto | contradiction].
  - apply andb_true_iff in Hg. destruct Hg as [Hd Hds].
    destruct (apply_ddl_guarded d cat Hd) as (cat1 & Happ & Hp).
    destruct (IH cat1 Hds) as (cat2 & Hrun & Hkeep & Hall).
    exists cat2. rewrite Happ. repeat split; [exact Hrun| |].
    + intros d' Hd'. apply Hkeep. exact (apply_ddl_keeps d d' cat cat1 Happ Hd').
    + intros d' [<-|Hin]; [now apply Hkeep | now apply Hall].
Qed.

Lemma apply_schema_present (ds : list ddl) (cat : Catalog) :
  forallb guarded ds = true ->
  (forall d, In d ds -> present d cat = true) ->
  apply_schema ds cat = Some cat.
Proof.
  intros Hg Hall. induction ds as [|d ds IH]; simpl in *; [reflexivity|].
  apply andb_true_iff in Hg. destruct Hg as [Hd Hds].
  rewrite (apply_ddl_present d cat Hd (Hall d (or_introl eq_refl))).
  apply IH; [exact Hds|]. intros d' Hd'. apply Hall. now right.
Qed.

(** Applying a guarded script to any database succeeds, and applying it
    again changes nothing. *)
Lemma apply_schema_idempotent (ds : list ddl) (cat : Catalog) :
  forallb guarded ds = true ->
  exists cat', apply_schema ds cat = Some cat' /\ apply_schema ds cat' = Some cat'.
Proof.
  intros Hg. destruct (apply_schema_guarded ds cat Hg) as (cat' & Hrun & _ & Hall).
  exists cat'. split; [exact Hrun|]. now apply apply_schema_present.
Qed.

(** C8. The schema script declares 19 uniqueness constraints, all on [id]
    and all guarded by IF NOT EXISTS: exactly one for each of the 19 node
    labels of the data model, and none for any other label.  It declares
    one full-text index, guarded, over the 12 labels Service, Machine, Line,
    Plant, Database, Sensor, API, Server, Topic, Incident, Alert, Team and
    the properties id, name, title.  Applied to any database the script goes
    through, and applied again it changes nothing. *)
Theorem C8_schema_declarations :
  List.length (constraints_of schema) = 19%nat
  /\ List.length data_model_labels = 19%nat
  /\ (forall l, In l data_model_labels ->
        List.length (filter (fun c => String.eqb (c_label c) l) (constraints_of schema))
        = 1%nat)
  /\ (forall c, In c (constraints_of schema) ->
        In (c_label c) data_model_labels
        /\ c_property c = "id" /\ c_if_not_exists c = true)
  /\ indexes_of schema
     = [ {| i_name := "entity_text"; i_if_not_exists := true;
            i_labels := ["Service"; "Machine"; "Line"; "Plant"; "Database"; "Sensor";
                         "API"; "Server"; "Topic"; "Incident"; "Alert"; "Team"];
            i_properties := ["id"; "name"; "title"] |} ]
  /\ (forall cat, exists cat',
        apply_schema schema cat = Some cat' /\ apply_schema schema cat' = Some cat').
Proof.
  split; [reflexivity|]. split; [reflexivity|]. split; [|split; [|split]].
  - intros l Hin. simpl in Hin.
    repeat (destruct Hin as [<-|Hin]; [reflexivity|]). contradiction.
  - intros c Hin. simpl in Hin.
    repeat (destruct Hin as [<-|Hin]; [repeat split; simpl; tauto|]). contradiction.
  - reflexivity.
  - intros cat. apply apply_schema_idempotent. reflexivity.
Qed.

(** ** Re-running a script of MERGE clauses *)

Lemma pval_eqb_refl (v : pval) : pval_eqb v v = true.
Proof.
  destruct v; simpl; [apply String.eqb_refl | apply Z.eqb_refl | apply N.eqb_refl].
Qed.

Lemma same_refl (n : node) : same_but_updated_at n n.
Proof. split; reflexivity. Qed.

Lemma same_sym (n n' : node) :
  same_but_updated_at n n' -> same_but_updated_at n' n.
Proof. intros [Hl Hp]. split; [now symmetry|]. intros k Hk. symmetry. now apply Hp. Qed.

Lemma same_trans (n1 n2 n3 : node) :
  same_but_updated_at n1 n2 -> same_but_updated_at n2 n3 -> same_but_updated_at n1 n3.
Proof.
  intros [Hl Hp] [Hl' Hp']. split; [congruence|].
  intros k Hk. rewrite (Hp k Hk). now apply Hp'.
Qed.

Lemma all_same_refl (ns : list node) : Forall2 same_but_updated_at ns ns.
Proof. induction ns; constructor; [apply same_refl | assumption]. Qed.

Lemma all_same_sym (ns ms : list node) :
  Forall2 same_but_updated_at ns ms -> Forall2 same_but_updated_at ms ns.
Proof. induction 1; constructor; [now apply same_sym | assumption]. Qed.

Lemma all_same_trans (ns ms ps : list node) :
  Forall2 same_but_updated_at ns ms -> Forall2 same_but_updated_at ms ps ->
  Forall2 same_but_updated_at ns ps.
Proof.
  intros H. revert ps. induction H as [|n m ns ms Hnm _ IH]; intros ps Hps.
  - inversion Hps. constructor.
  - inversion Hps as [|m' p ms' ps' Hmp Hrest]; subst.
    constructor; [exact (same_trans n m p Hnm Hmp) | now apply IH].
Qed.

(** *** Properties and SET *)

Lemma lookup_set_prop_other (k k' : string) (v : pval) (ps : props) :
  k' <> k -> lookup k' (set_prop k v ps) = lookup k' ps.
Proof.
  intros Hk. induction ps as [|[k0 v0] ps IH]; simpl.
  - destruct (String.eqb_spec k' k); [contradiction | reflexivity].
  - destruct (String.eqb_spec k k0) as [->|Hk0]; simpl.
    + destruct (String.eqb_spec k' k0); [contradiction | reflexivity].
    + destruct (String.eqb k' k0); [reflexivity | exact IH].
Qed.

Lemma lookup_apply_sets_other (now : N) (sets : list (string * expr)) (k : string) :
  forall ps, ~ In k (map fst sets) -> lookup k (apply_sets now sets ps) = lookup k ps.
Proof.
  unfold apply_sets. induction sets as [|[k0 e] sets IH]; intros ps Hk; simpl.
  - reflexivity.
  - rewrite IH.
    + apply lookup_set_prop_other. intros ->. apply Hk. now left.
    + intros Hin. apply Hk. now right.
Qed.

Lemma in_existsb (k : string) (ks : list string) :
  existsb (String.eqb k) ks = true <-> In k ks.
Proof.
  rewrite existsb_exists. split.
  - intros (x & Hin & Heq). apply String.eqb_eq in Heq. now subst.
  - intros Hin. exists k. split; [assumption | apply String.eqb_refl].
Qed.

(** ON MATCH of a regular clause leaves a node as it was, but for
    [updated_at]. *)
Lemma on_match_same (now : N) (om : list (string * expr)) (n : node) :
  forallb (fun k => String.eqb k "updated_at") (map fst om) = true ->
  same_but_updated_at n {| labels := labels n; nprops := apply_sets now om (nprops n) |}.
Proof.
  intros Hom. split; [reflexivity|]. intros k Hk. simpl. symmetry.
  apply lookup_apply_sets_other. intros Hin.
  rewrite forallb_forall in Hom. specialize (Hom k Hin).
  apply String.eqb_eq in Hom. contradiction.
Qed.

Lemma has_props_ext (key ps ps' : props) :
  (forall k, In k (map fst key) -> lookup k ps = lookup k ps') ->
  has_props key ps = has_props key ps'.
Proof.
  unfold has_props. induction key as [|[k v] key IH]; intros H; simpl; [reflexivity|].
  rewrite (H k (or_introl eq_refl)), IH; [reflexivity|].
  intros k' Hk'. apply H. now right.
Qed.

(** A pattern that does not name [updated_at] cannot tell two states of a
    node apart. *)
Lemma matches_node_same (l : string) (key : props) (n n' : node) :
  existsb (String.eqb "updated_at") (map fst key) = false ->
  same_but_updated_at n n' ->
  matches_node l key n = matches_node l key n'.
Proof.
  intros Hkey [Hl Hp]. unfold matches_node, has_label. rewrite Hl. f_equal.
  apply has_props_ext. intros k Hin. apply Hp. intros ->.
  apply in_existsb in Hin. congruence.
Qed.

Lemma lookup_nodup (k : string) (v : pval) (key : props) :
  nodupb (map fst key) = true -> In (k, v) key -> lookup k key = Some v.
Proof.
  induction key as [|[k0 v0] key IH]; simpl; [contradiction|].
  intros Hnd [Heq|Hin].
  - injection Heq as -> ->. now rewrite String.eqb_refl.
  - apply andb_true_iff in Hnd. destruct Hnd as [Hnot Hnd].
    destruct (String.eqb_spec k k0) as [->|Hne]; [|now apply IH].
    exfalso. apply negb_true_iff in Hnot.
    assert (Hk : In k0 (map fst key)) by (apply (in_map fst _ _ Hin)).
    apply in_existsb in Hk. congruence.
Qed.

Lemma has_props_self (key : props) :
  nodupb (map fst key) = true -> has_props key key = true.
Proof.
  intros Hnd. unfold has_props. apply forallb_forall. intros [k v] Hin. simpl.
  rewrite (lookup_nodup k v key Hnd Hin). apply pval_eqb_refl.
Qed.

(** The node a regular clause creates matches the pattern of the clause. *)
Lemma created_matches (now : N) (l : string) (key : props) (oc : list (string * expr)) :
  nodupb (map fst key) = true ->
  forallb (fun k => negb (existsb (String.eqb k) (map fst key))) (map fst oc) = true ->
  matches_node l key {| labels := [l]; nprops := apply_sets now oc key |} = true.
Proof.
  intros Hnd Hoc. unfold matches_node, has_label. simpl.
  rewrite String.eqb_refl. simpl.
  rewrite (has_props_ext key (apply_sets now oc key) key).
  - now apply has_props_self.
  - intros k Hk. apply lookup_apply_sets_other. intros Hin.
    rewrite forallb_forall in Hoc. specialize (Hoc k Hin).
    apply negb_true_iff in Hoc. apply in_existsb in Hk. congruence.
Qed.

(** *** Finding and updating a node *)

Lemma find_index_app_l {A} (p : A -> bool) (xs ys : list A) (i : nat) :
  find_index p xs = Some i -> find_index p (xs ++ ys) = Some i.
Proof.
  revert i. induction xs as [|x xs IH]; intros i; simpl; [discriminate|].
  destruct (p x); [auto|].
  destruct (find_index p xs) as [j|]; [|discriminate].
  intros H. now rewrite (IH j eq_refl).
Qed.

Lemma find_index_app_r {A} (p : A -> bool) (xs : list A) (y : A) (ys : list A) :
  find_index p xs = None -> p y = true ->
  find_index p (xs ++ y :: ys) = Some (List.length xs).
Proof.
  intros Hn Hy. induction xs as [|x xs IH]; simpl in *.
  - now rewrite Hy.
  - destruct (p x); [discriminate|].
    destruct (find_index p xs) as [j|]; [discriminate|].
    now rewrite IH.
Qed.

Lemma find_index_same_tests {A} (p : A -> bool) (xs ys : list A) :
  Forall2 (fun x y => p x = p y) xs ys -> find_index p xs = find_index p ys.
Proof.
  induction 1 as [|x y xs ys Hxy _ IH]; simpl; [reflexivity|].
  rewrite Hxy, IH. reflexivity.
Qed.

Lemma update_nth_related {A} (R : A -> A -> Prop) (i : nat) (f : A -> A) (xs : list A) :
  (forall x, R x x) -> (forall x, R x (f x)) -> Forall2 R xs (update_nth i f xs).
Proof.
  intros Hrefl Hf. revert i. induction xs as [|x xs IH]; intros i; simpl.
  - destruct i; constructor.
  - destruct i; constructor; auto.
    clear IH. induction xs; constructor; auto.
Qed.

(** *** A clause only adds to the graph *)

Lemma grows_refl (g : graph) : grows g g.
Proof.
  split.
  - exists (nodes g), []. rewrite app_nil_r. split; [reflexivity | apply all_same_refl].
  - exists []. now rewrite app_nil_r.
Qed.

Lemma grows_trans (g1 g2 g3 : graph) : grows g1 g2 -> grows g2 g3 -> grows g1 g3.
Proof.
  intros [(a1 & a2 & Ha & Fa) (r & Hr)] [(b1 & b2 & Hb & Fb) (r' & Hr')].
  rewrite Ha in Fb. apply Forall2_app_inv_l in Fb.
  destruct Fb as (b11 & b12 & F1 & F2 & ->).
  split.
  - exists b11, (b12 ++ b2)%list. split.
    + rewrite Hb. now rewrite app_assoc.
    + exact (all_same_trans _ _ _ Fa F1).
  - exists (r ++ r')%list. rewrite Hr', Hr. now rewrite app_assoc.
Qed.

Lemma regular_node (v l : string) (key : props) (oc om : list (string * expr)) :
  regular (MergeNode v l key oc om) = true ->
  nodupb (map fst key) = true
  /\ existsb (String.eqb "updated_at") (map fst key) = false
  /\ forallb (fun k => negb (existsb (String.eqb k) (map fst key))) (map fst oc) = true
  /\ forallb (fun k => String.eqb k "updated_at") (map fst om) = true.
Proof.
  simpl. rewrite !andb_true_iff, negb_true_iff. tauto.
Qed.

Lemma merge_node_rels (now : N) (l : string) (key : props)
    (oc om : list (string * expr)) (g : graph) :
  rels (fst (merge_node now l key oc om g)) = rels g.
Proof.
  unfold merge_node.
  destruct (find_index (matches_node l key) (nodes g)); reflexivity.
Qed.

Lemma merge_node_grows (now : N) (l : string) (key : props)
    (oc om : list (string * expr)) (g : graph) :
  forallb (fun k => String.eqb k "updated_at") (map fst om) = true ->
  grows g (fst (merge_node now l key oc om g)).
Proof.
  intros Hom. unfold merge_node.
  destruct (find_index (matches_node l key) (nodes g)) as [i|];
    split; cbn [fst nodes rels].
  - eexists. exists []. rewrite app_nil_r. split; [reflexivity|].
    apply update_nth_related; [apply same_refl|].
    intros n. now apply on_match_same.
  - exists []. now rewrite app_nil_r.
  - eexists. eexists. split; [reflexivity | apply all_same_refl].
  - exists []. now rewrite app_nil_r.
Qed.

(** *** Replaying node statements on the graph they produced *)

Lemma all_same_tests (l : string) (key : props) (ns ms : list node) :
  existsb (String.eqb "updated_at") (map fst key) = false ->
  Forall2 same_but_updated_at ns ms ->
  Forall2 (fun x y => matches_node l key x = matches_node l key y) ns ms.
Proof.
  intros Hkey H. induction H; constructor; [now apply matches_node_same | assumption].
Qed.

(** One regular node MERGE, run a first time on [gA] and replayed on [gT]:
    when [gT] is the graph [gF] that the first run ends in (up to
    [updated_at]), the replay changes nothing but [updated_at]. *)
Lemma replay_node (nowA nowB : N) (v l : string) (key : props)
    (oc om : list (string * expr)) (gA gF gT : graph) :
  regular (MergeNode v l key oc om) = true ->
  grows (fst (merge_node nowA l key oc om gA)) gF ->
  same_graph gF gT ->
  same_graph gF (fst (merge_node nowB l key oc om gT)).
Proof.
  intros Hreg Hgrow [Hnodes Hrels].
  apply regular_node in Hreg. destruct Hreg as (Hnd & Hupd & Hoc & Hom).
  unfold merge_node in Hgrow |- *.
  destruct Hgrow as [(F1 & F2 & HF & Hsame) _].
  rewrite HF in Hnodes.
  destruct (find_index (matches_node l key) (nodes gA)) as [i|] eqn:Ef;
    cbn [fst nodes] in Hsame.
  - apply Forall2_app_inv_l in Hnodes.
    destruct Hnodes as (T1 & T2 & HT1 & HT2 & HT).
    assert (HA : Forall2 same_but_updated_at (nodes gA) T1).
    { apply (all_same_trans _ F1); [|exact HT1].
      apply (all_same_trans _ (update_nth i (fun n =>
               {| labels := labels n; nprops := apply_sets nowA om (nprops n) |})
               (nodes gA))); [|exact Hsame].
      apply update_nth_related; [apply same_refl|].
      intros n. now apply on_match_same. }
    assert (Hfind : find_index (matches_node l key) (nodes gT) = Some i).
    { rewrite HT. apply find_index_app_l.
      rewrite <- (find_index_same_tests _ _ _ (all_same_tests l key _ _ Hupd HA)).
      exact Ef. }
    rewrite Hfind. split; cbn [fst nodes rels]; [|exact Hrels].
    rewrite HF. apply (all_same_trans _ (nodes gT)).
    + rewrite HT. now apply Forall2_app.
    + apply update_nth_related; [apply same_refl|].
      intros n. now apply on_match_same.
  - apply Forall2_app_inv_l in Hsame.
    destruct Hsame as (F11 & F12 & HF11 & HF12 & ->).
    inversion HF12 as [|new f nil' F12' Hnew Hnil]; subst.
    inversion Hnil; subst.
    rewrite <- app_assoc in Hnodes. cbn [app] in Hnodes.
    apply Forall2_app_inv_l in Hnodes.
    destruct Hnodes as (T1 & T2' & HT1 & HT2 & HT).
    inversion HT2 as [|f' t' F2' T2 Hft HT2r]; subst.
    assert (HA : Forall2 same_but_updated_at (nodes gA) T1)
      by exact (all_same_trans _ _ _ HF11 HT1).
    assert (Hnone : find_index (matches_node l key) T1 = None).
    { rewrite <- (find_index_same_tests _ _ _ (all_same_tests l key _ _ Hupd HA)).
      exact Ef. }
    assert (Ht : matches_node l key t' = true).
    { rewrite <- (matches_node_same l key f t' Hupd Hft).
      rewrite <- (matches_node_same l key _ f Hupd Hnew).
      now apply created_matches. }
    assert (Hfind : find_index (matches_node l key) (nodes gT)
                    = Some (List.length (nodes gA))).
    { rewrite HT, (Forall2_length HA). now apply find_index_app_r. }
    rewrite Hfind. split; cbn [fst nodes rels]; [|exact Hrels].
    rewrite HF. apply (all_same_trans _ (nodes gT)).
    + rewrite HT, <- app_assoc. cbn [app].
      apply Forall2_app; [exact HT1|]. now constructor.
    + apply update_nth_related; [apply same_refl|].
      intros n. now apply on_match_same.
Qed.

(** A statement made of one node MERGE always runs. *)
Lemma node_statement_inv (s : statement) :
  node_statement s = true ->
  exists v l key oc om,
    s = [MergeNode v l key oc om] /\ regular (MergeNode v l key oc om) = true.
Proof.
  destruct s as [|c [|c' s]]; try discriminate.
  - destruct c as [v l key oc om|]; [|discriminate].
    intros H. now exists v, l, key, oc, om.
  - destruct c; discriminate.
Qed.

(** A run of node statements reaches their end, whatever follows them; it
    only adds nodes and touches no relationship. *)
Lemma nodes_run (clock : nat -> N) (ss : list statement) :
  forallb node_statement ss = true ->
  forall k n g,
    (forall rest,
       run_from clock k n (ss ++ rest) g
       = run_from clock (k + List.length ss) (n + List.length ss) rest
           (final (run_from clock k n ss g)))
    /\ grows g (final (run_from clock k n ss g))
    /\ rels (final (run_from clock k n ss g)) = rels g.
Proof.
  induction ss as [|s ss IH]; intros Hss k n g.
  - cbn [app List.length run_from final]. rewrite !Nat.add_0_r.
    split; [reflexivity|]. split; [apply grows_refl | reflexivity].
  - cbn [forallb] in Hss. apply andb_true_iff in Hss. destruct Hss as [Hs Hss].
    destruct (node_statement_inv s Hs) as (v & l & key & oc & om & -> & Hreg).
    destruct (regular_node _ _ _ _ _ Hreg) as (_ & _ & _ & Hom).
    change (([MergeNode v l key oc om] :: ss) ++ ?r)%list
      with ([MergeNode v l key oc om] :: (ss ++ r))%list.
    cbn [run_from run_statement exec_all exec bound List.length].
    destruct (IH Hss (k + 1)%nat (S n)
                (fst (merge_node (clock k) l key oc om g)))
      as (Hrun & Hgrow & Hrels).
    split; [|split].
    + intros rest.
      change (run_from clock k n ([MergeNode v l key oc om] :: (ss ++ rest))%list g)
        with (run_from clock (k + 1) (S n) (ss ++ rest)
                (fst (merge_node (clock k) l key oc om g))).
      rewrite Hrun. f_equal; lia.
    + apply (grows_trans _ (fst (merge_node (clock k) l key oc om g)));
        [now apply merge_node_grows | exact Hgrow].
    + rewrite Hrels. apply merge_node_rels.
Qed.

(** Node statements, run a first time and replayed on the graph that the
    first run ended in. *)
Lemma replay_nodes (clockA clockB : nat -> N) (ss : list statement) :
  forallb node_statement ss = true ->
  forall kA kB nA nB gA gT gF,
    grows (final (run_from clockA kA nA ss gA)) gF ->
    same_graph gF gT ->
    same_graph gF (final (run_from clockB kB nB ss gT)).
Proof.
  induction ss as [|s ss IH]; intros Hss kA kB nA nB gA gT gF Hgrow Hsame.
  - exact Hsame.
  - cbn [forallb] in Hss. apply andb_true_iff in Hss. destruct Hss as [Hs Hss].
    destruct (node_statement_inv s Hs) as (v & l & key & oc & om & -> & Hreg).
    cbn [run_from run_statement exec_all exec bound List.length] in Hgrow |- *.
    apply (IH Hss (kA + 1)%nat (kB + 1)%nat (S nA) (S nB)
             (fst (merge_node (clockA kA) l key oc om gA))).
    + exact Hgrow.
    + apply (replay_node (clockA kA) (clockB kB) v l key oc om gA gF gT Hreg);
        [|exact Hsame].
      apply (grows_trans _ _ _
               (proj1 (proj2 (nodes_run clockA ss Hss (kA + 1)%nat (S nA)
                                (fst (merge_node (clockA kA) l key oc om gA)))))).
      exact Hgrow.
Qed.

(** ** The seed script *)

Import Seed.

(** Two states of a graph hold as many nodes of each label and id. *)
Lemma count_nodes_same (l i : string) (g g' : graph) :
  Forall2 same_but_updated_at (nodes g) (nodes g') ->
  count_nodes l i g = count_nodes l i g'.
Proof.
  unfold count_nodes. intros H.
  induction H as [|n n' ns ns' [Hl Hp] _ IH]; [reflexivity|].
  cbn [filter].
  replace (has_label l n' && id_is i n') with (has_label l n && id_is i n).
  - destruct (has_label l n && id_is i n); cbn [List.length]; now rewrite IH.
  - unfold has_label, id_is. rewrite Hl, (Hp "id"); [reflexivity | discriminate].
Qed.

Lemma seed_nodes_regular : forallb node_statement seed_nodes = true.
Proof. vm_compute. reflexivity. Qed.

(** The statement of lines 98 to 142 declares [plant] at its second clause
    (line 100) and again at its fourth (line 104): the engine refuses it,
    whatever the graph. *)
Lemma topology_refused (clock : nat -> N) (k : nat) (g : graph) :
  run_statement clock k seed_topology g = Stopped (AlreadyDeclared "plant").
Proof. reflexivity. Qed.

(** A run of the seed script, on any graph: the thirteen node statements
    run, and the run stops at the fourteenth statement. *)
Lemma run_seed_eq (clock : nat -> N) (g : graph) :
  run_seed clock g
  = {| final := final (run_from clock 0 0 seed_nodes g);
       ran := 13;
       stopped := Some (AlreadyDeclared "plant") |}.
Proof.
  unfold run_seed, run_script, seed.
  rewrite (proj1 (nodes_run clock seed_nodes seed_nodes_regular 0 0 g)).
  cbn [run_from]. rewrite topology_refused. reflexivity.
Qed.

Lemma no_edge_no_path (g : graph) (t : string) (ts : list string) (i j : nat) :
  rels g = [] -> ~ path g (t :: ts) i j.
Proof.
  intros Hrels (k & (r & Hin & _) & _). rewrite Hrels in Hin. exact Hin.
Qed.

(** C3, at a failing input. The seed script is run on a graph and a second
    time on the result.  Its fourteenth statement (lines 98 to 142) declares
    the variable [plant] twice, so the engine refuses it on every graph, and
    both runs stop there, after the thirteen node statements of lines 44 to
    97.  For what runs, the claim holds: the second run leaves the same
    nodes, each with its labels and every property other than [updated_at],
    adds none, touches no relationship, and every ON MATCH branch sets
    [updated_at] and nothing else; from an empty graph each label and id of
    lines 44 to 97 has exactly one node, whose [created_at] is the time of
    the first run and whose [updated_at], absent after the first run, is the
    time of the second.  But the script also declares the Service
    billing-service, in the refused statement only: after both runs there
    is no such node, where the claim has exactly one node for every declared
    id. *)
Theorem C3_seed_rerun_stops_at_topology (clock1 clock2 : nat -> N) (g : graph) :
  let r1 := run_seed clock1 g in
  let r2 := run_seed clock2 (final r1) in
  (forall clock k g',
     run_statement clock k seed_topology g' = Stopped (AlreadyDeclared "plant"))
  /\ nth_error seed 13 = Some seed_topology
  /\ ran r1 = 13%nat /\ stopped r1 = Some (AlreadyDeclared "plant")
  /\ ran r2 = 13%nat /\ stopped r2 = Some (AlreadyDeclared "plant")
  /\ Forall2 same_but_updated_at (nodes (final r1)) (nodes (final r2))
  /\ rels (final r1) = rels g
  /\ rels (final r2) = rels g
  /\ (forall l i, count_nodes l i (final r2) = count_nodes l i (final r1))
  /\ (forall s c, In s seed_nodes -> In c s -> on_match_keys c = ["updated_at"])
  /\ (forall s c k, In s seed -> In c s -> In k (on_match_keys c) -> k = "updated_at")
  /\ In ("Service", "billing-service") (declared seed)
  /\ filter (declares "Service" "billing-service") seed = [seed_topology]
  /\ (g = empty ->
      count_nodes "Service" "billing-service" (final r1) = 0%nat
      /\ count_nodes "Service" "billing-service" (final r2) = 0%nat
      /\ (forall l i, In (l, i) (declared seed_nodes) ->
                      count_nodes l i (final r1) = 1%nat
                      /\ count_nodes l i (final r2) = 1%nat)
      /\ (forall k l i,
            nth_error (declared seed_nodes) k = Some (l, i) ->
            exists n1 n2,
              nth_error (nodes (final r1)) k = Some n1
              /\ nth_error (nodes (final r2)) k = Some n2
              /\ has_label l n1 = true /\ id_is i n1 = true
              /\ has_label l n2 = true /\ id_is i n2 = true
              /\ lookup "created_at" (nprops n1) = Some (PTime (clock1 k))
              /\ lookup "updated_at" (nprops n1) = None
              /\ lookup "created_at" (nprops n2) = Some (PTime (clock1 k))
              /\ lookup "updated_at" (nprops n2) = Some (PTime (clock2 k)))).
Proof.
  intros r1 r2. subst r1 r2. rewrite !run_seed_eq. cbn [final ran stopped].
  destruct (nodes_run clock1 seed_nodes seed_nodes_regular 0 0 g)
    as (_ & Hgrow1 & Hrels1).
  destruct (nodes_run clock2 seed_nodes seed_nodes_regular 0 0
              (final (run_from clock1 0 0 seed_nodes g)))
    as (_ & _ & Hrels2).
  assert (Hsame : same_graph (final (run_from clock1 0 0 seed_nodes g))
                    (final (run_from clock2 0 0 seed_nodes
                              (final (run_from clock1 0 0 seed_nodes g))))).
  { apply (replay_nodes clock1 clock2 seed_nodes seed_nodes_regular
             0%nat 0%nat 0%nat 0%nat g).
    - apply grows_refl.
    - split; [apply all_same_refl | reflexivity]. }
  destruct Hsame as [Hnodes _].
  split; [exact topology_refused|].
  split; [reflexivity|].
  split; [reflexivity|]. split; [reflexivity|].
  split; [reflexivity|]. split; [reflexivity|].
  split; [exact Hnodes|].
  split; [exact Hrels1|].
  split; [now rewrite Hrels2|].
  split; [intros l i; symmetry; now apply count_nodes_same|].
  split.
  { intros s c Hs Hc.
    assert (H : forallb (fun s => forallb (fun c =>
                  match on_match_keys c with
                  | [k] => String.eqb k "updated_at"
                  | _ => false
                  end) s) seed_nodes = true)
      by (vm_compute; reflexivity).
    rewrite forallb_forall in H. specialize (H _ Hs).
    rewrite forallb_forall in H. specialize (H _ Hc).
    revert H. destruct (on_match_keys c) as [|k [|k' ks]]; try discriminate.
    intros H. apply String.eqb_eq in H. now subst k. }
  split.
  { intros s c k Hs Hc Hk.
    assert (H : forallb (fun s => forallb (fun c =>
                  forallb (fun k => String.eqb k "updated_at") (on_match_keys c)) s)
                  seed = true)
      by (vm_compute; reflexivity).
    rewrite forallb_forall in H. specialize (H _ Hs).
    rewrite forallb_forall in H. specialize (H _ Hc).
    rewrite forallb_forall in H. specialize (H _ Hk).
    now apply String.eqb_eq. }
  split; [vm_compute; tauto|].
  split; [reflexivity|].
  intros ->.
  remember (final (run_from clock1 0 0 seed_nodes empty)) as g1 eqn:E1.
  vm_compute in E1.
  remember (final (run_from clock2 0 0 seed_nodes g1)) as g2 eqn:E2.
  rewrite E1 in E2. vm_compute in E2.
  subst g1 g2.
  split; [reflexivity|]. split; [reflexivity|].
  split.
  - intros l i Hin.
    match goal with
    | |- count_nodes l i ?x = _ /\ count_nodes l i ?y = _ =>
        assert (H : forallb (fun li => (count_nodes (fst li) (snd li) x =? 1)%nat
                                       && (count_nodes (fst li) (snd li) y =? 1)%nat)
                            (declared seed_nodes) = true)
          by (vm_compute; reflexivity)
    end.
    rewrite forallb_forall in H. specialize (H _ Hin). cbn [fst snd] in H.
    apply andb_true_iff in H. destruct H as [H1 H2].
    now apply Nat.eqb_eq in H1, H2.
  - intros k l i Hk.
    do 13 (destruct k as [|k];
           [cbn in Hk; injection Hk as <- <-; eexists; eexists;
            repeat split; reflexivity|]).
    cbn in Hk. destruct k; discriminate Hk.
Qed.

(** C9, at a failing input. The seed script is run on the empty graph.  The
    only statement that merges HAS_PLANT, HAS_LINE or HAS_MACHINE is the
    fourteenth (lines 98 to 142); it declares [plant] at line 100 and again
    at line 104, so the engine refuses it on every graph and the run stops
    there.  The graph then holds the one node with id "M-42", a Machine of
    criticality "high", and the one node with id "Site-1", but no
    relationship: no path HAS_PLANT, HAS_LINE, HAS_MACHINE leads anywhere,
    where the claim has one from Site-1 to M-42. *)
Theorem C9_machine_not_reachable_from_site (clock : nat -> N) :
  let r := run_seed clock empty in
  (forall clock' k g,
     run_statement clock' k seed_topology g = Stopped (AlreadyDeclared "plant"))
  /\ nth_error seed_topology 1 = Some (MergeNode "plant" "Plant" [("id", PStr "Plant-A")] [] [])
  /\ nth_error seed_topology 3 = Some (MergeNode "plant" "Plant" [("id", PStr "Plant-A")] [] [])
  /\ filter (fun s => names_rel "HAS_PLANT" s || names_rel "HAS_LINE" s
                      || names_rel "HAS_MACHINE" s) seed
     = [seed_topology]
  /\ ran r = 13%nat
  /\ stopped r = Some (AlreadyDeclared "plant")
  /\ (exists nsite nmachine,
        nth_error (nodes (final r)) 0 = Some nsite
        /\ id_is "Site-1" nsite = true
        /\ nth_error (nodes (final r)) 3 = Some nmachine
        /\ id_is "M-42" nmachine = true
        /\ has_label "Machine" nmachine = true
        /\ lookup "criticality" (nprops nmachine) = Some (PStr "high")
        /\ (forall n, In n (nodes (final r)) -> id_is "M-42" n = true -> n = nmachine)
        /\ (forall n, In n (nodes (final r)) -> id_is "Site-1" n = true -> n = nsite))
  /\ rels (final r) = []
  /\ (forall site machine,
        ~ path (final r) ["HAS_PLANT"; "HAS_LINE"; "HAS_MACHINE"] site machine).
Proof.
  intros r. subst r. rewrite run_seed_eq. cbn [final ran stopped].
  split; [exact topology_refused|].
  split; [reflexivity|]. split; [reflexivity|]. split; [reflexivity|].
  split; [reflexivity|]. split; [reflexivity|].
  remember (final (run_from clock 0 0 seed_nodes empty)) as g eqn:E.
  vm_compute in E. subst g.
  split; [|split].
  - eexists. eexists.
    split; [reflexivity|]. split; [reflexivity|].
    split; [reflexivity|]. split; [reflexivity|].
    split; [reflexivity|]. split; [reflexivity|].
    split.
    + intros n Hin Hid. simpl in Hin.
      repeat (destruct Hin as [<-|Hin]; [first [reflexivity | discriminate Hid]|]).
      contradiction.
    + intros n Hin Hid. simpl in Hin.
      repeat (destruct Hin as [<-|Hin]; [first [reflexivity | discriminate Hid]|]).
      contradiction.
  - reflexivity.
  - intros site machine. now apply no_edge_no_path.
Qed.

(** ** What the two lists show, on the sample action *)

Example proposal_list_shows_action :
  ProposedActions.render
    (ui (snd (ProposedActions.load
                (Samples.answers (VObj [("items", VArr [Samples.action])]))
                (Samples.fresh ProposedActions.initial))))
  = Ok {| ProposedActions.banner := None;
          ProposedActions.table :=
            Some [ {| ProposedActions.cells :=
                        [VStr "ACT-7002"; VStr "RB-restore-pump"; VStr "M-42";
                         VStr "-"; VStr "-"];
                      ProposedActions.disabled := false |} ] |}.
Proof. vm_compute. reflexivity. Qed.

Example audit_log_shows_action :
  AgentActionsAudit.render
    (ui (snd (AgentActionsAudit.load (Samples.answers (VArr [Samples.action])) "all"
                (Samples.fresh AgentActionsAudit.initial))))
  = Ok {| AgentActionsAudit.banner := None;
          AgentActionsAudit.table :=
            Some [ [VStr "-"; VStr "ACT-7002"; VStr "RB-restore-pump"; VStr "M-42";
                    VStr "pending_approval"; VStr "-"; VStr "-"; VStr "-"] ] |}.
Proof. vm_compute. reflexivity. Qed.

(** The request an approval of the sample action sends when the search finds
    the machine. *)
Example approve_request_for_machine :
  ProposedActions.approve_request (Samples.answers Samples.search_hits)
    Samples.action (Samples.fresh Samples.listing)
  = Ok {| req_method := "POST";
          req_url := "http://localhost:8000/runbooks/RB-restore-pump/execute?mode=execute";
          req_headers := [("content-type", "application/json")];
          req_body :=
            Some (VObj [("targets",
                         VArr [VObj [("entity_type", VStr "Machine");
                                     ("entity_id", VStr "M-42")]]);
                        ("reason", VStr "Approved action ACT-7002 from UI")]) |}.
Proof. vm_compute. reflexivity. Qed.

(* ===================================================================== *)
(** * Part III. The rest of the client *)

(** ** The agent dock: what a submit does *)

(** The dock's submit on a blank message sends nothing and changes nothing;
    on any other message it sends the query request and nothing else,
    closes the reasoning pane and keeps the text of the input. *)
Theorem dock_ask_blank_or_one_request
    (rt : Runtime) (m : string) (w : World AgentDock.State) :
  if trim_is_empty m
  then AgentDock.ask rt m w = (Ok tt, w)
  else sent (snd (AgentDock.ask rt m w))
       = (sent w ++ [AgentDock.query_request rt m])%list
       /\ AgentDock.showReason (ui (snd (AgentDock.ask rt m w))) = false
       /\ AgentDock.msg (ui (snd (AgentDock.ask rt m w))) = AgentDock.msg (ui w)
       /\ AgentDock.open (ui (snd (AgentDock.ask rt m w))) = AgentDock.open (ui w).
Proof.
  destruct (trim_is_empty m) eqn:Hm.
  - unfold AgentDock.ask. now rewrite Hm.
  - rewrite (ask_eq rt m w Hm). cbn [snd ui sent]. repeat split.
Qed.

(** A message of Unicode white space only is blank: nothing is sent. *)
Example dock_ask_unicode_blank :
  AgentDock.ask Samples.server_error Cases.nbsp (Samples.fresh Cases.answered)
  = (Ok tt, Samples.fresh Cases.answered)
  /\ AgentDock.ask Samples.server_error Cases.wide_blank (Samples.fresh Cases.answered)
     = (Ok tt, Samples.fresh Cases.answered)
  /\ trim_is_empty (Cases.nbsp ++ "x") = false.
Proof. repeat split. Qed.

(** When the dock's request is rejected, or the body of the response does
    not decode, the pane shows the text of the error as the reply, a
    confidence of 0 and the summary "Client error". *)
Theorem dock_ask_client_error
    (rt : Runtime) (m : string) (w : World AgentDock.State) (e : exn) :
  trim_is_empty m = false ->
  (backend rt (sent w) (AgentDock.query_request rt m) = Throw e
   \/ exists r, backend rt (sent w) (AgentDock.query_request rt m) = Ok r
                /\ res_json r = Throw e) ->
  AgentDock.resp (ui (snd (AgentDock.ask rt m w)))
  = VObj [("reply", VStr (String_of_exn e));
          ("confidence", VNum 0%float);
          ("reasoning_summary", VStr "Client error")].
Proof.
  intros Hm H. rewrite (ask_eq rt m w Hm). cbn [snd ui AgentDock.setBusy AgentDock.resp AgentDock.setResp].
  destruct H as [H | (r & H & Hj)]; rewrite H; [|rewrite Hj]; reflexivity.
Qed.

Lemma dock_ask_client_error_witness :
  AgentDock.resp
    (ui (snd (AgentDock.ask Samples.not_found "why is order-service slow"
                (Samples.fresh Cases.answered))))
  = VObj [("reply", VStr "SyntaxError: Unexpected token");
          ("confidence", VNum 0%float);
          ("reasoning_summary", VStr "Client error")].
Proof.
  apply (dock_ask_client_error Samples.not_found "why is order-service slow"
           (Samples.fresh Cases.answered) (SyntaxError "Unexpected token")).
  - reflexivity.
  - right. eexists. split; reflexivity.
Defined.

(** ** An empty build-time value *)

(** With no global override and an empty VITE_API_BASE, the dock posts to
    the relative URL /agent/query (it reads the value with [??]), while the
    runbook prompt, the incidents page and the typed client, which read it
    with [||], use http://localhost:8000. *)
Theorem empty_env_value_splits_the_components (rt : Runtime) (m x : string) :
  import_meta_env rt = Some (Some "") ->
  window_API_BASE rt = None ->
  req_url (AgentDock.query_request rt m) = "/agent/query"
  /\ req_url (AgentAskRunbook.query_request rt x)
     = "http://localhost:8000/agent/query"
  /\ req_url (Incidents.alerts_request rt)
     = "http://localhost:8000/events/alerts/active"
  /\ ApiIndex.API_BASE rt = Ok "http://localhost:8000".
Proof.
  intros Henv Hwin.
  unfold AgentDock.query_request, AgentDock.apiBase,
    AgentAskRunbook.query_request, AgentAskRunbook.API,
    Incidents.alerts_request, Incidents.API, ApiIndex.API_BASE.
  rewrite Henv, Hwin. destruct (window_defined rt); repeat split.
Qed.

Lemma empty_env_value_splits_the_components_witness :
  req_url (AgentDock.query_request Cases.empty_env "status?") = "/agent/query"
  /\ req_url (AgentAskRunbook.query_request Cases.empty_env "order-service")
     = "http://localhost:8000/agent/query"
  /\ req_url (Incidents.alerts_request Cases.empty_env)
     = "http://localhost:8000/events/alerts/active"
  /\ ApiIndex.API_BASE Cases.empty_env = Ok "http://localhost:8000".
Proof.
  apply (empty_env_value_splits_the_components Cases.empty_env); reflexivity.
Defined.

(** ** The proposal list: resolution and approval *)

(** The resolution of an entity type never throws, leaves the component
    state alone, and sends at most one request, a GET; whenever the id has
    no text, the request fails or the results cannot be read, it answers
    null. *)
Theorem resolve_answers_null_on_failure
    {S : Type} (rt : Runtime) (eid : value) (w : World S) :
  exists (v : value) (log : list Request),
    ProposedActions.resolveEntityTypeBySearch rt eid w
    = (Ok v, {| ui := ui w; sent := (sent w ++ log)%list |})
    /\ (List.length log <= 1)%nat
    /\ (forall rq, In rq log -> req_method rq = "GET" /\ req_body rq = None)
    /\ (forall e, ProposedActions.search_url rt eid = Throw e ->
                  v = VNull /\ log = [])
    /\ (forall url e, ProposedActions.search_url rt eid = Ok url ->
                      fails_with (backend rt (sent w) (GET url)) e -> v = VNull)
    /\ (forall url res e, ProposedActions.search_url rt eid = Ok url ->
                          checked_json (backend rt (sent w) (GET url)) = Ok res ->
                          ProposedActions.pick_label eid res = Throw e -> v = VNull).
Proof.
  rewrite resolve_eq.
  destruct (ProposedActions.search_url rt eid) as [url|e0].
  - eexists. exists [GET url]. split; [reflexivity|].
    split; [simpl; lia|]. split; [|split; [|split]].
    + intros rq [<-|[]]. split; reflexivity.
    + intros e H. discriminate H.
    + intros url' e H Hf. injection H as <-.
      apply checked_json_fails in Hf. now rewrite Hf.
    + intros url' res e H Hres Hpick. injection H as <-.
      now rewrite Hres, Hpick.
  - exists VNull, []. rewrite app_nil_r. split; [now destruct w|].
    split; [simpl; lia|]. split; [|split; [|split]].
    + intros rq [].
    + intros e _. split; reflexivity.
    + intros url e H. discriminate H.
    + intros url res e H. discriminate H.
Qed.

(** When the search returns results none of which matches the id exactly,
    the resolution answers for the first result, as if it were the only
    one. *)
Theorem resolve_falls_back_to_first_result
    (rt : Runtime) (eid : value) (log : list Request) (url : string)
    (r : Response) (res first : value) (rest : list value) :
  ProposedActions.search_url rt eid = Ok url ->
  backend rt log (GET url) = Ok r ->
  ok r = true ->
  res_json r = Ok res ->
  opt_prop res "results" = VArr (first :: rest) ->
  find (ProposedActions.matches eid) (first :: rest) = None ->
  ProposedActions.resolved rt eid log
  = match ProposedActions.pick_label eid (VObj [("results", VArr [first])]) with
    | Ok v => v
    | Throw _ => VNull
    end.
Proof.
  intros Hurl Hr Hok Hres Hresults Hfind.
  rewrite resolved_eq, Hurl, Hr, (checked_json_ok r res Hok Hres).
  f_equal. unfold ProposedActions.pick_label. rewrite Hresults, Hfind.
  cbn [opt_prop nullish prop assoc String.eqb Ascii.eqb Bool.eqb find].
  cbn [find] in Hfind.
  destruct (ProposedActions.matches eid first); [discriminate Hfind | reflexivity].
Qed.

Lemma resolve_falls_back_to_first_result_witness :
  ProposedActions.resolved (Samples.answers Cases.near_hits) (VStr "M-42") []
  = VStr "Line".
Proof.
  eapply eq_trans.
  - eapply (resolve_falls_back_to_first_result
              (Samples.answers Cases.near_hits) (VStr "M-42") []); reflexivity.
  - reflexivity.
Defined.

(** An approval never throws and always ends with no row marked busy,
    whatever the row is (even null) and however the requests settle. *)
Theorem approve_never_throws
    (rt : Runtime) (row : value) (w : World ProposedActions.State) :
  fst (ProposedActions.approve rt row w) = Ok tt
  /\ ProposedActions.busyId (ui (snd (ProposedActions.approve rt row w))) = VNull.
Proof.
  destruct (nullish row) eqn:Hrow.
  - unfold ProposedActions.approve, finally, try_catch, bind, settle, member, set.
    rewrite Hrow. split; reflexivity.
  - rewrite (approve_eq rt row w Hrow). cbv zeta.
    destruct (ProposedActions.approve_request rt row w) as [rq|e];
      [|split; reflexivity].
    destruct (backend rt _ rq) as [r|e]; [|split; reflexivity].
    destruct (ok r).
    + rewrite PA_load_eq. split; reflexivity.
    + destruct (res_text r); split; reflexivity.
Qed.

(** When the execute endpoint accepts an approval, the list is loaded
    again: the requests are the search, the execute request and the list
    request, and the rows and the error shown afterwards are those of that
    reload (a failed reload empties the list and shows the load error). *)
Theorem approve_accepted_reloads
    (rt : Runtime) (row : value) (w : World ProposedActions.State)
    (rq : Request) (r : Response) :
  nullish row = false ->
  ProposedActions.approve_request rt row w = Ok rq ->
  backend rt (ProposedActions.approve_log rt row w) rq = Ok r ->
  ok r = true ->
  let log := (ProposedActions.approve_log rt row w ++ [rq])%list in
  let after := snd (ProposedActions.approve rt row w) in
  sent after = (log ++ [GET (ProposedActions.load_url rt)])%list
  /\ match checked_json (backend rt log (GET (ProposedActions.load_url rt))) with
     | Ok data =>
         ProposedActions.rows (ui after) = ProposedActions.rows_of data
         /\ ProposedActions.err (ui after) = ""
     | Throw e =>
         ProposedActions.rows (ui after) = VArr []
         /\ ProposedActions.err (ui after)
            = ProposedActions.or_text (message e) "Failed to load proposed actions"
     end.
Proof.
  intros Hrow Hrq Hr Hok log after. subst log after.
  rewrite (approve_eq rt row w Hrow), Hrq. cbv zeta. rewrite Hr, Hok.
  rewrite PA_load_eq. cbn [snd ui sent]. split; [reflexivity|].
  destruct (checked_json _); split; reflexivity.
Qed.

Lemma approve_accepted_reloads_witness :
  let after := snd (ProposedActions.approve Cases.accepts Samples.action
                      (Samples.fresh ProposedActions.initial)) in
  List.length (sent after) = 3%nat
  /\ ProposedActions.rows (ui after) = VArr [Samples.action]
  /\ ProposedActions.err (ui after) = "".
Proof.
  cbv zeta.
  destruct (approve_accepted_reloads Cases.accepts Samples.action
              (Samples.fresh ProposedActions.initial)
              (POST "http://localhost:8000/runbooks/RB-restore-pump/execute?mode=execute"
                 "content-type"
                 (Some (VObj
                    [("targets",
                      VArr [VObj [("entity_type", VStr "Service");
                                  ("entity_id", VStr "M-42")]]);
                     ("reason", VStr "Approved action ACT-7002 from UI")])))
              (Samples.response 200 "OK" (Ok (VObj [("status", VStr "executed")]))))
    as (Hsent & Hrows); try reflexivity.
  split; [rewrite Hsent; reflexivity|]. exact Hrows.
Defined.

(** When the execute endpoint refuses an approval, the error shown is
    "Execute failed: ", the status and the text of the body; the list is
    not loaded again and keeps its rows. *)
Theorem approve_refused_shows_status_and_body
    (rt : Runtime) (row : value) (w : World ProposedActions.State)
    (rq : Request) (r : Response) (txt : string) :
  nullish row = false ->
  ProposedActions.approve_request rt row w = Ok rq ->
  backend rt (ProposedActions.approve_log rt row w) rq = Ok r ->
  ok r = false ->
  res_text r = Ok txt ->
  let after := snd (ProposedActions.approve rt row w) in
  ProposedActions.err (ui after)
  = "Execute failed: " ++ string_of_N (res_status r) ++ " " ++ txt
  /\ ProposedActions.rows (ui after) = ProposedActions.rows (ui w)
  /\ sent after = (ProposedActions.approve_log rt row w ++ [rq])%list.
Proof.
  intros Hrow Hrq Hr Hok Htxt after. subst after.
  rewrite (approve_eq rt row w Hrow), Hrq. cbv zeta. rewrite Hr, Hok, Htxt.
  cbn [snd ui sent]. repeat split.
Qed.

Lemma approve_refused_shows_status_and_body_witness :
  let after := snd (ProposedActions.approve Cases.refuses Samples.action
                      (Samples.fresh Samples.listing)) in
  ProposedActions.err (ui after) = "Execute failed: 409 already executed"
  /\ ProposedActions.rows (ui after) = VArr [Samples.action]
  /\ List.length (sent after) = 2%nat.
Proof.
  cbv zeta.
  destruct (approve_refused_shows_status_and_body Cases.refuses Samples.action
              (Samples.fresh Samples.listing)
              (POST "http://localhost:8000/runbooks/RB-restore-pump/execute?mode=execute"
                 "content-type"
                 (Some (VObj
                    [("targets",
                      VArr [VObj [("entity_type", VStr "Machine");
                                  ("entity_id", VStr "M-42")]]);
                     ("reason", VStr "Approved action ACT-7002 from UI")])))
              (Samples.response 409 "already executed"
                 (Throw (SyntaxError "Unexpected token")))
              "already executed")
    as (Herr & Hrows & Hsent); try reflexivity.
  split; [exact Herr|]. split; [exact Hrows|]. rewrite Hsent. reflexivity.
Defined.

Lemma nonempty_or_text (m d : string) :
  d <> "" ->
  ProposedActions.nonempty (Some (ProposedActions.or_text m d))
  = Some (ProposedActions.or_text m d).
Proof.
  intros Hd. unfold ProposedActions.nonempty.
  destruct (String.eqb_spec (ProposedActions.or_text m d) "") as [E|_];
    [|reflexivity].
  now elim (or_text_nonempty m d Hd).
Qed.

(** After a failed load, the proposal list and the audit log both render
    without throwing: the banner with the error's message (or the fixed
    text when the error has none) over the empty-list paragraph. *)
Theorem failed_load_renders_banner_and_no_table (rt : Runtime) (e : exn) :
  (forall w : World ProposedActions.State,
     fails_with (backend rt (sent w) (GET (ProposedActions.load_url rt))) e ->
     ProposedActions.render (ui (snd (ProposedActions.load rt w)))
     = Ok {| ProposedActions.banner :=
               Some (ProposedActions.or_text (message e)
                       "Failed to load proposed actions");
             ProposedActions.table := None |})
  /\ (forall (filter : string) (w : World AgentActionsAudit.State),
        fails_with (backend rt (sent w) (GET (AgentActionsAudit.url rt filter))) e ->
        AgentActionsAudit.render (ui (snd (AgentActionsAudit.load rt filter w)))
        = Ok {| AgentActionsAudit.banner :=
                  Some (ProposedActions.or_text (message e)
                          "Failed to load agent actions");
                AgentActionsAudit.table := None |}).
Proof.
  split.
  - intros w Hf. apply checked_json_fails in Hf.
    rewrite PA_load_eq. cbn [snd ui]. rewrite Hf.
    unfold ProposedActions.render.
    cbn [ProposedActions.rows ProposedActions.setRows ProposedActions.render_rows
         ProposedActions.err ProposedActions.setErr].
    rewrite nonempty_or_text; [reflexivity | discriminate].
  - intros filter w Hf. apply checked_json_fails in Hf.
    rewrite AA_load_eq. cbn [snd ui]. rewrite Hf.
    unfold AgentActionsAudit.render.
    cbn [AgentActionsAudit.rows AgentActionsAudit.setRows AgentActionsAudit.setBusy
         ProposedActions.render_rows
         AgentActionsAudit.err AgentActionsAudit.setErr].
    rewrite nonempty_or_text; [reflexivity | discriminate].
Qed.

Lemma failed_load_renders_banner_and_no_table_witness :
  ProposedActions.render
    (ui (snd (ProposedActions.load Samples.not_found (Samples.fresh Samples.listing))))
  = Ok {| ProposedActions.banner := Some "404 Not Found";
          ProposedActions.table := None |}
  /\ AgentActionsAudit.render
       (ui (snd (AgentActionsAudit.load Samples.not_found "executed"
                   (Samples.fresh Samples.audit))))
     = Ok {| AgentActionsAudit.banner := Some "404 Not Found";
             AgentActionsAudit.table := None |}.
Proof.
  destruct (failed_load_renders_banner_and_no_table Samples.not_found
              (Error "404 Not Found")) as [Hlist Haudit].
  split.
  - apply (Hlist (Samples.fresh Samples.listing)).
    apply (BadStatus (Samples.response 404 "Not Found"
                        (Throw (SyntaxError "Unexpected token")))).
    reflexivity.
  - apply (Haudit "executed" (Samples.fresh Samples.audit)).
    apply (BadStatus (Samples.response 404 "Not Found"
                        (Throw (SyntaxError "Unexpected token")))).
    reflexivity.
Defined.

(** ** The typed client: POST *)

(** The typed client's [post] sends the body only when it is truthy; on a
    response outside 2xx it reads the text of the body and throws the
    status line followed by that text, and when reading the text fails it
    throws that failure instead. *)
Theorem typed_post_reports_body_text
    {S : Type} (rt : Runtime) (w : World S) (base path : string)
    (body : option value) (res : Response) :
  ApiIndex.API_BASE rt = Ok base ->
  let sent_body := match body with
                   | Some v => if truthy v then Some v else None
                   | None => None
                   end in
  backend rt (sent w) (POST (base ++ path) "content-type" sent_body) = Ok res ->
  ok res = false ->
  sent (snd (ApiIndex.post rt path body w))
  = (sent w ++ [POST (base ++ path) "content-type" sent_body])%list
  /\ fst (ApiIndex.post rt path body w)
     = match res_text res with
       | Ok text =>
           Throw (Error (string_of_N (res_status res) ++ " " ++ res_statusText res
                         ++ ": " ++ text))
       | Throw e => Throw e
       end.
Proof.
  intros Hbase sent_body Hres Hok. subst sent_body.
  unfold ApiIndex.post, bind, settle, fetch, throw. rewrite Hbase.
  cbn [ui sent]. rewrite Hres, Hok. cbn [negb].
  destruct (res_text res); split; reflexivity.
Qed.

Lemma typed_post_reports_body_text_witness :
  sent (snd (ApiIndex.post Cases.conflicts "/incidents/" (Some (VStr ""))
               (Samples.fresh tt)))
  = [POST "http://build:8000/incidents/" "content-type" None]
  /\ fst (ApiIndex.post Cases.conflicts "/incidents/" (Some (VStr ""))
            (Samples.fresh tt))
     = Throw (Error "409 Conflict: {'detail': 'already executed'}").
Proof.
  apply (typed_post_reports_body_text Cases.conflicts (Samples.fresh tt)
           "http://build:8000" "/incidents/" (Some (VStr "")) Cases.conflict);
    reflexivity.
Defined.

(** ** The stream components *)

(** Whatever arrives on the stream, the full ticker and the notification
    badge never fail: the ticker holds an entry for each payload, the parsed
    value when the payload parses and [{raw: text}] when parsing throws
    (whatever it throws), newest first, cut at 50; the badge holds the raw
    payloads, newest first, cut at 5. *)
Theorem ticker_and_badge_windows (rt : Runtime) (msgs : list string) :
  (exists evs,
     Stream.StreamTicker_feed rt msgs = Ok evs
     /\ evs = firstn 50 (rev (map (Stream.StreamTicker_entry rt) msgs))
     /\ List.length evs = Nat.min 50 (List.length msgs))
  /\ (exists ns,
        Stream.NotificationCenter_feed msgs = Ok ns
        /\ ns = firstn 5 (rev msgs)
        /\ List.length ns = Nat.min 5 (List.length msgs))
  /\ (forall d e, JSON_parse rt d = Throw e ->
                  Stream.StreamTicker_entry rt d = VObj [("raw", VStr d)])
  /\ (forall d v, JSON_parse rt d = Ok v -> Stream.StreamTicker_entry rt d = v).
Proof.
  split; [|split; [|split]].
  - eexists. split; [apply StreamTicker_feed_eq|]. split; [reflexivity|].
    now rewrite length_firstn, length_rev, length_map.
  - eexists. split; [apply NotificationCenter_feed_eq|]. split; [reflexivity|].
    now rewrite length_firstn, length_rev.
  - intros d e Hd. unfold Stream.StreamTicker_entry. now rewrite Hd.
  - intros d v Hd. unfold Stream.StreamTicker_entry. now rewrite Hd.
Qed.

(** As long as every payload has a line (it does not parse, or it parses to
    a value whose topic and ts can be read and printed), the compact ticker
    holds the lines of the last 12 payloads, newest first. *)
Theorem compact_ticker_window (rt : Runtime) (msgs : list string) :
  (forall d, In d msgs -> exists l, Stream.EventTicker_entry rt d = Ok l) ->
  exists lines,
    Forall2 (fun d l => Stream.EventTicker_entry rt d = Ok l) msgs lines
    /\ Stream.EventTicker_feed rt msgs = Ok (firstn 12 (rev lines))
    /\ List.length (firstn 12 (rev lines)) = Nat.min 12 (List.length msgs).
Proof.
  intros H. destruct (EventTicker_feed_eq rt msgs H) as (lines & Hl & Hfeed).
  exists lines. split; [exact Hl|]. split; [exact Hfeed|].
  now rewrite length_firstn, length_rev, <- (Forall2_length Hl).
Qed.

Lemma compact_ticker_window_witness :
  exists lines,
    Forall2 (fun d l => Stream.EventTicker_entry (Samples.always (Throw (TypeError "x"))) d = Ok l)
            ["evt-1"; "{}"; "evt-3"] lines
    /\ Stream.EventTicker_feed (Samples.always (Throw (TypeError "x")))
         ["evt-1"; "{}"; "evt-3"]
       = Ok (firstn 12 (rev lines))
    /\ List.length (firstn 12 (rev lines)) = Nat.min 12 3.
Proof.
  apply (compact_ticker_window (Samples.always (Throw (TypeError "x")))
           ["evt-1"; "{}"; "evt-3"]).
  intros d [<-|[<-|[<-|[]]]]; eexists; reflexivity.
Defined.

(** ** The runbook prompt *)

Lemma AskRunbook_ask_eq (rt : Runtime) (x : string) (w : World AgentAskRunbook.State) :
  AgentAskRunbook.ask rt x w
  = (Ok tt,
     {| ui :=
          AgentAskRunbook.setBusy false
            match checked_json (backend rt (sent w) (AgentAskRunbook.query_request rt x)) with
            | Ok data =>
                AgentAskRunbook.setReply data
                  (AgentAskRunbook.setReply VNull
                     (AgentAskRunbook.setErr ""
                        (AgentAskRunbook.setBusy true (ui w))))
            | Throw e =>
                AgentAskRunbook.setErr
                  (ProposedActions.or_text (message e) "Agent error")
                  (AgentAskRunbook.setReply VNull
                     (AgentAskRunbook.setErr ""
                        (AgentAskRunbook.setBusy true (ui w))))
            end;
        sent := (sent w ++ [AgentAskRunbook.query_request rt x])%list |}).
Proof.
  unfold AgentAskRunbook.ask, finally, try_catch, bind, set, fetch, settle, throw,
    checked_json.
  cbn [ui sent].
  destruct (backend rt (sent w) _) as [r|e]; [|reflexivity].
  destruct (ok r); cbn [negb]; [|reflexivity].
  destruct (res_json r); reflexivity.
Qed.

(** The runbook prompt asks "what should we do for <entity>?".  An answer
    is shown only for a 2xx response whose body decodes, and then with no
    error; in every other case the earlier answer is gone, and the error is
    the message of the failure, or "Agent error" when it has none.  The
    error banner and the answer are never shown together. *)
Theorem runbook_prompt_answer_or_error
    (rt : Runtime) (x : string) (w : World AgentAskRunbook.State) :
  let rq := POST (AgentAskRunbook.API rt ++ "/agent/query") "content-type"
              (Some (VObj [("message",
                            VStr ("what should we do for " ++ x ++ "?"))])) in
  let after := snd (AgentAskRunbook.ask rt x w) in
  sent after = (sent w ++ [rq])%list
  /\ match checked_json (backend rt (sent w) rq) with
     | Ok data =>
         AgentAskRunbook.reply (ui after) = data
         /\ AgentAskRunbook.err (ui after) = ""
     | Throw e =>
         AgentAskRunbook.reply (ui after) = VNull
         /\ AgentAskRunbook.err (ui after)
            = ProposedActions.or_text (message e) "Agent error"
     end
  /\ AgentAskRunbook.banner_shown (ui after)
     && AgentAskRunbook.pane_shown (ui after) = false.
Proof.
  intros rq after. subst rq after. rewrite AskRunbook_ask_eq.
  fold (AgentAskRunbook.query_request rt x). cbn [snd ui sent].
  split; [reflexivity|].
  destruct (checked_json _) as [data|e].
  - split; [split; reflexivity | reflexivity].
  - split; [split; reflexivity|].
    unfold AgentAskRunbook.banner_shown, AgentAskRunbook.pane_shown.
    cbn [AgentAskRunbook.setBusy AgentAskRunbook.setErr AgentAskRunbook.setReply
         AgentAskRunbook.err AgentAskRunbook.reply truthy].
    apply andb_false_r.
Qed.

(** On a response outside 2xx the prompt shows the status line as the
    error and no answer, even when the body decodes. *)
Theorem runbook_prompt_checks_status
    (rt : Runtime) (x : string) (w : World AgentAskRunbook.State) (r : Response) :
  backend rt (sent w) (AgentAskRunbook.query_request rt x) = Ok r ->
  ok r = false ->
  AgentAskRunbook.err (ui (snd (AgentAskRunbook.ask rt x w)))
  = string_of_N (res_status r) ++ " " ++ res_statusText r
  /\ AgentAskRunbook.reply (ui (snd (AgentAskRunbook.ask rt x w))) = VNull.
Proof.
  intros Hr Hok. rewrite AskRunbook_ask_eq. cbn [snd ui].
  unfold checked_json. rewrite Hr, Hok. cbn [negb]. split; [|reflexivity].
  cbn [AgentAskRunbook.setBusy AgentAskRunbook.setErr AgentAskRunbook.err].
  unfold ProposedActions.or_text, Error, message.
  destruct (String.eqb_spec (string_of_N (res_status r) ++ " " ++ res_statusText r) "")
    as [E|_]; [|reflexivity].
  destruct (string_of_N (res_status r)); discriminate E.
Qed.

Lemma runbook_prompt_checks_status_witness :
  AgentAskRunbook.err
    (ui (snd (AgentAskRunbook.ask Samples.server_error "order-service"
                (Samples.fresh AgentAskRunbook.initial))))
  = "500 Internal Server Error"
  /\ AgentAskRunbook.reply
       (ui (snd (AgentAskRunbook.ask Samples.server_error "order-service"
                   (Samples.fresh AgentAskRunbook.initial))))
     = VNull.
Proof.
  apply (runbook_prompt_checks_status Samples.server_error "order-service"
           (Samples.fresh AgentAskRunbook.initial)
           (Samples.response 500 "Internal Server Error" (Ok Samples.error_body)));
    reflexivity.
Defined.

(** ** The home page *)

Lemma getJSON_eq {S : Type} (rt : Runtime) (path : string) (w : World S) :
  LibApi.getJSON rt path w
  = (checked_json (backend rt (sent w) (GET (LibApi.API_BASE ++ path))),
     {| ui := ui w; sent := (sent w ++ [GET (LibApi.API_BASE ++ path)])%list |}).
Proof.
  unfold LibApi.getJSON, bind, fetch, checked_json, throw, settle.
  destruct (backend rt (sent w) _) as [res|e]; [|reflexivity].
  destruct (negb (ok res)); reflexivity.
Qed.

Lemma postJSON_eq {S : Type} (rt : Runtime) (path : string) (body : value)
    (w : World S) :
  LibApi.postJSON rt path body w
  = (checked_json
       (backend rt (sent w) (POST (LibApi.API_BASE ++ path) "Content-Type" (Some body))),
     {| ui := ui w;
        sent := (sent w ++ [POST (LibApi.API_BASE ++ path) "Content-Type"
                              (Some body)])%list |}).
Proof.
  unfold LibApi.postJSON, bind, fetch, checked_json, throw, settle.
  destruct (backend rt (sent w) _) as [res|e]; [|reflexivity].
  destruct (negb (ok res)); reflexivity.
Qed.

(** The home page's effect issues both of its requests, never throws, and
    sets the summary and the alerts only when both succeed: when either
    fails, neither is set. *)
Theorem home_mount_sets_both_or_neither
    (rt : Runtime) (p_first : bool) (w : World Home.State) :
  let rq1 := GET "http://localhost:8000/graph/topology-summary" in
  let rq2 := GET "http://localhost:8000/events/alerts/active" in
  let after := snd (Home.on_mount rt p_first w) in
  fst (Home.on_mount rt p_first w) = Ok tt
  /\ sent after = (sent w ++ [rq1; rq2])%list
  /\ match checked_json (backend rt (sent w) rq1),
           checked_json (backend rt (sent w ++ [rq1]) rq2) with
     | Ok s, Ok a =>
         ui after = Home.setAlerts a (Home.setSummary s (ui w))
     | _, _ => ui after = ui w
     end.
Proof.
  intros rq1 rq2 after. subst rq1 rq2 after.
  unfold Home.on_mount, bind, Async.promise. rewrite getJSON_eq.
  rewrite getJSON_eq. cbn [ui sent].
  change (LibApi.API_BASE ++ "/graph/topology-summary")
    with "http://localhost:8000/graph/topology-summary".
  change (LibApi.API_BASE ++ "/events/alerts/active")
    with "http://localhost:8000/events/alerts/active".
  destruct (checked_json (backend rt (sent w) _)) as [s|e1];
    destruct (checked_json (backend rt (sent w ++ _) _)) as [a|e2];
    cbn; rewrite <- app_assoc; repeat split.
Qed.

Lemma Home_askAgent_eq (rt : Runtime) (q : string) (w : World Home.State) :
  let rq := POST "http://localhost:8000/agent/query" "Content-Type"
              (Some (VObj [("message", VStr q); ("scope", VNull)])) in
  Home.askAgent rt q w
  = (Ok tt,
     {| ui :=
          Home.setLoading false
            (Home.setAgent
               match checked_json (backend rt (sent w) rq) with
               | Ok res => res
               | Throw e => VObj [("reply", VStr (String_of_exn e))]
               end
               (Home.setLoading true (ui w)));
        sent := (sent w ++ [rq])%list |}).
Proof.
  intros rq. subst rq.
  unfold Home.askAgent, finally, try_catch, bind, set. cbn [ui sent].
  rewrite postJSON_eq. cbn [ui sent].
  change (LibApi.API_BASE ++ "/agent/query") with "http://localhost:8000/agent/query".
  destruct (checked_json _); reflexivity.
Qed.

(** When the home page's question fails (the request is rejected, the
    status is outside 2xx, or the body does not decode), the answer shown
    is an object whose reply is the text of the error; nothing else of the
    page changes. *)
Theorem home_ask_shows_error_as_reply
    (rt : Runtime) (q : string) (w : World Home.State) (e : exn) :
  fails_with
    (backend rt (sent w)
       (POST "http://localhost:8000/agent/query" "Content-Type"
          (Some (VObj [("message", VStr q); ("scope", VNull)])))) e ->
  ui (snd (Home.askAgent rt q w))
  = Home.setLoading false
      (Home.setAgent (VObj [("reply", VStr (String_of_exn e))]) (ui w)).
Proof.
  intros Hf. apply checked_json_fails in Hf.
  rewrite Home_askAgent_eq. cbn [snd ui]. now rewrite Hf.
Qed.

Lemma home_ask_shows_error_as_reply_witness :
  Home.agent
    (ui (snd (Home.askAgent Samples.server_error "why is order-service slow"
                (Samples.fresh Home.initial))))
  = VObj [("reply", VStr "Error: 500 Internal Server Error")].
Proof.
  rewrite (home_ask_shows_error_as_reply Samples.server_error
             "why is order-service slow" (Samples.fresh Home.initial)
             (Error "500 Internal Server Error")).
  - reflexivity.
  - apply (BadStatus (Samples.response 500 "Internal Server Error"
                        (Ok Samples.error_body))).
    reflexivity.
Defined.

(** ** The graph explorer and the reports page *)

(** The explorer asks for /graph/entity/<type>/<id>, the two texts put in
    the path as they are.  Its handler catches nothing: when the request
    fails (rejected, outside 2xx, or a body that does not decode) the
    handler rejects with that failure, and the entity shown stays. *)
Theorem explorer_failed_load_keeps_entity
    (rt : Runtime) (t i : string) (w : World GraphExplorer.State) (e : exn) :
  fails_with
    (backend rt (sent w)
       (GET ("http://localhost:8000/graph/entity/" ++ t ++ "/" ++ i))) e ->
  GraphExplorer.load rt t i w
  = (Throw e,
     {| ui := ui w;
        sent := (sent w ++ [GET ("http://localhost:8000/graph/entity/"
                                 ++ t ++ "/" ++ i)])%list |}).
Proof.
  intros Hf. apply checked_json_fails in Hf.
  unfold GraphExplorer.load, bind, set. rewrite getJSON_eq.
  change (LibApi.API_BASE ++ "/graph/entity/" ++ t ++ "/" ++ i)
    with ("http://localhost:8000/graph/entity/" ++ t ++ "/" ++ i).
  now rewrite Hf.
Qed.

Lemma explorer_failed_load_keeps_entity_witness :
  GraphExplorer.load Samples.not_found "Service" "a/b"
    (Samples.fresh Cases.explorer_loaded)
  = (Throw (Error "404 Not Found"),
     {| ui := Cases.explorer_loaded;
        sent := [GET "http://localhost:8000/graph/entity/Service/a/b"] |}).
Proof.
  apply (explorer_failed_load_keeps_entity Samples.not_found "Service" "a/b"
           (Samples.fresh Cases.explorer_loaded) (Error "404 Not Found")).
  apply (BadStatus (Samples.response 404 "Not Found"
                      (Throw (SyntaxError "Unexpected token")))).
  reflexivity.
Defined.

(** The reports page's effect issues both of its requests, never throws,
    and sets its data, the pair of the two bodies, only when both succeed. *)
Theorem reports_mount_sets_both_or_neither
    (rt : Runtime) (p_first : bool) (w : World value) :
  let rq1 := GET "http://localhost:8000/incidents/search?window=24h" in
  let rq2 := GET "http://localhost:8000/events/timeline?window=2h" in
  let after := snd (Reports.on_mount rt p_first w) in
  fst (Reports.on_mount rt p_first w) = Ok tt
  /\ sent after = (sent w ++ [rq1; rq2])%list
  /\ match checked_json (backend rt (sent w) rq1),
           checked_json (backend rt (sent w ++ [rq1]) rq2) with
     | Ok incs, Ok tl => ui after = VObj [("incs", incs); ("tl", tl)]
     | _, _ => ui after = ui w
     end.
Proof.
  intros rq1 rq2 after. subst rq1 rq2 after.
  unfold Reports.on_mount, bind, Async.promise. rewrite getJSON_eq.
  rewrite getJSON_eq. cbn [ui sent].
  change (LibApi.API_BASE ++ "/incidents/search?window=24h")
    with "http://localhost:8000/incidents/search?window=24h".
  change (LibApi.API_BASE ++ "/events/timeline?window=2h")
    with "http://localhost:8000/events/timeline?window=2h".
  destruct (checked_json (backend rt (sent w) _)) as [s|e1];
    destruct (checked_json (backend rt (sent w ++ _) _)) as [a|e2];
    cbn; rewrite <- app_assoc; repeat split.
Qed.

(** ** The incident page *)

(** The incident page does not look at the status of its two responses.
    When both bodies decode to values other than null and undefined, it
    shows the first entry of the search's incidents (null when there is
    none) and the timeline of the second body (the empty list when it has
    none). *)
Theorem incident_page_shows_first_incident
    (rt : Runtime) (p_first : bool) (id : string) (w : World IncidentDetail.State)
    (r1 r2 : Response) (iData tData : value) :
  backend rt (sent w) (IncidentDetail.search_request id) = Ok r1 ->
  backend rt (sent w ++ [IncidentDetail.search_request id])
    (IncidentDetail.timeline_request id) = Ok r2 ->
  res_json r1 = Ok iData ->
  res_json r2 = Ok tData ->
  nullish iData = false ->
  nullish tData = false ->
  IncidentDetail.load rt p_first id w
  = (Ok tt,
     {| ui :=
          {| IncidentDetail.incident :=
               or_else (index0 (or_else (prop iData "incidents") (VArr []))) VNull;
             IncidentDetail.timeline :=
               or_else (prop tData "timeline") (VArr []) |};
        sent := (sent w ++ [IncidentDetail.search_request id;
                            IncidentDetail.timeline_request id])%list |}).
Proof.
  intros H1 H2 Hi Ht Hni Hnt.
  unfold IncidentDetail.load, bind, Async.promise, fetch, settle, set, member.
  cbn [ui sent]. rewrite H1, H2. cbn [Async.Promise_all2 fst snd].
  rewrite Hi, Ht, Hni, Hnt. cbn [ui sent]. now rewrite <- app_assoc.
Qed.

Lemma incident_page_shows_first_incident_witness :
  ui (snd (IncidentDetail.load
             (Samples.always (Ok (Samples.response 404 "Not Found" (Ok Cases.two_incidents))))
             true "INC-1002" (Samples.fresh IncidentDetail.initial)))
  = {| IncidentDetail.incident := Cases.incident "INC-1001";
       IncidentDetail.timeline := VArr [] |}.
Proof.
  rewrite (incident_page_shows_first_incident
             (Samples.always (Ok (Samples.response 404 "Not Found" (Ok Cases.two_incidents))))
             true "INC-1002" (Samples.fresh IncidentDetail.initial)
             (Samples.response 404 "Not Found" (Ok Cases.two_incidents))
             (Samples.response 404 "Not Found" (Ok Cases.two_incidents))
             Cases.two_incidents Cases.two_incidents);
    reflexivity.
Defined.

(** Unless both responses arrive, both bodies decode and the search's body
    is neither null nor undefined, the load of the incident page rejects
    (nothing catches it) with both requests issued and nothing set. *)
Theorem incident_page_rejects_and_sets_nothing
    (rt : Runtime) (p_first : bool) (id : string) (w : World IncidentDetail.State) :
  (forall r1 r2 iData tData,
     backend rt (sent w) (IncidentDetail.search_request id) = Ok r1 ->
     backend rt (sent w ++ [IncidentDetail.search_request id])
       (IncidentDetail.timeline_request id) = Ok r2 ->
     res_json r1 = Ok iData ->
     res_json r2 = Ok tData ->
     nullish iData = true) ->
  exists e,
    IncidentDetail.load rt p_first id w
    = (Throw e,
       {| ui := ui w;
          sent := (sent w ++ [IncidentDetail.search_request id;
                              IncidentDetail.timeline_request id])%list |}).
Proof.
  intros H.
  unfold IncidentDetail.load, bind, Async.promise, fetch, settle, set, member.
  cbn [ui sent].
  destruct (backend rt (sent w) _) as [r1|e1] eqn:H1;
    destruct (backend rt (sent w ++ _) _) as [r2|e2] eqn:H2;
    cbn [Async.Promise_all2 fst snd];
    try (eexists; rewrite <- app_assoc; reflexivity).
  destruct (res_json r1) as [iData|e] eqn:Hi;
    [|eexists; rewrite <- app_assoc; reflexivity].
  destruct (res_json r2) as [tData|e] eqn:Ht;
    [|eexists; rewrite <- app_assoc; reflexivity].
  rewrite (H r1 r2 iData tData eq_refl eq_refl Hi Ht).
  eexists; rewrite <- app_assoc; reflexivity.
Qed.

Lemma incident_page_rejects_and_sets_nothing_witness :
  exists e,
    IncidentDetail.load Samples.unreachable false "INC-1001"
      (Samples.fresh Cases.incident_shown)
    = (Throw e,
       {| ui := Cases.incident_shown;
          sent := ([] ++ [IncidentDetail.search_request "INC-1001";
                          IncidentDetail.timeline_request "INC-1001"])%list |}).
Proof.
  apply (incident_page_rejects_and_sets_nothing Samples.unreachable false "INC-1001"
           (Samples.fresh Cases.incident_shown)).
  intros r1 r2 iData tData H1. discriminate H1.
Defined.

(** The load of the incident page is not all or nothing: when the timeline's
    body decodes to null, the incident has already been replaced by the time
    the load rejects, and the timeline shown is the old one. *)
Theorem incident_page_null_timeline_updates_half
    (rt : Runtime) (p_first : bool) (id : string) (w : World IncidentDetail.State)
    (r1 r2 : Response) (iData tData : value) :
  backend rt (sent w) (IncidentDetail.search_request id) = Ok r1 ->
  backend rt (sent w ++ [IncidentDetail.search_request id])
    (IncidentDetail.timeline_request id) = Ok r2 ->
  res_json r1 = Ok iData ->
  res_json r2 = Ok tData ->
  nullish iData = false ->
  nullish tData = true ->
  fst (IncidentDetail.load rt p_first id w)
  = Throw (TypeError
             "Cannot read properties of null or undefined (reading 'timeline')")
  /\ ui (snd (IncidentDetail.load rt p_first id w))
     = {| IncidentDetail.incident :=
            or_else (index0 (or_else (prop iData "incidents") (VArr []))) VNull;
          IncidentDetail.timeline := IncidentDetail.timeline (ui w) |}.
Proof.
  intros H1 H2 Hi Ht Hni Hnt.
  unfold IncidentDetail.load, bind, Async.promise, fetch, settle, set, member.
  cbn [ui sent]. rewrite H1, H2. cbn [Async.Promise_all2 fst snd].
  rewrite Hi, Ht, Hni, Hnt. split; reflexivity.
Qed.

Lemma incident_page_null_timeline_updates_half_witness :
  fst (IncidentDetail.load Cases.timeline_null true "INC-1001"
         (Samples.fresh Cases.incident_shown))
  = Throw (TypeError
             "Cannot read properties of null or undefined (reading 'timeline')")
  /\ ui (snd (IncidentDetail.load Cases.timeline_null true "INC-1001"
                (Samples.fresh Cases.incident_shown)))
     = {| IncidentDetail.incident := Cases.incident "INC-1001";
          IncidentDetail.timeline := VArr [VObj [("type", VStr "alert")]] |}.
Proof.
  apply (incident_page_null_timeline_updates_half Cases.timeline_null true "INC-1001"
           (Samples.fresh Cases.incident_shown)
           (Samples.response 404 "Not Found" (Ok Cases.two_incidents))
           (Samples.response 200 "OK" (Ok VNull))
           Cases.two_incidents VNull);
    reflexivity.
Defined.

(** ** The incidents page *)

Lemma Incidents_on_mount_eq (rt : Runtime) (p_first : bool) (w : World Incidents.State) :
  Incidents.on_mount rt p_first w
  = (Ok tt,
     {| ui :=
          match Async.Promise_all2 p_first
                  (Async.unchecked_json
                     (backend rt (sent w) (Incidents.incidents_request rt)))
                  (Async.unchecked_json
                     (backend rt (sent w ++ [Incidents.incidents_request rt])
                        (Incidents.alerts_request rt))) with
          | Ok (inc, al) =>
              Incidents.setAlerts (or_else (opt_prop al "alerts") (VArr []))
                (Incidents.setIncidents
                   (or_else (opt_prop inc "incidents") (VArr []))
                   (Incidents.setErr "" (ui w)))
          | Throw e =>
              Incidents.setErr
                (ProposedActions.or_text (message e)
                   "Failed to load incidents/alerts")
                (Incidents.setErr "" (ui w))
          end;
        sent := (sent w ++ [Incidents.incidents_request rt;
                            Incidents.alerts_request rt])%list |}).
Proof.
  unfold Incidents.on_mount, try_catch, bind, Async.promise, fetch, settle, set,
    Async.unchecked_json.
  cbn [ui sent].
  destruct (backend rt (sent w) _) as [r1|e1]; [destruct (res_json r1)|];
    cbn [ui sent];
    (destruct (backend rt (sent w ++ _) _) as [r2|e2]; [destruct (res_json r2)|]);
    cbn [Async.Promise_all2 fst snd ui sent]; rewrite <- app_assoc; reflexivity.
Qed.

(** When a request of the incidents page is rejected or a body does not
    decode, the page shows an error and keeps the incidents and the alerts
    it showed before. *)
Theorem incidents_page_failure_keeps_lists
    (rt : Runtime) (p_first : bool) (w : World Incidents.State) :
  (exists e,
     Async.unchecked_json (backend rt (sent w) (Incidents.incidents_request rt))
     = Throw e
     \/ Async.unchecked_json
          (backend rt (sent w ++ [Incidents.incidents_request rt])
             (Incidents.alerts_request rt))
        = Throw e) ->
  let after := ui (snd (Incidents.on_mount rt p_first w)) in
  fst (Incidents.on_mount rt p_first w) = Ok tt
  /\ Incidents.err after <> ""
  /\ Incidents.incidents after = Incidents.incidents (ui w)
  /\ Incidents.alerts after = Incidents.alerts (ui w).
Proof.
  intros (e & H) after. subst after. rewrite Incidents_on_mount_eq.
  cbn [fst snd ui]. split; [reflexivity|].
  destruct (Async.unchecked_json (backend rt (sent w) _)) as [a|e1];
    destruct (Async.unchecked_json (backend rt (sent w ++ _) _)) as [b|e2];
    cbn [Async.Promise_all2].
  - destruct H as [H|H]; discriminate H.
  - split; [apply or_text_nonempty; discriminate | split; reflexivity].
  - split; [apply or_text_nonempty; discriminate | split; reflexivity].
  - split; [apply or_text_nonempty; discriminate | split; reflexivity].
Qed.

Lemma incidents_page_failure_keeps_lists_witness :
  let after := ui (snd (Incidents.on_mount Samples.not_found true
                          (Samples.fresh Cases.incidents_loaded))) in
  fst (Incidents.on_mount Samples.not_found true
         (Samples.fresh Cases.incidents_loaded)) = Ok tt
  /\ Incidents.err after <> ""
  /\ Incidents.incidents after = VArr [Cases.incident "INC-1001"]
  /\ Incidents.alerts after = VArr [VObj [("id", VStr "ALERT-5001")]].
Proof.
  apply (incidents_page_failure_keeps_lists Samples.not_found true
           (Samples.fresh Cases.incidents_loaded)).
  exists (SyntaxError "Unexpected token"). left. reflexivity.
Defined.

(** The incidents page does not look at the status of its responses: when
    both bodies decode, whatever the statuses, no error is shown, and each
    list becomes the field of its body, or the empty list when the body has
    no such field. *)
Theorem incidents_page_ignores_status
    (rt : Runtime) (p_first : bool) (w : World Incidents.State)
    (r1 r2 : Response) (inc al : value) :
  backend rt (sent w) (Incidents.incidents_request rt) = Ok r1 ->
  backend rt (sent w ++ [Incidents.incidents_request rt])
    (Incidents.alerts_request rt) = Ok r2 ->
  res_json r1 = Ok inc ->
  res_json r2 = Ok al ->
  ui (snd (Incidents.on_mount rt p_first w))
  = {| Incidents.incidents := or_else (opt_prop inc "incidents") (VArr []);
       Incidents.alerts := or_else (opt_prop al "alerts") (VArr []);
       Incidents.err := "" |}.
Proof.
  intros H1 H2 Hi Ha. rewrite Incidents_on_mount_eq. cbn [snd ui].
  rewrite H1, H2. cbn [Async.unchecked_json]. rewrite Hi, Ha. reflexivity.
Qed.

Lemma incidents_page_ignores_status_witness :
  ui (snd (Incidents.on_mount Samples.server_error false
             (Samples.fresh Cases.incidents_loaded)))
  = {| Incidents.incidents := VArr []; Incidents.alerts := VArr [];
       Incidents.err := "" |}.
Proof.
  rewrite (incidents_page_ignores_status Samples.server_error false
             (Samples.fresh Cases.incidents_loaded)
             (Samples.response 500 "Internal Server Error" (Ok Samples.error_body))
             (Samples.response 500 "Internal Server Error" (Ok Samples.error_body))
             Samples.error_body Samples.error_body);
    reflexivity.
Defined.

(** ** The runbooks page *)

Lemma Runbooks_load_eq (rt : Runtime) (w : World Runbooks.State) :
  Runbooks.load rt w
  = (Ok tt,
     {| ui :=
          Runbooks.setLoading false
            match checked_json (backend rt (sent w) (GET (Runbooks.API rt ++ "/runbooks"))) with
            | Ok data =>
                Runbooks.setList (Runbooks.items_of data)
                  (Runbooks.setErr "" (Runbooks.setLoading true (ui w)))
            | Throw e =>
                Runbooks.setList (VArr [])
                  (Runbooks.setErr
                     (ProposedActions.or_text (message e) "Failed to load runbooks")
                     (Runbooks.setErr "" (Runbooks.setLoading true (ui w))))
            end;
        sent := (sent w ++ [GET (Runbooks.API rt ++ "/runbooks")])%list |}).
Proof.
  unfold Runbooks.load, finally, try_catch, bind, set, fetch, settle, throw,
    checked_json.
  cbn [ui sent].
  destruct (backend rt (sent w) _) as [r|e]; [|reflexivity].
  destruct (ok r); cbn [negb]; [|reflexivity].
  destruct (res_json r); reflexivity.
Qed.

(** The runbooks page accepts both shapes of the list: a 2xx body that is
    an array, or an object whose [items] is that array, gives the same
    list, with no error. *)
Theorem runbooks_load_accepts_both_shapes
    (rt : Runtime) (w : World Runbooks.State) (r : Response) (data : value)
    (xs : list value) :
  backend rt (sent w) (GET (Runbooks.API rt ++ "/runbooks")) = Ok r ->
  ok r = true ->
  res_json r = Ok data ->
  (data = VArr xs
   \/ exists fields, data = VObj fields /\ assoc "items" fields = Some (VArr xs)) ->
  ui (snd (Runbooks.load rt w))
  = {| Runbooks.list := VArr xs; Runbooks.loading := false; Runbooks.err := "" |}.
Proof.
  intros Hr Hok Hj Hshape. rewrite Runbooks_load_eq. cbn [snd ui].
  rewrite Hr, (checked_json_ok r data Hok Hj).
  destruct Hshape as [-> | (fields & -> & Hitems)].
  - reflexivity.
  - unfold Runbooks.items_of. cbn [isArray opt_prop nullish prop].
    rewrite Hitems. reflexivity.
Qed.

Lemma runbooks_load_accepts_both_shapes_witness :
  ui (snd (Runbooks.load (Samples.answers (VObj [("items", VArr [Cases.runbook])]))
             (Samples.fresh Runbooks.initial)))
  = ui (snd (Runbooks.load (Samples.answers (VArr [Cases.runbook]))
               (Samples.fresh Runbooks.initial))).
Proof.
  rewrite (runbooks_load_accepts_both_shapes
             (Samples.answers (VObj [("items", VArr [Cases.runbook])]))
             (Samples.fresh Runbooks.initial)
             (Samples.response 200 "OK" (Ok (VObj [("items", VArr [Cases.runbook])])))
             (VObj [("items", VArr [Cases.runbook])]) [Cases.runbook]);
    try reflexivity.
  right. eexists. split; reflexivity.
Defined.

(** When the load of the runbooks page fails, the error is set, the list
    is emptied, and the page renders the "No runbooks yet." paragraph. *)
Theorem runbooks_failed_load_empties_list
    (rt : Runtime) (w : World Runbooks.State) (e : exn) :
  fails_with (backend rt (sent w) (GET (Runbooks.API rt ++ "/runbooks"))) e ->
  ui (snd (Runbooks.load rt w))
  = {| Runbooks.list := VArr []; Runbooks.loading := false;
       Runbooks.err := ProposedActions.or_text (message e) "Failed to load runbooks" |}
  /\ Runbooks.render rt (ui (snd (Runbooks.load rt w))) = Ok None.
Proof.
  intros Hf. apply checked_json_fails in Hf.
  rewrite Runbooks_load_eq. cbn [snd ui]. rewrite Hf. split; reflexivity.
Qed.

Lemma runbooks_failed_load_empties_list_witness :
  ui (snd (Runbooks.load Samples.unreachable (Samples.fresh Cases.runbooks_loaded)))
  = {| Runbooks.list := VArr []; Runbooks.loading := false;
       Runbooks.err := "Failed to fetch" |}
  /\ Runbooks.render Samples.unreachable
       (ui (snd (Runbooks.load Samples.unreachable
                   (Samples.fresh Cases.runbooks_loaded))))
     = Ok None.
Proof.
  apply (runbooks_failed_load_empties_list Samples.unreachable
           (Samples.fresh Cases.runbooks_loaded) (TypeError "Failed to fetch")).
  apply Rejected.
Defined.

(** A runbook whose [enabled] is missing or null is shown as enabled: the
    fourth cell of its row is the text "true". *)
Theorem runbook_row_enabled_by_default
    (rt : Runtime) (fields : list (string * value)) (cells : list value) :
  nullish (prop (VObj fields) "enabled") = true ->
  Runbooks.render_row rt (VObj fields) = Ok cells ->
  nth_error cells 3 = Some (VStr "true").
Proof.
  intros Hn H. unfold Runbooks.render_row in H.
  cbn [member nullish] in H. unfold coalesce in H. rewrite Hn in H.
  cbn [to_string] in H.
  unfold ProposedActions.children in H.
  destruct (forallb ProposedActions.child _); [|discriminate H].
  injection H as <-. reflexivity.
Qed.

Lemma runbook_row_enabled_by_default_witness :
  exists cells,
    Runbooks.render_row Samples.unreachable Cases.runbook = Ok cells
    /\ nth_error cells 3 = Some (VStr "true").
Proof.
  eexists. split; [reflexivity|].
  apply (runbook_row_enabled_by_default Samples.unreachable
           [("runbook_id", VStr "RB-restore-pump"); ("name", VStr "Restore Pump P-7")]);
    reflexivity.
Defined.

(** ** Handlers with a busy flag *)

(** The handlers that raise a busy flag never throw and always lower it,
    however their request settles: the audit log's load, the runbooks page's
    load, the runbook prompt's ask, the home page's ask, and the dock's ask
    on a message that is not blank.  Each sends exactly one request. *)
Theorem handlers_lower_their_busy_flag (rt : Runtime) :
  (forall filter w,
     fst (AgentActionsAudit.load rt filter w) = Ok tt
     /\ AgentActionsAudit.busy (ui (snd (AgentActionsAudit.load rt filter w))) = false
     /\ List.length (sent (snd (AgentActionsAudit.load rt filter w)))
        = S (List.length (sent w)))
  /\ (forall w,
        fst (Runbooks.load rt w) = Ok tt
        /\ Runbooks.loading (ui (snd (Runbooks.load rt w))) = false
        /\ List.length (sent (snd (Runbooks.load rt w))) = S (List.length (sent w)))
  /\ (forall x w,
        fst (AgentAskRunbook.ask rt x w) = Ok tt
        /\ AgentAskRunbook.busy (ui (snd (AgentAskRunbook.ask rt x w))) = false
        /\ List.length (sent (snd (AgentAskRunbook.ask rt x w)))
           = S (List.length (sent w)))
  /\ (forall q w,
        fst (Home.askAgent rt q w) = Ok tt
        /\ Home.loading (ui (snd (Home.askAgent rt q w))) = false
        /\ List.length (sent (snd (Home.askAgent rt q w))) = S (List.length (sent w)))
  /\ (forall m w,
        fst (AgentDock.ask rt m w) = Ok tt
        /\ (trim_is_empty m = false ->
            AgentDock.busy (ui (snd (AgentDock.ask rt m w))) = false
            /\ List.length (sent (snd (AgentDock.ask rt m w)))
               = S (List.length (sent w)))).
Proof.
  assert (Hlen : forall (l : list Request) rq,
             List.length (l ++ [rq])%list = S (List.length l)).
  { intros l rq. rewrite length_app. simpl. lia. }
  repeat split.
  - rewrite AA_load_eq. reflexivity.
  - rewrite AA_load_eq. reflexivity.
  - rewrite AA_load_eq. apply Hlen.
  - rewrite Runbooks_load_eq. reflexivity.
  - rewrite Runbooks_load_eq. reflexivity.
  - rewrite Runbooks_load_eq. apply Hlen.
  - rewrite AskRunbook_ask_eq. reflexivity.
  - rewrite AskRunbook_ask_eq. reflexivity.
  - rewrite AskRunbook_ask_eq. apply Hlen.
  - rewrite Home_askAgent_eq. reflexivity.
  - rewrite Home_askAgent_eq. reflexivity.
  - rewrite Home_askAgent_eq. apply Hlen.
  - apply ask_never_throws.
  - rewrite (ask_eq rt m w H). reflexivity.
  - rewrite (ask_eq rt m w H). apply Hlen.
Qed.
